(** * TextExtractor node: a shallow embedding of [TextExtractor.node.ts]

    The development follows the TypeScript source of the n8n node
    [nodes/TextExtractor/TextExtractor.node.ts] and [pdfToImages.ts]:
    file-type detection, the five extraction functions, and the batch loop
    of [TextExtractor.execute] with its lazily created Tesseract worker.

    Conventions of the embedding.
    - A JavaScript string is a [string] of code units below 256 (the
      Latin-1 range); [toLowerCase] and [trim] are the restrictions of the
      ECMAScript operations to that range.
    - A JavaScript [number] is the type [number] below: a finite value
      written as a rational, [NaN] or an infinity.  The arithmetic of the
      source, a sum of rounded confidences and one division by a length,
      rounds its result to the nearest double, as IEEE 754 binary64 does;
      the two zeros are not told apart.
    - [buffer.buffer], the [ArrayBuffer] under a Node [Buffer], is decided
      by whoever allocated the [Buffer]: it is a field of the world.
    - The external engines (unpdf, pdf-to-png-converter, sharp,
      tesseract.js, mammoth, word-extractor) and the n8n host are
      collaborators whose answers may depend on everything that happened
      before: each is a function of the history of calls, returning a value
      or a thrown error.
    - [async]/[await] is sequential here (one item at a time, every call
      awaited), so a promise is modelled by its outcome. *)

From Stdlib Require Import String Ascii List ZArith QArith Qround Qabs Lia Lqa Bool Arith.
Import ListNotations.

Open Scope string_scope.

(* ------------------------------------------------------------------ *)
(** ** JavaScript strings *)

Module JsString.

Definition code (c : ascii) : nat := nat_of_ascii c.

(** [String.prototype.toLowerCase] on one code unit of the Latin-1 range:
    A-Z and the accented capitals U+00C0..U+00DE (but not the
    multiplication sign U+00D7) move up by 32. *)
Definition lower_unit (c : ascii) : ascii :=
  let n := code c in
  if ((65 <=? n) && (n <=? 90)
      || (192 <=? n) && (n <=? 222) && negb (n =? 215))%nat
  then ascii_of_nat (n + 32) else c.

Fixpoint toLowerCase (s : string) : string :=
  match s with
  | EmptyString => EmptyString
  | String c r => String (lower_unit c) (toLowerCase r)
  end.

(** White space of [String.prototype.trim] in the Latin-1 range:
    TAB, LF, VT, FF, CR, SPACE and NBSP. *)
Definition is_space (c : ascii) : bool :=
  let n := code c in
  ((9 <=? n) && (n <=? 13) || (n =? 32) || (n =? 160))%nat.

Fixpoint trimStart (s : string) : string :=
  match s with
  | EmptyString => EmptyString
  | String c r => if is_space c then trimStart r else s
  end.

Fixpoint trimEnd (s : string) : string :=
  match s with
  | EmptyString => EmptyString
  | String c r =>
      match trimEnd r with
      | EmptyString => if is_space c then EmptyString else String c EmptyString
      | r' => String c r'
      end
  end.

Definition trim (s : string) : string := trimEnd (trimStart s).

(** A string is truthy when it is not empty. *)
Definition truthy (s : string) : bool :=
  match s with EmptyString => false | String _ _ => true end.

(** [s.split(sep)] for a one-character separator: never the empty array. *)
Fixpoint split (sep : ascii) (s : string) : list string :=
  match s with
  | EmptyString => [EmptyString]
  | String c r =>
      if Ascii.eqb c sep then EmptyString :: split sep r
      else match split sep r with
           | h :: t => String c h :: t
           | [] => [String c EmptyString]
           end
  end.

(** [arr.pop()]: the last element, [None] (undefined) on the empty array. *)
Fixpoint pop {A : Type} (l : list A) : option A :=
  match l with
  | [] => None
  | [x] => Some x
  | _ :: t => pop t
  end.

(** [arr.join(sep)]. *)
Fixpoint join (sep : string) (l : list string) : string :=
  match l with
  | [] => EmptyString
  | [x] => x
  | x :: t => x ++ sep ++ join sep t
  end.

Definition startsWith (p s : string) : bool := String.prefix p s.

Fixpoint contains (c : ascii) (s : string) : bool :=
  match s with
  | EmptyString => false
  | String d r => Ascii.eqb d c || contains c r
  end.

(** The part of [s] after its last occurrence of [c]; all of [s] when
    [c] does not occur.  Written independently of [split]/[pop]. *)
Fixpoint afterLast (c : ascii) (s : string) : string :=
  match s with
  | EmptyString => EmptyString
  | String d r =>
      if contains c r then afterLast c r
      else if Ascii.eqb d c then r else s
  end.

End JsString.

(* ------------------------------------------------------------------ *)
(** ** JavaScript objects used as tables *)

Module JsObject.

(** The members every object literal inherits from [Object.prototype]
    (V8 / Node.js).  A bracket lookup [obj[k]] finds them when [obj] has
    no own property [k]; all of them are functions or objects, hence
    truthy. *)
Definition prototype_keys : list string :=
  [ "constructor"; "__defineGetter__"; "__defineSetter__"; "hasOwnProperty";
    "__lookupGetter__"; "__lookupSetter__"; "isPrototypeOf";
    "propertyIsEnumerable"; "toString"; "valueOf"; "__proto__";
    "toLocaleString" ].

(** The outcome of a lookup that is not [undefined]. *)
Inductive member (A : Type) : Type :=
| Own (a : A)
| Inherited (k : string).
Arguments Own {A} a.
Arguments Inherited {A} k.

Fixpoint own {A : Type} (o : list (string * A)) (k : string) : option A :=
  match o with
  | [] => None
  | (k', a) :: t => if String.eqb k' k then Some a else own t k
  end.

Definition inherited (k : string) : bool :=
  existsb (String.eqb k) prototype_keys.

(** [obj[k]]: [None] is [undefined]. *)
Definition get {A : Type} (o : list (string * A)) (k : string)
  : option (member A) :=
  match own o k with
  | Some a => Some (Own a)
  | None => if inherited k then Some (Inherited k) else None
  end.

(** [Object.keys(obj)] and [Object.values(obj)], in property order. *)
Definition keys {A : Type} (o : list (string * A)) : list string := map fst o.
Definition values {A : Type} (o : list (string * A)) : list A := map snd o.

End JsObject.

Import JsString JsObject.

(* ------------------------------------------------------------------ *)
(** ** File type detection *)

Inductive FileType : Type := image | pdf | docx | doc | txt.

Definition MIME_MAP : list (string * FileType) :=
  [ ("image/png", image);
    ("image/jpeg", image);
    ("image/jpg", image);
    ("image/webp", image);
    ("image/bmp", image);
    ("image/tiff", image);
    ("image/gif", image);
    ("application/pdf", pdf);
    ("application/vnd.openxmlformats-officedocument.wordprocessingml.document", docx);
    ("application/msword", doc);
    ("text/plain", txt) ].

Definition EXT_MAP : list (string * FileType) :=
  [ ("png", image);
    ("jpg", image);
    ("jpeg", image);
    ("webp", image);
    ("bmp", image);
    ("tiff", image);
    ("tif", image);
    ("gif", image);
    ("pdf", pdf);
    ("docx", docx);
    ("doc", doc);
    ("txt", txt) ].

(** What [detectFileType] hands back: [None] is [null]; [Some (Own k)] is
    one of the five kinds; [Some (Inherited k)] is the member of
    [Object.prototype] that the bracket lookup found instead. *)
Definition Detected : Type := option (member FileType).

(** [if (a && T[a]) return T[a];]: every member found is truthy. *)
Definition lookup_truthy (T : list (string * FileType)) (k : option string)
  : Detected :=
  match k with
  | Some s => if truthy s then get T s else None
  | None => None
  end.

Definition detectFileType (mimeType fileName : option string) : Detected :=
  match lookup_truthy MIME_MAP mimeType with
  | Some v => Some v
  | None =>
      match fileName with
      | Some f =>
          if truthy f then
            let ext := option_map toLowerCase (pop (split "." f)) in
            match lookup_truthy EXT_MAP ext with
            | Some v => Some v
            | None => None
            end
          else None
      | None => None
      end
  end.

(* ------------------------------------------------------------------ *)
(** ** JavaScript numbers *)

(** A finite value is written as the rational it denotes. *)
Inductive number : Type :=
| Fin (q : Q)
| NaN
| PosInf
| NegInf.

Definition of_Z (z : Z) : number := Fin (inject_Z z).
Definition of_nat (n : nat) : number := of_Z (Z.of_nat n).

(** [Math.round]: the integer nearest to [x], halves going up. *)
Definition Math_round (x : number) : number :=
  match x with
  | Fin q => of_Z (Qfloor (q + (1 # 2)))
  | _ => x
  end.

Definition sign_inf (positive : bool) : number :=
  if positive then PosInf else NegInf.

(** *** Rounding to a double

    A JavaScript number is an IEEE 754 binary64 value, and [+] and [/]
    return the double nearest to the exact result, a tie going to the even
    significand.  [round64] is that rounding, on the exact rational. *)

(** The integer nearest to [n / d], for [0 < d]; a tie goes to the even
    one. *)
Definition nearest_even (n d : Z) : Z :=
  let f := (n / d)%Z in
  match (2 * (n mod d) ?= d)%Z with
  | Lt => f
  | Gt => (f + 1)%Z
  | Eq => if Z.even f then f else (f + 1)%Z
  end.

(** [floor (log2 |q|)], for [q] other than zero. *)
Definition ilog2 (q : Q) : Z :=
  let a := Z.abs (Qnum q) in
  let b := QDen q in
  let d := (Z.log2 a - Z.log2 b)%Z in
  if (b * 2 ^ Z.max 0 d <=? a * 2 ^ Z.max 0 (- d))%Z then d else (d - 1)%Z.

(** The exponent of the last bit of a 53-bit significand for [q]; the
    subnormal range stops it at [-1074]. *)
Definition ulp_exponent (q : Q) : Z := Z.max (ilog2 q - 52) (-1074).

(** The multiple of [2 ^ e] nearest to [q], in lowest terms. *)
Definition round_at (e : Z) (q : Q) : Q :=
  let up := (2 ^ Z.max 0 (- e))%Z in
  let down := (2 ^ Z.max 0 e)%Z in
  let m := nearest_even (Qnum q * up) (QDen q * down) in
  Qred (Qmake (m * down) (Z.to_pos up)).

(** The double nearest to [q]: an infinity from [2 ^ 1024] on. *)
Definition round64 (q : Q) : number :=
  let v := round_at (ulp_exponent q) q in
  if Qle_bool (inject_Z (2 ^ 1024)) (Qabs v) then sign_inf (Qle_bool 0 q)
  else Fin v.

(** [a + b]. *)
Definition js_add (a b : number) : number :=
  match a, b with
  | NaN, _ | _, NaN => NaN
  | PosInf, NegInf | NegInf, PosInf => NaN
  | PosInf, _ | _, PosInf => PosInf
  | NegInf, _ | _, NegInf => NegInf
  | Fin x, Fin y => round64 (x + y)
  end.

(** [a / b]; a zero divisor is the positive zero (it is a length). *)
Definition js_div (a b : number) : number :=
  match a, b with
  | NaN, _ | _, NaN => NaN
  | Fin x, Fin y =>
      if Qeq_bool y 0 then
        if Qeq_bool x 0 then NaN else sign_inf (Qle_bool 0 x)
      else round64 (x / y)
  | Fin _, _ => Fin 0
  | PosInf, Fin y => sign_inf (Qle_bool 0 y)
  | NegInf, Fin y => sign_inf (negb (Qle_bool 0 y))
  | _, _ => NaN
  end.

(** [a >= b]: false as soon as one side is [NaN]. *)
Definition js_ge (a b : number) : bool :=
  match a, b with
  | NaN, _ | _, NaN => false
  | PosInf, _ => true
  | _, NegInf => true
  | NegInf, _ => false
  | _, PosInf => false
  | Fin x, Fin y => Qle_bool y x
  end.

(** [s.length]. *)
Definition js_length (s : string) : number := of_nat (String.length s).

(* ------------------------------------------------------------------ *)
(** ** Values exchanged with the collaborators *)

Definition Buffer : Type := list Byte.byte.

(** The memory under a [Buffer]: at least its bytes, more when the
    [Buffer] is a slice of a pool. *)
Definition ArrayBuffer : Type := list Byte.byte.

Record Error : Type := mkError { message : string }.

(** A live Tesseract worker, named by the number its factory gave it. *)
Definition Worker : Type := nat.

(** unpdf's document proxy. *)
Record PdfDoc : Type := mkPdfDoc { numPages : number }.

(** One page of pdf-to-png-converter's output; [content] may be undefined. *)
Record Page : Type := mkPage { content : option Buffer }.

(** [data] of tesseract.js' [recognize]. *)
Module Recognized.
Record t : Type := mk { text : string; confidence : number }.
End Recognized.

(** n8n's [IBinaryData], as far as the node reads it. *)
Module BinaryData.
Record t : Type := mk { fileName : option string; mimeType : option string }.
End BinaryData.

(** An input item: [binary] is an object from field names to binary data,
    in property order, or undefined. *)
Record Item : Type := mkItem { binary : option (list (string * BinaryData.t)) }.

(** The [json] of an output item.  [None] stands for [null] and for a key
    the record does not have. *)
Module Json.
Record t : Type := mk {
  error : option string;
  text : option string;
  fileName : string;
  mimeType : string;
  fileType : Detected;
  pageCount : option number;
  confidence : option number;
  language : option string;
  method : option string
}.
End Json.

(** Every call that leaves the node, with what came back. *)
Inductive Event : Type :=
| EvGetDocumentProxy (b : Buffer) (r : Error + PdfDoc)
| EvExtractText (d : PdfDoc) (r : Error + string)
| EvPdfToPng (b : ArrayBuffer) (scale : number) (r : Error + list Page)
| EvSharp (b : Buffer) (r : Error + Buffer)
| EvRecognize (w : Worker) (b : Buffer) (r : Error + Recognized.t)
| EvCreateWorker (lang : string) (r : Error + Worker)
| EvTerminate (w : Worker) (r : Error + unit)
| EvExtractRawText (b : Buffer) (r : Error + string)
| EvWordExtract (b : Buffer) (r : Error + string)
| EvAssertBinaryData (i : nat) (p : string) (r : Error + BinaryData.t)
| EvGetBinaryDataBuffer (i : nat) (p : string) (r : Error + Buffer).

(** Calls made so far, the latest first. *)
Definition History : Type := list Event.

(** The collaborators.  The engines and the two binary helpers answer as a
    function of the history; the node parameters are fixed for the run but
    resolving one may throw. *)
Record World : Type := mkWorld {
  (* unpdf *)
  getDocumentProxy : History -> Buffer -> Error + PdfDoc;
  extractText : History -> PdfDoc -> Error + string;
  (* pdf-to-png-converter *)
  pdfToPng : History -> ArrayBuffer -> number -> Error + list Page;
  (* buffer.buffer *)
  arrayBuffer : Buffer -> ArrayBuffer;
  (* sharp(buffer).greyscale().normalize().sharpen().toBuffer() *)
  sharp : History -> Buffer -> Error + Buffer;
  (* tesseract.js *)
  createWorker : History -> string -> Error + Worker;
  recognize : History -> Worker -> Buffer -> Error + Recognized.t;
  terminate : History -> Worker -> Error + unit;
  (* mammoth.extractRawText({ buffer }).value *)
  extractRawText : History -> Buffer -> Error + string;
  (* new WordExtractor().extract(buffer).getBody() *)
  wordExtract : History -> Buffer -> Error + string;
  (* buffer.toString('utf-8') *)
  toStringUtf8 : Buffer -> string;
  (* IExecuteFunctions *)
  getInputData : list Item;
  getNodeParameterString : string -> nat -> option string -> Error + string;
  getNodeParameterNumber : string -> nat -> option number -> Error + number;
  getNodeParameterBoolean : string -> nat -> Error + bool;
  continueOnFail : bool;
  assertBinaryData : History -> nat -> string -> Error + BinaryData.t;
  getBinaryDataBuffer : History -> nat -> string -> Error + Buffer
}.

(* ------------------------------------------------------------------ *)
(** ** The monad of [execute]: mutable locals, a call log, exceptions *)

(** [worker] and [returnData] are the two mutable locals of [execute];
    a throw leaves the state as it was at the throw. *)
Record State : Type := mkState {
  worker : option Worker;
  returnData : list Json.t;
  log : History
}.

Definition M (A : Type) : Type := State -> (Error + A) * State.

Definition ret {A : Type} (a : A) : M A := fun s => (inr a, s).

Definition throw {A : Type} (e : Error) : M A := fun s => (inl e, s).

Definition bind {A B : Type} (m : M A) (k : A -> M B) : M B :=
  fun s =>
    match m s with
    | (inr a, s') => k a s'
    | (inl e, s') => (inl e, s')
    end.

Notation "x <- m ;; k" := (bind m (fun x => k))
  (at level 61, m at next level, right associativity).
Notation "' p <- m ;; k" := (bind m (fun x => let p := x in k))
  (at level 61, p pattern, m at next level, right associativity).
Notation "m ;;; k" := (bind m (fun _ => k))
  (at level 61, right associativity).

(** A value that is already there, or the error thrown instead. *)
Definition lift {A : Type} (r : Error + A) : M A :=
  match r with inr a => ret a | inl e => throw e end.

(** One awaited call of a collaborator: ask it at the current history,
    log the call with its answer, and return or throw. *)
Definition call {A : Type} (oracle : History -> Error + A)
  (ev : Error + A -> Event) : M A :=
  fun s =>
    let r := oracle (log s) in
    (r, mkState (worker s) (returnData s) (ev r :: log s)).

Definition getWorker : M (option Worker) := fun s => (inr (worker s), s).

Definition setWorker (w : option Worker) : M unit :=
  fun s => (inr tt, mkState w (returnData s) (log s)).

(** [returnData.push(...)]. *)
Definition push (j : Json.t) : M unit :=
  fun s => (inr tt, mkState (worker s) (returnData s ++ [j]) (log s)).

(** [try { m } catch (error) { h error }]. *)
Definition try_catch {A : Type} (m : M A) (h : Error -> M A) : M A :=
  fun s =>
    match m s with
    | (inr a, s') => (inr a, s')
    | (inl e, s') => h e s'
    end.

(** [try { m } finally { f }]: [f] runs on both exits; an error of [f]
    replaces the outcome of [m]. *)
Definition try_finally {A : Type} (m : M A) (f : M unit) : M A :=
  fun s =>
    match m s with
    | (r, s') =>
        match f s' with
        | (inr _, s'') => (r, s'')
        | (inl e, s'') => (inl e, s'')
        end
    end.

(* ------------------------------------------------------------------ *)
(** ** Extraction functions *)

Module ImageResult.
Record t : Type := mk { text : string; confidence : option number }.
End ImageResult.

Module PdfResult.
Record t : Type := mk {
  text : string;
  pageCount : number;
  confidence : option number;
  method : string
}.
End PdfResult.

Definition LF : ascii := ascii_of_nat 10.

(** The separator of [texts.join('\n\n')]. *)
Definition blank_line : string := String LF (String LF EmptyString).

(** [a ?? b] on an optional value. *)
Definition nullish {A : Type} (a : option A) (b : A) : A :=
  match a with Some x => x | None => b end.

(** The four locals the [switch] of [execute] assigns: [text],
    [pageCount], [confidence], [method]. *)
Module Extracted.
Record t : Type := mk {
  text : string;
  pageCount : option number;
  confidence : option number;
  method : string
}.
End Extracted.

Section Node.

Variable W : World.

(** [worker] is what the caller holds at run time: [worker!] does not check
    it, so a null one fails at [worker.recognize]. *)
Definition extractFromImage (buffer : Buffer) (worker : option Worker)
  (preprocess : bool) : M ImageResult.t :=
  input <- (if preprocess
            then call (fun h => sharp W h buffer) (EvSharp buffer)
            else ret buffer) ;;
  match worker with
  | None =>
      throw (mkError "Cannot read properties of null (reading 'recognize')")
  | Some w =>
      data <- call (fun h => recognize W h w input) (EvRecognize w input) ;;
      ret (ImageResult.mk (trim (Recognized.text data))
             (Some (Math_round (Recognized.confidence data))))
  end.

(** [pdfToImages.ts]: the pages that have a content, in page order. *)
Definition definedContents (pages : list Page) : list Buffer :=
  flat_map (fun page => match content page with
                        | Some c => [c]
                        | None => []
                        end) pages.

Definition pdfToImages (pdfBuffer : Buffer) (scale : number) : M (list Buffer) :=
  pages <- call (fun h => pdfToPng W h (arrayBuffer W pdfBuffer) scale)
                (EvPdfToPng (arrayBuffer W pdfBuffer) scale) ;;
  ret (definedContents pages).

(** [for (const img of images) { ... }] of the OCR fallback, with its two
    accumulators. *)
Fixpoint ocrPages (images : list Buffer) (w : Worker) (preprocess : bool)
  (texts : list string) (totalConfidence : number)
  : M (list string * number) :=
  match images with
  | [] => ret (texts, totalConfidence)
  | img :: rest =>
      r <- extractFromImage img (Some w) preprocess ;;
      ocrPages rest w preprocess
        (texts ++ [ImageResult.text r])
        (js_add totalConfidence (nullish (ImageResult.confidence r) (of_Z 0)))
  end.

Definition shouldTryText (strategy : string) : bool :=
  String.eqb strategy "auto" || String.eqb strategy "text".

Definition shouldTryOcr (strategy : string) : bool :=
  String.eqb strategy "auto" || String.eqb strategy "ocr".

(** Lines 93-99: the text layer, when the strategy asks for it. *)
Definition textLayer (buffer : Buffer) (strategy : string)
  : M (string * number) :=
  if shouldTryText strategy then
    pdf <- call (fun h => getDocumentProxy W h buffer)
                (EvGetDocumentProxy buffer) ;;
    text <- call (fun h => extractText W h pdf) (EvExtractText pdf) ;;
    ret (trim text, numPages pdf)
  else ret (EmptyString, of_Z 0).

Definition extractFromPdf (buffer : Buffer) (strategy : string)
  (worker : option Worker) (preprocess : bool)
  (renderScale minTextThreshold : number) : M PdfResult.t :=
  ' (textResult, pageCount) <- textLayer buffer strategy ;;
  if shouldTryText strategy && js_ge (js_length textResult) minTextThreshold
  then ret (PdfResult.mk textResult pageCount None "pdf-text")
  else
    match (if shouldTryOcr strategy then worker else None) with
    | Some w =>
        images <- pdfToImages buffer renderScale ;;
        ' (texts, totalConfidence) <-
            ocrPages images w preprocess [] (of_Z 0) ;;
        ret (PdfResult.mk
               (join blank_line texts)
               (of_nat (length images))
               (Some (Math_round
                        (js_div totalConfidence (of_nat (length images)))))
               "pdf-ocr")
    | None => ret (PdfResult.mk textResult pageCount None "pdf-text")
    end.

Definition extractFromDocx (buffer : Buffer) : M string :=
  value <- call (fun h => extractRawText W h buffer) (EvExtractRawText buffer) ;;
  ret (trim value).

Definition extractFromDoc (buffer : Buffer) : M string :=
  body <- call (fun h => wordExtract W h buffer) (EvWordExtract buffer) ;;
  ret (trim body).

Definition extractFromTxt (buffer : Buffer) : string :=
  trim (toStringUtf8 W buffer).

(* ------------------------------------------------------------------ *)
(** ** [TextExtractor.execute] *)

(** [items[i].binary?.[name]]. *)
Definition binaryField (item : Item) (name : string)
  : option (member BinaryData.t) :=
  match binary item with
  | Some o => get o name
  | None => None
  end.

(** Lines 298-304. *)
Definition resolveProperty (binaryProperty : string) (item : Item) : string :=
  match binaryField item binaryProperty with
  | Some _ => binaryProperty
  | None =>
      match keys (nullish (binary item) []) with
      | k :: _ => k
      | [] => binaryProperty
      end
  end.

(** Lines 313-324. *)
Definition resolveFileType (operation mimeType fileName : string) : Detected :=
  if String.eqb operation "auto" then
    detectFileType (Some mimeType) (Some fileName)
  else if String.eqb operation "ocr" then Some (Own image)
  else if String.eqb operation "pdf" then Some (Own pdf)
  else
    match detectFileType (Some mimeType) (Some fileName) with
    | Some (Own doc) => Some (Own doc)
    | Some (Own docx) => Some (Own docx)
    | _ => Some (Own docx)
    end.

(** Lines 335-338: the strategy is only read for a PDF. *)
Definition needsOcrOf (fileType : member FileType) (i : nat) : M bool :=
  match fileType with
  | Own image => ret true
  | Own pdf =>
      strategy <- lift (getNodeParameterString W "pdfStrategy" i (Some "auto")) ;;
      ret (negb (String.eqb strategy "text"))
  | _ => ret false
  end.

(** Lines 345-395: the locals start as ['', null, null, ''] and the
    [switch] has no case for a value that is not one of the five kinds. *)
Definition dispatch (fileType : member FileType) (buffer : Buffer)
  (worker : option Worker) (preprocess : bool) (i : nat) : M Extracted.t :=
  match fileType with
  | Own image =>
      result <- extractFromImage buffer worker preprocess ;;
      ret (Extracted.mk (ImageResult.text result) None
             (ImageResult.confidence result) "ocr")
  | Own pdf =>
      pdfStrategy <-
        lift (getNodeParameterString W "pdfStrategy" i (Some "auto")) ;;
      renderScale <-
        lift (getNodeParameterNumber W "pdfRenderScale" i (Some (of_Z 2))) ;;
      minThreshold <-
        lift (getNodeParameterNumber W "minTextThreshold" i (Some (of_Z 50))) ;;
      result <- extractFromPdf buffer pdfStrategy worker preprocess
                  renderScale minThreshold ;;
      ret (Extracted.mk (PdfResult.text result)
             (Some (PdfResult.pageCount result))
             (PdfResult.confidence result)
             (PdfResult.method result))
  | Own docx =>
      text <- extractFromDocx buffer ;;
      ret (Extracted.mk text None None "docx")
  | Own doc =>
      text <- extractFromDoc buffer ;;
      ret (Extracted.mk text None None "doc")
  | Own txt =>
      ret (Extracted.mk (extractFromTxt buffer) None None "txt")
  | Inherited _ =>
      ret (Extracted.mk EmptyString None None EmptyString)
  end.

Definition unsupportedMessage (mimeType fileName : string) : string :=
  "Unsupported file type: " ++ (if truthy mimeType then mimeType else fileName).

(** Lines 340-343. *)
Definition ensureWorker (needsOcr : bool) (ocrLanguage : string) : M unit :=
  current <- getWorker ;;
  match current with
  | None =>
      if needsOcr then
        w <- call (fun h => createWorker W h ocrLanguage)
                  (EvCreateWorker ocrLanguage) ;;
        setWorker (Some w)
      else ret tt
  | Some _ => ret tt
  end.

Definition successRecord (e : Extracted.t) (fileName mimeType : string)
  (fileType : member FileType) (needsOcr : bool) (ocrLanguage : string)
  : Json.t :=
  Json.mk None (Some (Extracted.text e)) fileName mimeType (Some fileType)
    (Extracted.pageCount e) (Extracted.confidence e)
    (if needsOcr then Some ocrLanguage else None)
    (Some (Extracted.method e)).

(** The body of the inner [try], lines 297-408. *)
Definition processItem (binaryProperty operation ocrLanguage : string)
  (preprocess : bool) (i : nat) (item : Item) : M unit :=
  let resolvedProperty := resolveProperty binaryProperty item in
  binaryData <- call (fun h => assertBinaryData W h i resolvedProperty)
                     (EvAssertBinaryData i resolvedProperty) ;;
  buffer <- call (fun h => getBinaryDataBuffer W h i resolvedProperty)
                 (EvGetBinaryDataBuffer i resolvedProperty) ;;
  let fileName := nullish (BinaryData.fileName binaryData) "unknown" in
  let mimeType := nullish (BinaryData.mimeType binaryData) EmptyString in
  match resolveFileType operation mimeType fileName with
  | None => throw (mkError (unsupportedMessage mimeType fileName))
  | Some fileType =>
      needsOcr <- needsOcrOf fileType i ;;
      ensureWorker needsOcr ocrLanguage ;;;
      worker <- getWorker ;;
      e <- dispatch fileType buffer worker preprocess i ;;
      push (successRecord e fileName mimeType fileType needsOcr ocrLanguage)
  end.

(** Lines 411-413: the binary data the [catch] block reads the names from. *)
Definition recoveredBinaryData (binaryProperty : string) (item : Item)
  : option (member BinaryData.t) :=
  match binaryField item binaryProperty with
  | Some m => Some m
  | None =>
      match values (nullish (binary item) []) with
      | v :: _ => Some (Own v)
      | [] => None
      end
  end.

(** [binaryData?.fileName] and [binaryData?.mimeType]: a member inherited
    from [Object.prototype] has neither. *)
Definition recoveredFileName (b : option (member BinaryData.t)) : option string :=
  match b with
  | Some (Own d) => BinaryData.fileName d
  | _ => None
  end.

Definition recoveredMimeType (b : option (member BinaryData.t)) : option string :=
  match b with
  | Some (Own d) => BinaryData.mimeType d
  | _ => None
  end.

(** Lines 414-425. *)
Definition errorRecord (e : Error) (binaryProperty : string) (item : Item)
  : Json.t :=
  let binaryData := recoveredBinaryData binaryProperty item in
  Json.mk (Some (message e)) None
    (nullish (recoveredFileName binaryData) "unknown")
    (nullish (recoveredMimeType binaryData) EmptyString)
    None None None None None.

(** The [catch] block, lines 409-429. *)
Definition onError (binaryProperty : string) (item : Item) (e : Error)
  : M unit :=
  if continueOnFail W then push (errorRecord e binaryProperty item)
  else throw e.

(** One turn of the [for] loop. *)
Definition iteration (binaryProperty operation ocrLanguage : string)
  (preprocess : bool) (i : nat) (item : Item) : M unit :=
  try_catch (processItem binaryProperty operation ocrLanguage preprocess i item)
            (onError binaryProperty item).

(** [for (let i = ...; i < items.length; i++)], from index [i] on. *)
Fixpoint loop (binaryProperty operation ocrLanguage : string)
  (preprocess : bool) (i : nat) (items : list Item) : M unit :=
  match items with
  | [] => ret tt
  | item :: rest =>
      iteration binaryProperty operation ocrLanguage preprocess i item ;;;
      loop binaryProperty operation ocrLanguage preprocess (S i) rest
  end.

(** The [finally] block, lines 431-435. *)
Definition release : M unit :=
  current <- getWorker ;;
  match current with
  | Some w => call (fun h => terminate W h w) (EvTerminate w)
  | None => ret tt
  end.

(** [execute] starts with [returnData = []] and [worker = null]. *)
Definition enter : M unit :=
  fun s => (inr tt, mkState None [] (log s)).

Definition getReturnData : M (list Json.t) :=
  fun s => (inr (returnData s), s).

Definition execute : M (list (list Json.t)) :=
  enter ;;;
  let items := getInputData W in
  binaryProperty <- lift (getNodeParameterString W "binaryProperty" 0 None) ;;
  operation <- lift (getNodeParameterString W "operation" 0 None) ;;
  ocrLanguage <- lift (getNodeParameterString W "ocrLanguage" 0 None) ;;
  preprocess <- lift (getNodeParameterBoolean W "preprocess" 0) ;;
  try_finally
    (loop binaryProperty operation ocrLanguage preprocess 0 items)
    release ;;;
  out <- getReturnData ;;
  ret [out].

End Node.

(* ------------------------------------------------------------------ *)
(** ** Vocabulary of the statements *)

(** The specification's detector: the two fixed tables, read as tables of
    their own entries only. *)
Definition tableLookup (T : list (string * FileType)) (k : string)
  : option FileType :=
  if truthy k then own T k else None.

Definition detectByTables (mimeType fileName : option string)
  : option FileType :=
  match match mimeType with
        | Some m => tableLookup MIME_MAP m
        | None => None
        end with
  | Some k => Some k
  | None =>
      match fileName with
      | Some f =>
          if truthy f then tableLookup EXT_MAP (toLowerCase (afterLast "." f))
          else None
      | None => None
      end
  end.

(** A key under which a bracket lookup would find an inherited member. *)
Definition hitsPrototype (T : list (string * FileType)) (k : option string)
  : bool :=
  match lookup_truthy T k with
  | Some (Inherited _) => true
  | _ => false
  end.

(** Calls of the OCR path of [extractFromPdf]: rasterization,
    preprocessing and recognition. *)
Definition ocrCall (e : Event) : bool :=
  match e with
  | EvPdfToPng _ _ _ | EvSharp _ _ | EvRecognize _ _ _ => true
  | _ => false
  end.

(** The workers the factory handed out, the workers [terminate] was called
    on, and the workers [recognize] was called on, latest first. *)
Fixpoint created (h : History) : list Worker :=
  match h with
  | [] => []
  | EvCreateWorker _ (inr w) :: t => w :: created t
  | _ :: t => created t
  end.

Fixpoint terminated (h : History) : list Worker :=
  match h with
  | [] => []
  | EvTerminate w _ :: t => w :: terminated t
  | _ :: t => terminated t
  end.

Fixpoint recognizers (h : History) : list Worker :=
  match h with
  | [] => []
  | EvRecognize w _ _ :: t => w :: recognizers t
  | _ :: t => recognizers t
  end.

(** The number of calls of the factory, answered or not. *)
Fixpoint asked (h : History) : nat :=
  match h with
  | [] => 0
  | EvCreateWorker _ _ :: t => S (asked t)
  | _ :: t => asked t
  end.

(** Every call of the factory was made when no worker had been created
    yet. *)
Fixpoint lazily (h : History) : Prop :=
  match h with
  | [] => True
  | EvCreateWorker _ _ :: t => created t = [] /\ lazily t
  | _ :: t => lazily t
  end.

(** What a call made on behalf of one extraction may be, when the caller
    holds [held]: never a creation or a termination, and a recognition
    only on the held worker. *)
Definition borrows (held : option Worker) (e : Event) : Prop :=
  match e with
  | EvCreateWorker _ _ | EvTerminate _ _ => False
  | EvRecognize w _ _ => held = Some w
  | _ => True
  end.

(** A computation that leaves the two locals of [execute] alone, makes
    only calls satisfying [E], and returns only values satisfying [R]. *)
Definition runs {A : Type} (m : M A) (E : Event -> Prop) (R : A -> Prop)
  : Prop :=
  forall s r s',
    m s = (r, s') ->
    worker s' = worker s /\
    returnData s' = returnData s /\
    (exists new, log s' = (new ++ log s)%list /\ Forall E new) /\
    (forall a, r = inr a -> R a).

(** The sum of a list of integer scores, accumulated from the left as the
    loop of the OCR fallback does. *)
Definition Zsum (cs : list Z) : Z := fold_left Z.add cs 0%Z.

(** The image strategy applied to every page in turn, keeping each page's
    result. *)
Fixpoint eachPage (W : World) (images : list Buffer) (w : Worker)
  (preprocess : bool) : M (list ImageResult.t) :=
  match images with
  | [] => ret []
  | img :: rest =>
      r <- extractFromImage W img (Some w) preprocess ;;
      rs <- eachPage W rest w preprocess ;;
      ret (r :: rs)
  end.

(** The aggregate fields of a record agree with its method tag. *)
Definition tagged (m : string) (confidence pageCount : option number) : Prop :=
  (confidence <> None <-> m = "ocr" \/ m = "pdf-ocr") /\
  (pageCount <> None <-> startsWith "pdf" m = true).

(** What [extractFromPdf] can return: text-layer results carry no
    confidence; OCR results carry one and need a strategy that tries OCR. *)
Definition pdfShape (strategy : string) (r : PdfResult.t) : Prop :=
  (PdfResult.method r = "pdf-text" /\ PdfResult.confidence r = None) \/
  (PdfResult.method r = "pdf-ocr" /\ PdfResult.confidence r <> None
   /\ shouldTryOcr strategy = true).

(** The kind and strategy under which [execute] sets [needsOcr]. *)
Definition languageOf (W : World) (ocrLanguage : string) (i : nat)
  (fileType : Detected) : option string :=
  match fileType with
  | Some (Own image) => Some ocrLanguage
  | Some (Own pdf) =>
      match getNodeParameterString W "pdfStrategy" i (Some "auto") with
      | inr strategy =>
          if String.eqb strategy "text" then None else Some ocrLanguage
      | inl _ => None
      end
  | _ => None
  end.

(** The worker held, as a list of at most one. *)
Definition held {A : Type} (o : option A) : list A :=
  match o with Some a => [a] | None => [] end.

(** From [s] to [s']: the calls made in between never terminate a worker;
    the workers created in between, added to the one held in [s], are the
    one held in [s']; every recognition in between ran on the worker held
    in [s']; and the factory is only called while no worker is held. *)
Definition lifecycleStep (s s' : State) : Prop :=
  exists new,
    log s' = (new ++ log s)%list /\
    terminated new = [] /\
    (created new ++ held (worker s))%list = held (worker s') /\
    (forall w, In w (recognizers new) -> worker s' = Some w) /\
    (worker s <> None -> asked new = 0%nat) /\
    lazily new.

(** The life of the worker over the calls [new] of one run of [execute]:
    at most one is created; it is terminated once, by the last call;
    every recognition ran on it; the factory was only called while none
    had been created. *)
Definition scoped (new : History) : Prop :=
  (length (created new) <= 1)%nat /\
  terminated new = created new /\
  (forall w, In w (recognizers new) -> created new = [w]) /\
  (created new <> [] ->
   exists w x rest, new = EvTerminate w x :: rest /\ terminated rest = []) /\
  lazily new.

(** A step that also leaves [returnData] as it was. *)
Definition quietStep (s s' : State) : Prop :=
  lifecycleStep s s' /\ returnData s' = returnData s.

(** The method tags of the two OCR paths. *)
Definition ocrMethod (m : string) : Prop := m = "ocr" \/ m = "pdf-ocr".

(** A successful output record of item [i]. *)
Definition successOf (W : World) (ocrLanguage : string) (i : nat) (j : Json.t)
  : Prop :=
  Json.error j = None /\
  (exists m, Json.method j = Some m
             /\ tagged m (Json.confidence j) (Json.pageCount j)
             /\ (ocrMethod m -> Json.language j = Some ocrLanguage)) /\
  Json.language j = languageOf W ocrLanguage i (Json.fileType j).

(** The degraded record of an item whose processing threw [e]. *)
Definition degradedOf (e : Error) (j : Json.t) : Prop :=
  Json.error j = Some (message e) /\
  Json.text j = None /\
  Json.fileType j = None /\
  Json.pageCount j = None /\
  Json.confidence j = None /\
  Json.language j = None /\
  Json.method j = None.

(* ------------------------------------------------------------------ *)
(** ** Vocabulary of the further properties *)

(** A string made of white space only. *)
Fixpoint allSpaces (s : string) : bool :=
  match s with
  | EmptyString => true
  | String c r => is_space c && allSpaces r
  end.

(** The first and the last code unit of a string. *)
Definition firstUnit (s : string) : option ascii :=
  match s with
  | EmptyString => None
  | String c _ => Some c
  end.

Fixpoint lastUnit (s : string) : option ascii :=
  match s with
  | EmptyString => None
  | String c EmptyString => Some c
  | String _ r => lastUnit r
  end.

(** Not a white space, when there is a code unit at all. *)
Definition solid (o : option ascii) : Prop :=
  match o with
  | Some c => is_space c = false
  | None => True
  end.

(** The calls [extractFromImage] may make for a caller that holds [w]. *)
Definition imageCalls (w : option Worker) (preprocess : bool) (e : Event)
  : Prop :=
  match e with
  | EvSharp _ _ => preprocess = true
  | EvRecognize w' _ _ => w = Some w'
  | _ => False
  end.

(** The calls the decision table of [extractFromPdf] allows: the text
    layer under a strategy that tries text; rasterization and recognition
    under a strategy that tries OCR, with a worker; preprocessing likewise,
    when it is switched on. *)
Definition pdfCalls (strategy : string) (w : option Worker)
  (preprocess : bool) (e : Event) : Prop :=
  match e with
  | EvGetDocumentProxy _ _ | EvExtractText _ _ => shouldTryText strategy = true
  | EvPdfToPng _ _ _ => shouldTryOcr strategy = true /\ w <> None
  | EvRecognize w' _ _ => shouldTryOcr strategy = true /\ w = Some w'
  | EvSharp _ _ =>
      shouldTryOcr strategy = true /\ w <> None /\ preprocess = true
  | _ => False
  end.

(** The collaborator a call goes to. *)
Inductive Engine : Type :=
| Host | Unpdf | Rasterizer | Sharp | Tesseract | Mammoth | WordExtractor.

Definition engineOf (e : Event) : Engine :=
  match e with
  | EvGetDocumentProxy _ _ | EvExtractText _ _ => Unpdf
  | EvPdfToPng _ _ _ => Rasterizer
  | EvSharp _ _ => Sharp
  | EvRecognize _ _ _ | EvCreateWorker _ _ | EvTerminate _ _ => Tesseract
  | EvExtractRawText _ _ => Mammoth
  | EvWordExtract _ _ => WordExtractor
  | EvAssertBinaryData _ _ _ | EvGetBinaryDataBuffer _ _ _ => Host
  end.

(** The method tags the [switch] of [execute] can leave for a kind. *)
Definition methodOf (fileType : member FileType) (m : string) : Prop :=
  match fileType with
  | Own image => m = "ocr"
  | Own pdf => m = "pdf-text" \/ m = "pdf-ocr"
  | Own docx => m = "docx"
  | Own doc => m = "doc"
  | Own txt => m = "txt"
  | Inherited _ => m = EmptyString
  end.

(** The text of an OCR'd PDF: trimmed page texts joined by two line
    feeds. *)
Definition joinedPages (t : string) : Prop :=
  exists texts : list string,
    t = join (String "010"%char (String "010"%char EmptyString)) texts /\
    Forall (fun x => trim x = x) texts.

(** A well-formed record of a processed item under [operation]: its kind
    is the one resolved from its own MIME type and file name, its method
    is one of that kind, and its text is trimmed unless it is the joined
    text of OCR'd pages. *)
Definition shaped (operation : string) (j : Json.t) : Prop :=
  Json.error j = None /\
  exists fileType m t,
    Json.fileType j = Some fileType /\
    resolveFileType operation (Json.mimeType j) (Json.fileName j)
    = Some fileType /\
    Json.method j = Some m /\
    methodOf fileType m /\
    Json.text j = Some t /\
    (m <> "pdf-ocr" -> trim t = t) /\
    (m = "pdf-ocr" -> joinedPages t).

(** The calls one PDF item may cause under [strategy]. *)
Definition pdfItemCalls (strategy ocrLanguage : string) (preprocess : bool)
  (e : Event) : Prop :=
  match e with
  | EvCreateWorker l _ => l = ocrLanguage /\ String.eqb strategy "text" = false
  | EvGetDocumentProxy _ _ | EvExtractText _ _ => shouldTryText strategy = true
  | EvPdfToPng _ _ _ | EvRecognize _ _ _ => shouldTryOcr strategy = true
  | EvSharp _ _ => shouldTryOcr strategy = true /\ preprocess = true
  | _ => False
  end.

(** The calls item [i] may cause once its kind is known, beside the two
    calls of the host that fetch it. *)
Definition kindCalls (W : World) (ocrLanguage : string) (preprocess : bool)
  (i : nat) (fileType : member FileType) (e : Event) : Prop :=
  match fileType with
  | Own image =>
      match e with
      | EvCreateWorker l _ => l = ocrLanguage
      | EvRecognize _ _ _ => True
      | EvSharp _ _ => preprocess = true
      | _ => False
      end
  | Own pdf =>
      exists strategy,
        getNodeParameterString W "pdfStrategy" i (Some "auto") = inr strategy
        /\ pdfItemCalls strategy ocrLanguage preprocess e
  | Own docx => match e with EvExtractRawText _ _ => True | _ => False end
  | Own doc => match e with EvWordExtract _ _ => True | _ => False end
  | Own txt => False
  | Inherited _ => False
  end.

(** The calls the processing of item [i] may make under [operation]. *)
Definition itemCalls (W : World) (operation ocrLanguage : string)
  (preprocess : bool) (i : nat) (e : Event) : Prop :=
  match e with
  | EvAssertBinaryData i' _ _ | EvGetBinaryDataBuffer i' _ _ => i' = i
  | _ =>
      exists mimeType fileName fileType,
        resolveFileType operation mimeType fileName = Some fileType /\
        kindCalls W ocrLanguage preprocess i fileType e
  end.

(** From [s] to [s'], only calls satisfying [E] were made. *)
Definition callsOnly (E : Event -> Prop) (s s' : State) : Prop :=
  exists new, log s' = (new ++ log s)%list /\ Forall E new.

(** Why an item needs OCR. *)
Definition needsReason (W : World) (i : nat) (fileType : member FileType)
  : Prop :=
  fileType = Own image \/
  (fileType = Own pdf /\
   exists strategy,
     getNodeParameterString W "pdfStrategy" i (Some "auto") = inr strategy
     /\ String.eqb strategy "text" = false).

(** The four node parameters [execute] reads first resolve to these. *)
Definition configured (W : World) (binaryProperty operation ocrLanguage : string)
  (preprocess : bool) : Prop :=
  getNodeParameterString W "binaryProperty" 0 None = inr binaryProperty /\
  getNodeParameterString W "operation" 0 None = inr operation /\
  getNodeParameterString W "ocrLanguage" 0 None = inr ocrLanguage /\
  getNodeParameterBoolean W "preprocess" 0 = inr preprocess.

(** The records and the outcome of the loop over [items]: one record per
    item reached, in order; a record with an error only under
    continuation, built from its own item; a throw only without
    continuation, before the last item's record. *)
Definition batchOutcome (W : World) (binaryProperty operation : string)
  (items : list Item) (r : Error + unit) (outs : list Json.t) : Prop :=
  (continueOnFail W = true -> r = inr tt) /\
  (forall u, r = inr u -> length outs = length items) /\
  (forall e, r = inl e ->
             continueOnFail W = false /\ (length outs < length items)%nat) /\
  (forall k j,
     nth_error outs k = Some j ->
     shaped operation j \/
     (continueOnFail W = true /\
      exists e item, nth_error items k = Some item
                     /\ j = errorRecord e binaryProperty item)).

(** The item a call of the host is about, if it is one. *)
Definition itemIndex (e : Event) : option nat :=
  match e with
  | EvAssertBinaryData i _ _ | EvGetBinaryDataBuffer i _ _ => Some i
  | _ => None
  end.

(** The language a call of the factory asks for, if it is one. *)
Definition languageAsked (e : Event) : option string :=
  match e with
  | EvCreateWorker l _ => Some l
  | _ => None
  end.

(* ------------------------------------------------------------------ *)
(** ** Scenarios *)

Module Scenario.

Definition bytes (s : string) : Buffer := list_byte_of_string s.

(** An uploaded file: name, MIME type, content. *)
Record File : Type := mkFile { name : string; mime : string; body : string }.

Definition item (f : File) : Item :=
  mkItem (Some [("data", BinaryData.mk (Some (name f)) (Some (mime f)))]).

(** Page [page-1] reads as [PAGE1] at 89.9, any other as [PAGE2] at 80.1. *)
Definition scoreOf (b : Buffer) : Recognized.t :=
  if String.eqb (string_of_list_byte b) "page-1"
  then Recognized.mk " PAGE1 " (Fin (899 # 10))
  else Recognized.mk "PAGE2" (Fin (801 # 10)).

Definition parameter (strategy : string) (key : string)
  (fallback : option string) : Error + string :=
  if String.eqb key "binaryProperty" then inr "data"
  else if String.eqb key "operation" then inr "auto"
  else if String.eqb key "ocrLanguage" then inr "fra"
  else if String.eqb key "pdfStrategy" then inr strategy
  else inr (nullish fallback EmptyString).

(** A host and engines that never fail: each item carries its file under
    [data]; every PDF has two pages and the text layer [layer]; the
    rasterizer renders [pages]; the worker is number 7; the numeric
    parameters keep their defaults. *)
Definition world (files : list File) (layer : string) (pages : list Page)
  (strategy : string) (continue : bool) : World :=
  mkWorld
    (fun _ _ => inr (mkPdfDoc (of_Z 2)))
    (fun _ _ => inr layer)
    (fun _ _ _ => inr pages)
    (fun b => b)
    (fun _ b => inr b)
    (fun _ _ => inr 7%nat)
    (fun _ _ b => inr (scoreOf b))
    (fun _ _ => inr tt)
    (fun _ b => inr (string_of_list_byte b))
    (fun _ b => inr (string_of_list_byte b))
    string_of_list_byte
    (map item files)
    (fun key _ fallback => parameter strategy key fallback)
    (fun _ _ fallback => inr (nullish fallback NaN))
    (fun _ _ => inr true)
    continue
    (fun _ i _ =>
       match nth_error files i with
       | Some f => inr (BinaryData.mk (Some (name f)) (Some (mime f)))
       | None => inl (mkError "no binary data")
       end)
    (fun _ i _ =>
       match nth_error files i with
       | Some f => inr (bytes (body f))
       | None => inl (mkError "no binary data")
       end).

Definition twoPages : list Page :=
  [ mkPage (Some (bytes "page-1")); mkPage (Some (bytes "page-2")) ].

Definition start : State := mkState None [] [].

Definition scan : File := mkFile "scan.pdf" "application/pdf" "%PDF-scan".

(** The batch of the specification's scenario: a text file, a scanned
    two-page PDF with five characters of text layer, and a file of an
    unsupported type, with continuation enabled. *)
Definition batch : World :=
  world [ mkFile "note.txt" "text/plain" "  hello world  ";
          scan;
          mkFile "blob.bin" "application/x-unknown" "????" ]
        "abcde" twoPages "auto" true.

(** A PDF whose text layer is long enough. *)
Definition layer60 : string :=
  "The quick brown fox jumps over the lazy dog, twice in a row.".

Definition born : World :=
  world [ mkFile "report.pdf" "application/pdf" "%PDF-born" ]
        layer60 twoPages "auto" true.

(** A PDF that renders to no page at all, under the OCR-only strategy. *)
Definition blank : World :=
  world [ mkFile "empty.pdf" "application/pdf" "%PDF-blank" ]
        EmptyString [] "ocr" true.

(** A file of an unknown MIME type whose extension is [constructor]. *)
Definition odd : World :=
  world [ mkFile "report.constructor" "application/octet-stream" "????" ]
        EmptyString [] "auto" true.

(** A text-only run on a PDF with a short text layer. *)
Definition textOnly : World :=
  world [ scan ] "abcde" twoPages "text" true.

(** [W] under another operation, preprocess flag and continuation
    policy. *)
Definition reconfigure (W : World) (operation : string)
  (preprocess continue : bool) : World :=
  mkWorld
    (getDocumentProxy W) (extractText W) (pdfToPng W) (arrayBuffer W)
    (sharp W)
    (createWorker W) (recognize W) (terminate W)
    (extractRawText W) (wordExtract W) (toStringUtf8 W)
    (getInputData W)
    (fun key i fallback =>
       if String.eqb key "operation" then inr operation
       else getNodeParameterString W key i fallback)
    (getNodeParameterNumber W)
    (fun _ _ => inr preprocess)
    continue
    (assertBinaryData W) (getBinaryDataBuffer W).

(** Two word-processor files and a text file. *)
Definition office : World :=
  world [ mkFile "letter.docx"
            "application/vnd.openxmlformats-officedocument.wordprocessingml.document"
            " Dear all, ";
          mkFile "memo.doc" "application/msword" "Memo";
          mkFile "notes.txt" "text/plain" " notes " ]
        EmptyString [] "auto" true.

End Scenario.

(* ================================================================== *)
(** * Properties *)

(** ** Strings and tables *)

Lemma split_nonempty (c : ascii) (s : string) : split c s <> [].
Proof.
  destruct s as [|d r]; simpl; [discriminate|].
  destruct (Ascii.eqb d c); [discriminate|].
  destruct (split c r); discriminate.
Qed.

Lemma split_without (c : ascii) (s : string) :
  contains c s = false -> split c s = [s].
Proof.
  induction s as [|d r IH]; simpl; intros H; [reflexivity|].
  apply orb_false_iff in H as [Hd Hr].
  rewrite Hd, (IH Hr). reflexivity.
Qed.

Lemma split_with (c : ascii) (s : string) :
  contains c s = true -> exists h x t, split c s = h :: x :: t.
Proof.
  induction s as [|d r IH]; simpl; intros H; [discriminate|].
  destruct (Ascii.eqb d c) eqn:Hd.
  - destruct (split c r) as [|x t] eqn:Hs.
    + now apply split_nonempty in Hs.
    + now exists EmptyString, x, t.
  - simpl in H. destruct (IH H) as (h & x & t & Hs).
    rewrite Hs. now exists (String d h), x, t.
Qed.

Lemma afterLast_without (c : ascii) (s : string) :
  contains c s = false -> afterLast c s = s.
Proof.
  destruct s as [|d r]; simpl; intros H; [reflexivity|].
  apply orb_false_iff in H as [Hd Hr]. now rewrite Hr, Hd.
Qed.

Lemma pop_cons2 {A : Type} (a b : A) (t : list A) : pop (a :: b :: t) = pop (b :: t).
Proof. reflexivity. Qed.

(** [fileName.split('.').pop()] is the part after the last dot. *)
Lemma pop_split (c : ascii) (s : string) :
  pop (split c s) = Some (afterLast c s).
Proof.
  induction s as [|d r IH]; [reflexivity|].
  cbn [split afterLast].
  destruct (contains c r) eqn:Hr.
  - destruct (split_with c r Hr) as (h & x & t & Hs).
    rewrite Hs in *. destruct (Ascii.eqb d c); rewrite pop_cons2; exact IH.
  - rewrite (split_without c r Hr).
    destruct (Ascii.eqb d c); reflexivity.
Qed.

Lemma toLowerCase_truthy (s : string) : truthy (toLowerCase s) = truthy s.
Proof. destruct s; reflexivity. Qed.

Lemma get_own {A : Type} (o : list (string * A)) (k : string) (a : A) :
  own o k = Some a -> get o k = Some (Own a).
Proof. unfold get. now intros ->. Qed.

Lemma lookup_tables (T : list (string * FileType)) (k : string) :
  hitsPrototype T (Some k) = false ->
  lookup_truthy T (Some k) = option_map Own (tableLookup T k).
Proof.
  unfold hitsPrototype, lookup_truthy, tableLookup, get.
  destruct (truthy k); [|reflexivity].
  destruct (own T k); [reflexivity|].
  destruct (inherited k); [discriminate|reflexivity].
Qed.

(** Away from the names every object inherits, [detectFileType] is the
    detector of the two tables: MIME type first, then the lowercased part
    of the file name after its last dot, else null. *)
Lemma detectFileType_tables (mimeType fileName : option string) :
  hitsPrototype MIME_MAP mimeType = false ->
  hitsPrototype EXT_MAP
    (option_map (fun f => toLowerCase (afterLast "." f)) fileName) = false ->
  detectFileType mimeType fileName
  = option_map Own (detectByTables mimeType fileName).
Proof.
  intros Hm Hf. unfold detectFileType, detectByTables.
  destruct mimeType as [m|].
  - rewrite (lookup_tables _ _ Hm).
    destruct (tableLookup MIME_MAP m); [reflexivity|]. cbn [option_map].
    destruct fileName as [f|]; [|reflexivity].
    destruct (truthy f); [|reflexivity].
    rewrite pop_split. cbn [option_map] in *.
    rewrite (lookup_tables _ _ Hf).
    now destruct (tableLookup EXT_MAP _).
  - cbn [lookup_truthy].
    destruct fileName as [f|]; [|reflexivity].
    destruct (truthy f); [|reflexivity].
    rewrite pop_split. cbn [option_map] in *.
    rewrite (lookup_tables _ _ Hf).
    now destruct (tableLookup EXT_MAP _).
Qed.

(** Every entry of the MIME table decides the kind, whatever the file
    name. *)
Lemma detectFileType_mime_table (m : string) (k : FileType)
  (fileName : option string) :
  In (m, k) MIME_MAP -> detectFileType (Some m) fileName = Some (Own k).
Proof.
  intros H. repeat (destruct H as [H|H]; [now inversion H|]). now elim H.
Qed.

(** When both the MIME type and the extension are in their tables, the
    MIME type decides. *)
Lemma detectFileType_mime_wins (m f : string) (k : FileType) :
  tableLookup MIME_MAP m = Some k ->
  detectFileType (Some m) (Some f) = Some (Own k).
Proof.
  unfold detectFileType, tableLookup, lookup_truthy.
  destruct (truthy m); [|discriminate].
  intros H. now rewrite (get_own _ _ _ H).
Qed.

(** C7: on a file name whose extension is the name of a member that every
    object inherits, [detectFileType] returns that member, which is
    neither a kind of the extension table nor null; the same happens for
    such a MIME type.  [execute] then takes the file for a supported one
    and emits a record with an empty text and an empty method instead of
    the unsupported-type error. *)
Theorem C7_detectFileType_inherited_member :
  detectFileType (Some EmptyString) (Some "report.constructor")
    = Some (Inherited "constructor")
  /\ detectByTables (Some EmptyString) (Some "report.constructor") = None
  /\ detectFileType (Some "toString") None = Some (Inherited "toString")
  /\ detectByTables (Some "toString") None = None
  /\ map (fun j => (Json.error j, Json.text j, Json.method j))
       (returnData (snd (execute Scenario.odd Scenario.start)))
     = [(None, Some EmptyString, Some EmptyString)].
Proof. repeat split; vm_compute; reflexivity. Qed.

(** C10: when the MIME type does not resolve and the file name has no dot,
    [detectFileType] looks the whole lowercased file name up in the
    extension table; a name that is an entry of the table yields its
    kind. *)
Theorem C10_dotless_fileName (mimeType : option string) (fileName : string) :
  lookup_truthy MIME_MAP mimeType = None ->
  contains "." fileName = false ->
  detectFileType mimeType (Some fileName)
    = get EXT_MAP (toLowerCase fileName)
  /\ forall k, own EXT_MAP (toLowerCase fileName) = Some k ->
               detectFileType mimeType (Some fileName) = Some (Own k).
Proof.
  intros Hm Hdot.
  assert (E : detectFileType mimeType (Some fileName)
              = get EXT_MAP (toLowerCase fileName)).
  { unfold detectFileType. rewrite Hm, pop_split, (afterLast_without _ _ Hdot).
    cbn [option_map lookup_truthy]. rewrite toLowerCase_truthy.
    destruct fileName; [reflexivity|]. cbn [truthy].
    now destruct (get EXT_MAP _). }
  split; [exact E|].
  intros k Hk. rewrite E. now apply get_own.
Qed.

Lemma C10_dotless_fileName_witness :
  detectFileType None (Some "txt") = Some (Own txt).
Proof.
  apply (proj2 (C10_dotless_fileName None "txt" eq_refl eq_refl)).
  reflexivity.
Defined.

(** ** The monad *)

Lemma bind_inr {A B : Type} (m : M A) (k : A -> M B) (s s1 : State) (a : A) :
  m s = (inr a, s1) -> bind m k s = k a s1.
Proof. unfold bind. now intros ->. Qed.

Lemma bind_inl {A B : Type} (m : M A) (k : A -> M B) (s s1 : State) (e : Error) :
  m s = (inl e, s1) -> bind m k s = (inl e, s1).
Proof. unfold bind. now intros ->. Qed.

Lemma bind_cases {A B : Type} (m : M A) (k : A -> M B) (s s' : State)
  (r : Error + B) :
  bind m k s = (r, s') ->
  (exists e, m s = (inl e, s') /\ r = inl e) \/
  (exists a s1, m s = (inr a, s1) /\ k a s1 = (r, s')).
Proof.
  unfold bind. destruct (m s) as [[e|a] s1]; intros H.
  - left. exists e. now inversion H.
  - right. now exists a, s1.
Qed.

Lemma lift_cases {A : Type} (x : Error + A) (s s' : State) (r : Error + A) :
  lift x s = (r, s') -> r = x /\ s' = s.
Proof. destruct x; cbv [lift ret throw]; intros H; now inversion H. Qed.

(** *** Computations that leave the locals alone *)

Section Runs.

Context {A : Type}.

Lemma runs_ret (a : A) (E : Event -> Prop) (R : A -> Prop) :
  R a -> runs (ret a) E R.
Proof.
  intros Ha s r s' H. inversion H; subst. repeat split.
  - now exists [].
  - intros a' Ea. now inversion Ea; subst.
Qed.

Lemma runs_throw (e : Error) (E : Event -> Prop) (R : A -> Prop) :
  runs (throw e) E R.
Proof.
  intros s r s' H. inversion H; subst. repeat split.
  - now exists [].
  - discriminate.
Qed.

Lemma runs_lift (x : Error + A) (E : Event -> Prop) (R : A -> Prop) :
  (forall a, x = inr a -> R a) -> runs (lift x) E R.
Proof.
  destruct x as [e|a]; intros H.
  - apply runs_throw.
  - apply runs_ret. now apply H.
Qed.

Lemma runs_call (oracle : History -> Error + A) (ev : Error + A -> Event)
  (E : Event -> Prop) (R : A -> Prop) :
  (forall r, E (ev r)) -> (forall a, R a) -> runs (call oracle ev) E R.
Proof.
  intros HE HR s r s' H. unfold call in H. inversion H; subst; cbn.
  repeat split.
  - exists [ev (oracle (log s))]. split; [reflexivity|]. now constructor.
  - intros a _. apply HR.
Qed.

Lemma runs_weaken (m : M A) (E E' : Event -> Prop) (R R' : A -> Prop) :
  runs m E R ->
  (forall e, E e -> E' e) -> (forall a, R a -> R' a) ->
  runs m E' R'.
Proof.
  intros Hm HE HR s r s' H.
  destruct (Hm s r s' H) as (Hw & Hd & (new & Hl & Hn) & Hr).
  repeat split; auto.
  exists new. split; [exact Hl|].
  eapply Forall_impl; [exact HE|exact Hn].
Qed.

End Runs.

Lemma runs_bind {A B : Type} (m : M A) (k : A -> M B)
  (E : Event -> Prop) (R1 : A -> Prop) (R2 : B -> Prop) :
  runs m E R1 ->
  (forall a, R1 a -> runs (k a) E R2) ->
  runs (bind m k) E R2.
Proof.
  intros Hm Hk s r s' H.
  apply bind_cases in H as [(e & H & ->)|(a & s1 & H & H2)].
  - destruct (Hm _ _ _ H) as (Hw & Hd & Hl & _).
    repeat split; auto. discriminate.
  - destruct (Hm _ _ _ H) as (Hw & Hd & (n1 & Hl & Hn) & Hr).
    destruct (Hk a (Hr a eq_refl) _ _ _ H2)
      as (Hw2 & Hd2 & (n2 & Hl2 & Hn2) & Hr2).
    repeat split; try congruence; auto.
    exists (n2 ++ n1)%list. split.
    + rewrite Hl2, Hl. now rewrite app_assoc.
    + apply Forall_app. now split.
Qed.

(** ** The extraction functions leave the locals alone *)

Section Extractors.

Variable W : World.

Lemma extractFromImage_runs (buffer : Buffer) (w : option Worker)
  (preprocess : bool) :
  runs (extractFromImage W buffer w preprocess) (borrows w)
       (fun r => ImageResult.confidence r <> None).
Proof.
  unfold extractFromImage.
  eapply runs_bind with (R1 := fun _ => True).
  - destruct preprocess.
    + apply runs_call; [intros r; exact I|auto].
    + now apply runs_ret.
  - intros input _. destruct w as [w|].
    + eapply runs_bind with (R1 := fun _ => True).
      * apply runs_call; [intros r; reflexivity|auto].
      * intros data _. apply runs_ret. discriminate.
    + apply runs_throw.
Qed.

Lemma pdfToImages_runs (buffer : Buffer) (scale : number) (w : option Worker) :
  runs (pdfToImages W buffer scale) (borrows w) (fun _ => True).
Proof.
  unfold pdfToImages.
  eapply runs_bind with (R1 := fun _ => True).
  - apply runs_call; [intros r; exact I|auto].
  - intros pages _. now apply runs_ret.
Qed.

Lemma ocrPages_runs (images : list Buffer) (w : Worker) (preprocess : bool)
  (texts : list string) (total : number) :
  runs (ocrPages W images w preprocess texts total) (borrows (Some w))
       (fun _ => True).
Proof.
  revert texts total.
  induction images as [|img rest IH]; intros texts total; cbn [ocrPages].
  - now apply runs_ret.
  - eapply runs_bind.
    + apply extractFromImage_runs.
    + intros r _. apply IH.
Qed.

Lemma textLayer_runs (buffer : Buffer) (strategy : string) (w : option Worker) :
  runs (textLayer W buffer strategy) (borrows w) (fun _ => True).
Proof.
  unfold textLayer. destruct (shouldTryText strategy).
  - eapply runs_bind with (R1 := fun _ => True).
    + apply runs_call; [intros r; exact I|auto].
    + intros d _. eapply runs_bind with (R1 := fun _ => True).
      * apply runs_call; [intros r; exact I|auto].
      * intros t _. now apply runs_ret.
  - now apply runs_ret.
Qed.

Lemma extractFromPdf_runs (buffer : Buffer) (strategy : string)
  (w : option Worker) (preprocess : bool) (scale threshold : number) :
  runs (extractFromPdf W buffer strategy w preprocess scale threshold)
       (borrows w) (pdfShape strategy).
Proof.
  unfold extractFromPdf.
  eapply runs_bind; [apply textLayer_runs|].
  intros [textResult pageCount] _.
  destruct (shouldTryText strategy && js_ge _ _).
  - apply runs_ret. now left.
  - destruct (shouldTryOcr strategy) eqn:Ho; [destruct w as [w|]|].
    + eapply runs_bind; [apply pdfToImages_runs|].
      intros images _.
      eapply runs_bind; [apply ocrPages_runs|].
      intros [texts total] _. apply runs_ret. right.
      repeat split; first [reflexivity|discriminate|assumption].
    + apply runs_ret. now left.
    + apply runs_ret. now left.
Qed.

Lemma extractFromDocx_runs (buffer : Buffer) (w : option Worker) :
  runs (extractFromDocx W buffer) (borrows w) (fun _ => True).
Proof.
  unfold extractFromDocx.
  eapply runs_bind with (R1 := fun _ => True).
  - apply runs_call; [intros r; exact I|auto].
  - intros v _. now apply runs_ret.
Qed.

Lemma extractFromDoc_runs (buffer : Buffer) (w : option Worker) :
  runs (extractFromDoc W buffer) (borrows w) (fun _ => True).
Proof.
  unfold extractFromDoc.
  eapply runs_bind with (R1 := fun _ => True).
  - apply runs_call; [intros r; exact I|auto].
  - intros v _. now apply runs_ret.
Qed.

Lemma tagged_ocr (c : number) : tagged "ocr" (Some c) None.
Proof.
  split; split; intros H;
    first [discriminate | now elim H | now left].
Qed.

Lemma tagged_plain (m : string) :
  m = "docx" \/ m = "doc" \/ m = "txt" \/ m = EmptyString ->
  tagged m None None.
Proof.
  intros H. split; split; intros H'; try now elim H'.
  - destruct H' as [-> | ->];
      destruct H as [H|[H|[H|H]]]; discriminate.
  - destruct H as [-> | [-> | [-> | ->]]]; discriminate.
Qed.

Lemma tagged_pdf (strategy : string) (r : PdfResult.t) :
  pdfShape strategy r ->
  tagged (PdfResult.method r) (PdfResult.confidence r)
         (Some (PdfResult.pageCount r)).
Proof.
  intros [[Hm Hc]|[Hm [Hc _]]]; rewrite Hm; split; split; intros H;
    try reflexivity; try discriminate; auto.
  - now rewrite Hc in H.
  - destruct H; discriminate.
Qed.

Lemma shouldTryOcr_not_text (strategy : string) :
  shouldTryOcr strategy = true -> String.eqb strategy "text" = false.
Proof.
  unfold shouldTryOcr. intros H.
  apply orb_true_iff in H as [H|H]; apply String.eqb_eq in H; now subst.
Qed.

Lemma plain_not_ocr (m : string) :
  m = "docx" \/ m = "doc" \/ m = "txt" \/ m = EmptyString -> ~ ocrMethod m.
Proof.
  intros [-> | [-> | [-> | ->]]] [H|H]; discriminate.
Qed.

Lemma dispatch_runs (fileType : member FileType) (buffer : Buffer)
  (w : option Worker) (preprocess : bool) (i : nat) (ocrLanguage : string) :
  runs (dispatch W fileType buffer w preprocess i) (borrows w)
       (fun e => tagged (Extracted.method e) (Extracted.confidence e)
                   (Extracted.pageCount e)
                 /\ (ocrMethod (Extracted.method e) ->
                     languageOf W ocrLanguage i (Some fileType)
                     = Some ocrLanguage)).
Proof.
  unfold dispatch. destruct fileType as [[| | | |]|k].
  - eapply runs_bind; [apply extractFromImage_runs|].
    intros r Hr. apply runs_ret. cbn. split; [|reflexivity].
    destruct (ImageResult.confidence r) as [c|] eqn:Hc;
      [apply tagged_ocr|now elim Hr].
  - eapply runs_bind
      with (R1 := fun st => getNodeParameterString W "pdfStrategy" i (Some "auto")
                            = inr st);
      [now apply runs_lift|].
    intros st Hst.
    eapply runs_bind with (R1 := fun _ => True); [now apply runs_lift|].
    intros sc _.
    eapply runs_bind with (R1 := fun _ => True); [now apply runs_lift|].
    intros th _.
    eapply runs_bind; [apply extractFromPdf_runs|].
    intros r Hr. apply runs_ret. cbn. split; [now apply (tagged_pdf st)|].
    intros Ho. rewrite Hst.
    destruct Hr as [[Hm _]|(_ & _ & Hs)].
    + rewrite Hm in Ho. destruct Ho; discriminate.
    + now rewrite (shouldTryOcr_not_text _ Hs).
  - eapply runs_bind; [apply extractFromDocx_runs|].
    intros t _. apply runs_ret.
    split; [apply tagged_plain|intros H; elim (plain_not_ocr "docx")]; auto.
  - eapply runs_bind; [apply extractFromDoc_runs|].
    intros t _. apply runs_ret.
    split; [apply tagged_plain|intros H; elim (plain_not_ocr "doc")]; auto.
  - apply runs_ret.
    split; [apply tagged_plain|intros H; elim (plain_not_ocr "txt")]; auto.
  - apply runs_ret.
    split; [apply tagged_plain|intros H; elim (plain_not_ocr EmptyString)];
      auto 6.
Qed.

Lemma needsOcrOf_runs (fileType : member FileType) (i : nat)
  (ocrLanguage : string) :
  runs (needsOcrOf W fileType i) (fun _ => False)
       (fun b => (if b then Some ocrLanguage else None)
                 = languageOf W ocrLanguage i (Some fileType)).
Proof.
  unfold needsOcrOf, languageOf. destruct fileType as [[| | | |]|k];
    try (now apply runs_ret).
  destruct (getNodeParameterString W "pdfStrategy" i (Some "auto")) as [e|st].
  - eapply runs_bind with (R1 := fun _ => False); [apply (runs_throw e)|].
    intros a [].
  - eapply runs_bind with (R1 := fun x => x = st).
    + apply (runs_ret st). reflexivity.
    + intros a ->. apply runs_ret. now destruct (String.eqb st "text").
Qed.

End Extractors.

(** ** The worker across calls *)

Lemma created_app (a b : History) :
  created (a ++ b)%list = (created a ++ created b)%list.
Proof.
  induction a as [|e a IH]; [reflexivity|].
  destruct e; cbn [created app]; try exact IH.
  destruct r; cbn; [exact IH|now rewrite IH].
Qed.

Lemma terminated_app (a b : History) :
  terminated (a ++ b)%list = (terminated a ++ terminated b)%list.
Proof.
  induction a as [|e a IH]; [reflexivity|].
  destruct e; cbn [terminated app]; try exact IH.
  cbn. now rewrite IH.
Qed.

Lemma recognizers_app (a b : History) :
  recognizers (a ++ b)%list = (recognizers a ++ recognizers b)%list.
Proof.
  induction a as [|e a IH]; [reflexivity|].
  destruct e; cbn [recognizers app]; try exact IH.
  cbn. now rewrite IH.
Qed.

Lemma borrows_calls (w : option Worker) (new : History) :
  Forall (borrows w) new ->
  created new = [] /\ terminated new = [] /\
  (forall x, In x (recognizers new) -> w = Some x) /\
  asked new = 0%nat /\ lazily new.
Proof.
  induction 1 as [|e new He _ (IHc & IHt & IHr & IHa & IHl)];
    [now repeat split|].
  destruct e; cbn in He |- *; try now elim He.
  all: repeat split; auto.
  intros x [<-|Hx]; auto.
Qed.

Lemma asked_app (a b : History) :
  asked (a ++ b)%list = (asked a + asked b)%nat.
Proof.
  induction a as [|e a IH]; [reflexivity|].
  destruct e; cbn [asked app]; try exact IH.
  cbn. now rewrite IH.
Qed.

(** Calls made lazily, after calls made lazily of which none created a
    worker unless the later ones never asked for one. *)
Lemma lazily_app (a b : History) :
  lazily a -> lazily b ->
  (asked a <> 0%nat -> created b = []) ->
  lazily (a ++ b)%list.
Proof.
  induction a as [|e a IH]; intros Ha Hb Hab; [exact Hb|].
  destruct e; cbn [lazily asked app] in *; try now apply IH.
  destruct Ha as [Hc Ha]. split.
  - rewrite created_app, Hc. cbn. now apply Hab.
  - apply IH; auto.
Qed.


Lemma held_single {A : Type} (l : list A) (a : A) (o : option A) :
  (l ++ [a])%list = held o -> l = [] /\ o = Some a.
Proof.
  destruct o as [b|]; cbn; intros H.
  - destruct l as [|x [|y l]]; cbn in H; inversion H; subst; auto.
  - now destruct l.
Qed.

Lemma lifecycleStep_refl (s : State) : lifecycleStep s s.
Proof. exists []. cbn. repeat split; auto. intros w []. Qed.

Lemma lifecycleStep_trans (s s1 s2 : State) :
  lifecycleStep s s1 -> lifecycleStep s1 s2 -> lifecycleStep s s2.
Proof.
  intros (n1 & Hl1 & Ht1 & Hc1 & Hr1 & Ha1 & Hz1)
         (n2 & Hl2 & Ht2 & Hc2 & Hr2 & Ha2 & Hz2).
  exists (n2 ++ n1)%list.
  split; [|split; [|split; [|split; [|split]]]].
  - now rewrite Hl2, Hl1, app_assoc.
  - now rewrite terminated_app, Ht1, Ht2.
  - now rewrite created_app, <- app_assoc, Hc1.
  - intros w Hw. rewrite recognizers_app in Hw.
    apply in_app_or in Hw as [Hw|Hw]; [now apply Hr2|].
    apply Hr1 in Hw. rewrite Hw in Hc2. cbn [held] in Hc2.
    now apply held_single in Hc2.
  - intros Hs. rewrite asked_app, (Ha1 Hs), Nat.add_0_r. apply Ha2.
    destruct (worker s) as [w|]; [|now elim Hs].
    cbn [held] in Hc1.
    apply held_single in Hc1 as [_ ->]. discriminate.
  - apply lazily_app; auto.
    intros Hask. destruct (worker s1) as [w1|] eqn:Hw1.
    + elim Hask. apply Ha2. discriminate.
    + cbn [held] in Hc1. now apply app_eq_nil in Hc1.
Qed.

(** Only the worker and the log matter to a lifecycle step. *)
Lemma lifecycleStep_locals (s s' : State) (d : list Json.t) :
  lifecycleStep s s' ->
  lifecycleStep s (mkState (worker s') d (log s')).
Proof. intros (n & H). now exists n. Qed.

Lemma quietStep_refl (s : State) : quietStep s s.
Proof. split; [apply lifecycleStep_refl|reflexivity]. Qed.

Lemma quietStep_trans (s s1 s2 : State) :
  quietStep s s1 -> quietStep s1 s2 -> quietStep s s2.
Proof.
  intros [H1 D1] [H2 D2]. split; [|congruence].
  eapply lifecycleStep_trans; eassumption.
Qed.

(** A computation that borrows the held worker makes a quiet step. *)
Lemma runs_quietStep {A : Type} (m : M A) (R : A -> Prop) (s s' : State)
  (r : Error + A) :
  runs m (borrows (worker s)) R ->
  m s = (r, s') ->
  quietStep s s' /\ (forall a, r = inr a -> R a).
Proof.
  intros Hm H. destruct (Hm _ _ _ H) as (Hw & Hd & (new & Hl & Hn) & Hr).
  split; [|exact Hr]. split; [|exact Hd].
  destruct (borrows_calls _ _ Hn) as (Hc & Ht & Hrec & Ha & Hz).
  exists new. repeat split; auto.
  - now rewrite Hc, Hw.
  - intros w Hx. rewrite Hw. now apply Hrec.
Qed.

Section Batch.

Variable W : World.

Lemma ensureWorker_quietStep (needsOcr : bool) (ocrLanguage : string)
  (s s' : State) (r : Error + unit) :
  ensureWorker W needsOcr ocrLanguage s = (r, s') -> quietStep s s'.
Proof.
  unfold ensureWorker, bind, getWorker.
  destruct (worker s) as [w|] eqn:Hw.
  - intros H. inversion H; subst. apply quietStep_refl.
  - destruct needsOcr.
    + unfold call, setWorker.
      destruct (createWorker W (log s) ocrLanguage) as [e|w] eqn:Hc;
        intros H; inversion H; subst; clear H; (split; [|reflexivity]).
      * exists [EvCreateWorker ocrLanguage (inl e)]. cbn. rewrite Hw.
        repeat split; auto; try (intros x []). intros H; now elim H.
      * exists [EvCreateWorker ocrLanguage (inr w)]. cbn. rewrite Hw.
        repeat split; auto; try (intros x []). intros H; now elim H.
    + intros H. inversion H; subst. apply quietStep_refl.
Qed.

(** Lines 340-343 create a worker only when none is held and the item
    needs OCR; otherwise they call nothing. *)
Lemma ensureWorker_lazy (needsOcr : bool) (ocrLanguage : string) (s : State) :
  worker s <> None \/ needsOcr = false ->
  ensureWorker W needsOcr ocrLanguage s = (inr tt, s).
Proof.
  unfold ensureWorker, bind, getWorker. intros [H|H].
  - destruct (worker s); [reflexivity|now elim H].
  - subst needsOcr. now destruct (worker s).
Qed.

Lemma call_quietStep {A : Type} (oracle : History -> Error + A)
  (ev : Error + A -> Event) (s s' : State) (r : Error + A) :
  (forall x, borrows (worker s) (ev x)) ->
  call oracle ev s = (r, s') -> quietStep s s'.
Proof.
  intros He H.
  refine (proj1 (runs_quietStep (call oracle ev) (fun _ => True) s s' r _ H)).
  now apply runs_call.
Qed.

(** What one run of the body of the inner [try] does. *)
Lemma processItem_effect (binaryProperty operation ocrLanguage : string)
  (preprocess : bool) (i : nat) (item : Item) (s s' : State)
  (r : Error + unit) :
  processItem W binaryProperty operation ocrLanguage preprocess i item s
    = (r, s') ->
  match r with
  | inl _ => quietStep s s'
  | inr _ =>
      exists s1 j,
        quietStep s s1 /\
        s' = mkState (worker s1) (returnData s1 ++ [j])%list (log s1) /\
        successOf W ocrLanguage i j
  end.
Proof.
  unfold processItem. intros H.
  apply bind_cases in H as [(e & H & ->)|(binaryData & s1 & H1 & H)].
  { eapply call_quietStep; [|exact H]. intros x; exact I. }
  apply call_quietStep in H1; [|intros x; exact I].
  apply bind_cases in H as [(e & H & ->)|(buffer & s2 & H2 & H)].
  { eapply quietStep_trans; [exact H1|].
    eapply call_quietStep; [|exact H]. intros x; exact I. }
  apply call_quietStep in H2; [|intros x; exact I].
  pose proof (quietStep_trans _ _ _ H1 H2) as Q2. clear H1 H2.
  destruct (resolveFileType _ _ _) as [fileType|] eqn:Hft.
  2:{ inversion H; subst. exact Q2. }
  apply bind_cases in H as [(e & H & ->)|(needsOcr & s3 & H3 & H)].
  { eapply quietStep_trans; [exact Q2|].
    refine (proj1 (runs_quietStep _ _ _ _ _ _ H)).
    eapply runs_weaken; [apply (needsOcrOf_runs W fileType i ocrLanguage)| |];
      [intros ? []|intros a Ha; exact Ha]. }
  eapply runs_quietStep in H3 as [H3 Hn].
  2:{ eapply runs_weaken; [apply (needsOcrOf_runs W fileType i ocrLanguage)| |];
      [intros ? []|intros a Ha; exact Ha]. }
  specialize (Hn _ eq_refl). cbn beta in Hn.
  pose proof (quietStep_trans _ _ _ Q2 H3) as Q3. clear Q2 H3.
  apply bind_cases in H as [(e & H & ->)|([] & s4 & H4 & H)].
  { eapply quietStep_trans; [exact Q3|].
    eapply ensureWorker_quietStep; exact H. }
  apply ensureWorker_quietStep in H4.
  pose proof (quietStep_trans _ _ _ Q3 H4) as Q4. clear Q3 H4.
  unfold getWorker at 1 in H. cbn [bind] in H.
  apply bind_cases in H as [(e & H & ->)|(x & s5 & H5 & H)].
  { eapply quietStep_trans; [exact Q4|].
    refine (proj1 (runs_quietStep _ _ _ _ _ _ H)).
    apply dispatch_runs with (ocrLanguage := ocrLanguage). }
  eapply runs_quietStep in H5 as [H5 Hx];
    [|apply dispatch_runs with (ocrLanguage := ocrLanguage)].
  specialize (Hx _ eq_refl). cbn beta in Hx. destruct Hx as [Hx Ho].
  pose proof (quietStep_trans _ _ _ Q4 H5) as Q5. clear Q4 H5.
  unfold push in H. inversion H; subst; clear H.
  eexists s5, _. split; [exact Q5|]. split; [reflexivity|].
  unfold successOf, successRecord; cbn. split; [reflexivity|]. split.
  - exists (Extracted.method x). repeat split; try apply Hx.
    intros Hm. rewrite Hn. now apply Ho.
  - exact Hn.
Qed.

Lemma errorRecord_degraded (e : Error) (binaryProperty : string) (item : Item) :
  degradedOf e (errorRecord e binaryProperty item).
Proof. now repeat split. Qed.

(** One turn of the loop: a record is appended unless the error is
    rethrown. *)
Lemma iteration_effect (binaryProperty operation ocrLanguage : string)
  (preprocess : bool) (i : nat) (item : Item) (s s' : State)
  (r : Error + unit) :
  iteration W binaryProperty operation ocrLanguage preprocess i item s
    = (r, s') ->
  lifecycleStep s s' /\
  match r with
  | inr _ =>
      exists j, returnData s' = (returnData s ++ [j])%list /\
                (successOf W ocrLanguage i j \/ exists e, degradedOf e j)
  | inl _ => returnData s' = returnData s
  end.
Proof.
  unfold iteration, try_catch.
  destruct (processItem W _ _ _ _ _ _ s) as [[e|[]] s1] eqn:Hp;
    apply processItem_effect in Hp.
  - destruct Hp as [L D]. unfold onError, push, throw.
    destruct (continueOnFail W); intros H; inversion H; subst; clear H.
    + split; [now apply lifecycleStep_locals|].
      exists (errorRecord e binaryProperty item). cbn. rewrite D.
      split; [reflexivity|]. right. exists e. apply errorRecord_degraded.
    + now split.
  - destruct Hp as (s2 & j & [L D] & -> & Hj).
    intros H. inversion H; subst; clear H. split.
    + now apply lifecycleStep_locals.
    + exists j. cbn. rewrite D. auto.
Qed.

(** The loop from index [i]: one record per item it reached, in order. *)
Lemma loop_effect (binaryProperty operation ocrLanguage : string)
  (preprocess : bool) (items : list Item) :
  forall (i : nat) (s s' : State) (r : Error + unit),
    loop W binaryProperty operation ocrLanguage preprocess i items s
      = (r, s') ->
    lifecycleStep s s' /\
    exists outs,
      returnData s' = (returnData s ++ outs)%list /\
      (length outs <= length items)%nat /\
      (forall u, r = inr u -> length outs = length items) /\
      (forall k j, nth_error outs k = Some j ->
                   successOf W ocrLanguage (i + k) j
                   \/ exists e, degradedOf e j).
Proof.
  induction items as [|item rest IH]; intros i s s' r H; cbn [loop] in H.
  - inversion H; subst. split; [apply lifecycleStep_refl|].
    exists []. rewrite app_nil_r. repeat split; auto.
    intros k j Hk. now destruct k.
  - apply bind_cases in H as [(e & H & ->)|([] & s1 & H1 & H)].
    + apply iteration_effect in H as [L D]. split; [exact L|].
      exists []. rewrite app_nil_r. cbn. repeat split; auto with arith.
      * discriminate.
      * intros k j Hk. now destruct k.
    + apply iteration_effect in H1 as [L1 (j & D1 & Hj)].
      apply IH in H as [L2 (outs & D2 & Hlen & Hall & Hout)].
      split; [eapply lifecycleStep_trans; eassumption|].
      exists (j :: outs). repeat split.
      * rewrite D2, D1, <- app_assoc. reflexivity.
      * cbn. lia.
      * intros u Hu. cbn. now rewrite (Hall u Hu).
      * intros [|k] x Hx; cbn in Hx.
        -- inversion Hx; subst. now rewrite Nat.add_0_r.
        -- rewrite <- Nat.add_succ_comm. now apply Hout.
Qed.

Lemma release_effect (s s' : State) (r : Error + unit) :
  release W s = (r, s') ->
  returnData s' = returnData s /\
  match worker s with
  | Some w => exists x, log s' = EvTerminate w x :: log s
  | None => log s' = log s
  end.
Proof.
  unfold release, bind, getWorker, call, ret.
  destruct (worker s) as [w|]; intros H; inversion H; subst; cbn.
  - split; [reflexivity|]. now eexists.
  - now split.
Qed.

(** The [try]/[finally] around the loop, from the state in which
    [execute] enters it. *)
Lemma guarded_loop_effect (binaryProperty operation ocrLanguage : string)
  (preprocess : bool) (h : History) (s' : State) (r : Error + unit) :
  try_finally
    (loop W binaryProperty operation ocrLanguage preprocess 0 (getInputData W))
    (release W) (mkState None [] h) = (r, s') ->
  (exists new, log s' = (new ++ h)%list /\ scoped new) /\
  (length (returnData s') <= length (getInputData W))%nat /\
  (forall u, r = inr u -> length (returnData s') = length (getInputData W)) /\
  (forall k j, nth_error (returnData s') k = Some j ->
               successOf W ocrLanguage k j \/ exists e, degradedOf e j).
Proof.
  unfold try_finally.
  destruct (loop W _ _ _ _ _ _ _) as [rl sl] eqn:Hl.
  apply loop_effect in Hl as [(new & Hlog & Ht & Hc & Hr & _ & Hz)
                                (outs & Hd & Hlen & Hall & Hout)].
  cbn in Hlog, Hc, Hd. rewrite app_nil_r in Hc.
  destruct (release W sl) as [rf sf] eqn:Hf.
  apply release_effect in Hf as [Hd' Hlog'].
  intros H.
  assert (Hs : s' = sf) by (destruct rf; now inversion H).
  subst s'. split; [|rewrite Hd', Hd; repeat split; auto].
  - destruct (worker sl) as [w|] eqn:Hw; cbn [held] in Hc.
    + destruct Hlog' as (x & Hlog').
      exists (EvTerminate w x :: new). split.
      * now rewrite Hlog', Hlog.
      * unfold scoped. cbn [created terminated recognizers lazily].
        rewrite Hc, Ht.
        split; [auto|split; [auto|split; [|split; [|exact Hz]]]].
        -- intros v Hv. apply Hr in Hv. now inversion Hv.
        -- intros _. now exists w, x, new.
    + exists new. split; [congruence|].
      unfold scoped. rewrite Hc, Ht.
      split; [auto|split; [auto|split; [|split; [|exact Hz]]]].
      * intros v Hv. apply Hr in Hv. discriminate.
      * intros Hn. now elim Hn.
  - intros u Hu. destruct rf as [e|[]]; inversion H; subst.
    + discriminate.
    + exact (Hall u eq_refl).
Qed.

(** One run of [execute]: the life of the worker, and the records. *)
Lemma execute_effect (s s' : State) (r : Error + list (list Json.t)) :
  execute W s = (r, s') ->
  (exists new, log s' = (new ++ log s)%list /\ scoped new) /\
  (forall k j,
     nth_error (returnData s') k = Some j ->
     (exists ocrLanguage,
        getNodeParameterString W "ocrLanguage" 0 None = inr ocrLanguage /\
        successOf W ocrLanguage k j)
     \/ exists e, degradedOf e j) /\
  (forall out, r = inr out ->
               out = [returnData s'] /\
               length (returnData s') = length (getInputData W)).
Proof.
  assert (Hnil : scoped []).
  { unfold scoped; cbn.
    split; [auto|split; [auto|split; [|split; [|exact I]]]].
    - intros w [].
    - intros H; now elim H. }
  assert (Hstop : forall e h, (inl e, mkState None [] h) = (r, s') ->
            h = log s ->
            (exists new, log s' = (new ++ log s)%list /\ scoped new) /\
            (forall k j,
               nth_error (returnData s') k = Some j ->
               (exists ocrLanguage,
                  getNodeParameterString W "ocrLanguage" 0 None
                    = inr ocrLanguage /\
                  successOf W ocrLanguage k j)
               \/ exists e, degradedOf e j) /\
            (forall out, r = inr out ->
               out = [returnData s'] /\
               length (returnData s') = length (getInputData W))).
  { intros e h H ->. inversion H; subst; cbn. repeat split.
    - now exists [].
    - intros k j Hk. now destruct k.
    - discriminate.
    - discriminate. }
  unfold execute, bind at 1, enter.
  unfold bind at 1.
  destruct (getNodeParameterString W "binaryProperty" 0 None) as [e|bp];
    cbn [lift throw ret]; [intros H; now apply (Hstop e (log s))|].
  unfold bind at 1.
  destruct (getNodeParameterString W "operation" 0 None) as [e|op];
    cbn [lift throw ret]; [intros H; now apply (Hstop e (log s))|].
  unfold bind at 1.
  destruct (getNodeParameterString W "ocrLanguage" 0 None) as [e|lang];
    cbn [lift throw ret]; [intros H; now apply (Hstop e (log s))|].
  unfold bind at 1.
  destruct (getNodeParameterBoolean W "preprocess" 0) as [e|pre];
    cbn [lift throw ret]; [intros H; now apply (Hstop e (log s))|].
  unfold bind at 1.
  destruct (try_finally _ _ _) as [rg sg] eqn:Hg.
  apply guarded_loop_effect in Hg as (Hlife & Hlen & Hall & Hout).
  destruct rg as [e|[]]; unfold bind, getReturnData, ret;
    intros H; inversion H; subst; clear H.
  - split; [exact Hlife|]. split; [|discriminate].
    intros k j Hk. destruct (Hout k j Hk) as [Hs|Hd]; [left|now right].
    now exists lang.
  - split; [exact Hlife|]. split.
    + intros k j Hk. destruct (Hout k j Hk) as [Hs|Hd]; [left|now right].
      now exists lang.
    + intros out Ho. split; [now inversion Ho|]. now apply (Hall tt).
Qed.

End Batch.

(** ** The batch loop *)

(** A run that returns has produced one record per input item, and
    returns them as its single output branch. *)
Lemma execute_returns (W : World) (s s' : State) (out : list (list Json.t)) :
  execute W s = (inr out, s') ->
  out = [returnData s'] /\
  length (returnData s') = length (getInputData W).
Proof.
  intros Hrun.
  destruct (execute_effect W _ _ _ Hrun) as (_ & _ & Hout).
  now apply Hout.
Qed.

(** C4: in every record of a successfully processed item, the confidence
    is non-null exactly when the method is [ocr] or [pdf-ocr], and the
    page count is non-null exactly when the method starts with [pdf]. *)
Theorem C4_method_determines_nullability (W : World) (s s' : State)
  (r : Error + list (list Json.t)) (j : Json.t) :
  execute W s = (r, s') ->
  In j (returnData s') ->
  Json.error j = None ->
  exists m,
    Json.method j = Some m /\
    (Json.confidence j <> None <-> m = "ocr" \/ m = "pdf-ocr") /\
    (Json.pageCount j <> None <-> startsWith "pdf" m = true).
Proof.
  intros Hrun Hin Herr.
  destruct (execute_effect W _ _ _ Hrun) as (_ & Hout & _).
  apply In_nth_error in Hin as [k Hk].
  destruct (Hout k j Hk) as [(lang & _ & _ & (m & Hm & Ht & _) & _)|(e & Hd & _)].
  - exists m. split; [exact Hm|exact Ht].
  - congruence.
Qed.

Lemma C4_method_determines_nullability_witness :
  exists j,
    In j (returnData (snd (execute Scenario.batch Scenario.start))) /\
    Json.error j = None /\
    Json.method j = Some "pdf-ocr" /\
    Json.confidence j <> None /\
    Json.pageCount j <> None.
Proof.
  pose (j := Json.mk None (Some ("PAGE1" ++ blank_line ++ "PAGE2"))
               "scan.pdf" "application/pdf" (Some (Own pdf))
               (Some (of_Z 2)) (Some (of_Z 85)) (Some "fra") (Some "pdf-ocr")).
  assert (Hin : In j (returnData (snd (execute Scenario.batch Scenario.start)))).
  { vm_compute. right. left. reflexivity. }
  exists j. split; [exact Hin|]. split; [reflexivity|]. split; [reflexivity|].
  destruct (C4_method_determines_nullability Scenario.batch Scenario.start
              _ _ j (surjective_pairing _) Hin eq_refl)
    as (m & Hm & Hc & Hp).
  inversion Hm; subst m.
  split; [apply Hc; right; reflexivity|apply Hp; reflexivity].
Defined.

(** C3, as the code has it: the record of a successfully processed item
    carries the configured OCR language exactly when the item's kind is
    [image], or [pdf] under a PDF strategy other than [text]; otherwise
    the language is null.  In particular it carries the language whenever
    the method is [ocr] or [pdf-ocr]. *)
Theorem C3_language_follows_needsOcr (W : World) (s s' : State)
  (r : Error + list (list Json.t)) (k : nat) (j : Json.t) :
  execute W s = (r, s') ->
  nth_error (returnData s') k = Some j ->
  Json.error j = None ->
  exists ocrLanguage,
    getNodeParameterString W "ocrLanguage" 0 None = inr ocrLanguage /\
    Json.language j = languageOf W ocrLanguage k (Json.fileType j) /\
    (forall m, Json.method j = Some m -> m = "ocr" \/ m = "pdf-ocr" ->
               Json.language j = Some ocrLanguage).
Proof.
  intros Hrun Hk Herr.
  destruct (execute_effect W _ _ _ Hrun) as (_ & Hout & _).
  destruct (Hout k j Hk)
    as [(lang & Hlang & _ & (m & Hm & _ & Ho) & Hl)|(e & Hd & _)].
  - exists lang. repeat split; auto.
    intros m' Hm' Hocr. apply Ho.
    assert (m' = m) by congruence. subst m'. exact Hocr.
  - congruence.
Qed.

Lemma C3_language_follows_needsOcr_witness :
  exists j,
    nth_error (returnData (snd (execute Scenario.born Scenario.start))) 0
      = Some j /\
    Json.error j = None /\
    Json.method j = Some "pdf-text" /\
    Json.language j = languageOf Scenario.born "fra" 0 (Some (Own pdf)).
Proof.
  pose (j := Json.mk None (Some Scenario.layer60)
               "report.pdf" "application/pdf" (Some (Own pdf))
               (Some (of_Z 2)) None (Some "fra") (Some "pdf-text")).
  assert (Hk : nth_error
                 (returnData (snd (execute Scenario.born Scenario.start))) 0
               = Some j) by (vm_compute; reflexivity).
  exists j. split; [exact Hk|]. split; [reflexivity|]. split; [reflexivity|].
  destruct (C3_language_follows_needsOcr Scenario.born Scenario.start
              _ _ 0 j (surjective_pairing _) Hk eq_refl)
    as (lang & Hlang & Hl & _).
  inversion Hlang; subst lang. exact Hl.
Defined.

(** C3, as stated, fails: a PDF under the [auto] strategy whose text layer
    is long enough is processed without any call of the OCR path, its
    method is [pdf-text], and its language is the configured code. *)
Lemma C3_counterexample :
  let s' := snd (execute Scenario.born Scenario.start) in
  existsb ocrCall (log s') = false /\
  ~ (forall j, In j (returnData s') ->
               Json.error j = None ->
               Json.method j = Some "pdf-text" ->
               Json.language j = None).
Proof.
  split; [vm_compute; reflexivity|].
  intros H.
  specialize (H (Json.mk None (Some Scenario.layer60)
                   "report.pdf" "application/pdf" (Some (Own pdf))
                   (Some (of_Z 2)) None (Some "fra") (Some "pdf-text"))).
  assert (Some "fra" = @None string); [|discriminate].
  apply H; [vm_compute; left|..]; reflexivity.
Qed.



(** C8: with continuation enabled, when the processing of an item throws,
    the turn of the loop ends normally: it appends one record that holds
    the error message and the file name and MIME type found in the item's
    binary metadata (those of the configured field if the item has it,
    else those of its first field, else ["unknown"] and the empty string),
    every other field being null; and the loop goes on with the next
    item. *)
Theorem C8_error_isolated_under_continuation (W : World)
  (binaryProperty operation ocrLanguage : string) (preprocess : bool)
  (i : nat) (item : Item) (rest : list Item) (s s1 : State) (e : Error) :
  continueOnFail W = true ->
  processItem W binaryProperty operation ocrLanguage preprocess i item s
    = (inl e, s1) ->
  exists j,
    (Json.error j = Some (message e) /\
     Json.text j = None /\ Json.fileType j = None /\
     Json.pageCount j = None /\ Json.confidence j = None /\
     Json.language j = None /\ Json.method j = None) /\
    (forall d, binaryField item binaryProperty = Some (Own d) ->
               Json.fileName j = nullish (BinaryData.fileName d) "unknown" /\
               Json.mimeType j = nullish (BinaryData.mimeType d) EmptyString) /\
    (binaryField item binaryProperty = None ->
     forall k d o, binary item = Some ((k, d) :: o) ->
               Json.fileName j = nullish (BinaryData.fileName d) "unknown" /\
               Json.mimeType j = nullish (BinaryData.mimeType d) EmptyString) /\
    (binaryField item binaryProperty = None ->
     nullish (binary item) [] = [] ->
     Json.fileName j = "unknown" /\ Json.mimeType j = EmptyString) /\
    iteration W binaryProperty operation ocrLanguage preprocess i item s
      = (inr tt, mkState (worker s1) (returnData s ++ [j])%list (log s1)) /\
    loop W binaryProperty operation ocrLanguage preprocess i (item :: rest) s
      = loop W binaryProperty operation ocrLanguage preprocess (S i) rest
          (mkState (worker s1) (returnData s ++ [j])%list (log s1)).
Proof.
  intros Hc Hp.
  pose proof (processItem_effect W _ _ _ _ _ _ _ _ _ Hp) as [_ Hd].
  cbn beta iota in Hd.
  assert (Hi : iteration W binaryProperty operation ocrLanguage preprocess
                 i item s
               = (inr tt, mkState (worker s1)
                            (returnData s ++ [errorRecord e binaryProperty item])%list
                            (log s1))).
  { unfold iteration, try_catch. rewrite Hp. unfold onError. rewrite Hc.
    unfold push. now rewrite Hd. }
  exists (errorRecord e binaryProperty item).
  split; [apply errorRecord_degraded|].
  unfold errorRecord, recoveredBinaryData; cbn [Json.fileName Json.mimeType].
  split; [|split; [|split; [|split]]].
  - intros d Hown. rewrite Hown. now split.
  - intros Hnone k d o Hbin. rewrite Hnone, Hbin. now split.
  - intros Hnone Hempty. rewrite Hnone, Hempty. now split.
  - exact Hi.
  - cbn [loop]. now rewrite (bind_inr _ _ _ _ _ Hi).
Qed.

Lemma C8_error_isolated_under_continuation_witness :
  exists j,
    Json.error j = Some "Unsupported file type: application/x-unknown" /\
    Json.fileName j = "blob.bin" /\
    Json.fileType j = None /\
    loop Scenario.batch "data" "auto" "fra" true 2
      [Scenario.item (Scenario.mkFile "blob.bin" "application/x-unknown" "????")]
      Scenario.start
    = (inr tt,
       mkState None [j]
         [ EvGetBinaryDataBuffer 2 "data" (inr (Scenario.bytes "????"));
           EvAssertBinaryData 2 "data"
             (inr (BinaryData.mk (Some "blob.bin")
                     (Some "application/x-unknown"))) ]).
Proof.
  destruct (C8_error_isolated_under_continuation Scenario.batch
              "data" "auto" "fra" true 2
              (Scenario.item
                 (Scenario.mkFile "blob.bin" "application/x-unknown" "????"))
              [] Scenario.start
              (mkState None []
                 [ EvGetBinaryDataBuffer 2 "data" (inr (Scenario.bytes "????"));
                   EvAssertBinaryData 2 "data"
                     (inr (BinaryData.mk (Some "blob.bin")
                             (Some "application/x-unknown"))) ])
              (mkError "Unsupported file type: application/x-unknown")
              eq_refl eq_refl)
    as (j & (He & _ & Hf & _) & Hown & _ & _ & _ & Hl).
  exists j. split; [exact He|]. split; [|split; [exact Hf|exact Hl]].
  exact (proj1 (Hown _ eq_refl)).
Defined.

(** ** The PDF strategy *)

Lemma textLayer_skipped (W : World) (buffer : Buffer) (strategy : string) (s : State) :
  shouldTryText strategy = false ->
  textLayer W buffer strategy s = (inr (EmptyString, of_Z 0), s).
Proof. unfold textLayer. now intros ->. Qed.

(** The text layer, when both calls of unpdf succeed. *)
Lemma textLayer_read (W : World) (buffer : Buffer) (strategy : string) (s : State)
  (d : PdfDoc) (text : string) :
  shouldTryText strategy = true ->
  getDocumentProxy W (log s) buffer = inr d ->
  extractText W (EvGetDocumentProxy buffer (inr d) :: log s) d = inr text ->
  textLayer W buffer strategy s
  = (inr (trim text, numPages d),
     mkState (worker s) (returnData s)
       (EvExtractText d (inr text)
        :: EvGetDocumentProxy buffer (inr d) :: log s)).
Proof.
  intros Hs Hd Ht. unfold textLayer. rewrite Hs.
  unfold bind, call, ret. cbn. rewrite Hd. cbn. now rewrite Ht.
Qed.

(** C1: under the [auto] strategy, when the trimmed text layer is at least
    [minTextThreshold] long, [extractFromPdf] returns that text with
    method [pdf-text] and a null confidence, having called nothing but
    the two functions of the text layer: no rasterization, no
    preprocessing, no recognition. *)
Theorem C1_auto_short_circuit (W : World) (buffer : Buffer) (w : option Worker)
  (preprocess : bool) (renderScale minTextThreshold : number)
  (s : State) (d : PdfDoc) (text : string) :
  getDocumentProxy W (log s) buffer = inr d ->
  extractText W (EvGetDocumentProxy buffer (inr d) :: log s) d = inr text ->
  js_ge (js_length (trim text)) minTextThreshold = true ->
  exists s',
    extractFromPdf W buffer "auto" w preprocess renderScale minTextThreshold s
    = (inr (PdfResult.mk (trim text) (numPages d) None "pdf-text"), s') /\
    log s' = EvExtractText d (inr text)
             :: EvGetDocumentProxy buffer (inr d) :: log s /\
    (forall new, log s' = (new ++ log s)%list -> existsb ocrCall new = false).
Proof.
  intros Hd Ht Hge. eexists. split; [|split].
  - unfold extractFromPdf.
    rewrite (bind_inr _ _ _ _ _
               (textLayer_read W buffer "auto" s d text eq_refl Hd Ht)).
    cbn beta iota. rewrite Hge. reflexivity.
  - reflexivity.
  - cbn [log]. intros new Hn.
    change (EvExtractText d (inr text)
            :: EvGetDocumentProxy buffer (inr d) :: log s)
      with ([EvExtractText d (inr text); EvGetDocumentProxy buffer (inr d)]
            ++ log s)%list in Hn.
    apply app_inv_tail in Hn. now subst new.
Qed.

Lemma C1_auto_short_circuit_witness :
  exists s',
    extractFromPdf Scenario.born (Scenario.bytes "%PDF-born") "auto"
      (Some 7%nat) true (of_Z 2) (of_Z 50) Scenario.start
    = (inr (PdfResult.mk Scenario.layer60 (of_Z 2) None "pdf-text"), s') /\
    existsb ocrCall (log s') = false.
Proof.
  destruct (C1_auto_short_circuit Scenario.born (Scenario.bytes "%PDF-born")
              (Some 7%nat) true (of_Z 2) (of_Z 50) Scenario.start
              (mkPdfDoc (of_Z 2)) Scenario.layer60 eq_refl eq_refl eq_refl)
    as (s' & Hrun & Hlog & Hocr).
  exists s'. split; [exact Hrun|].
  apply Hocr. cbn [Scenario.start log]. now rewrite app_nil_r.
Defined.

(** C9: when the short-circuit does not fire and the OCR path is not taken
    (the strategy does not try OCR, or there is no worker),
    [extractFromPdf] returns the text-layer result obtained so far, with a
    null confidence and method [pdf-text], and calls nothing more. *)
Theorem C9_text_layer_result_returned (W : World) (buffer : Buffer) (strategy : string)
  (w : option Worker) (preprocess : bool)
  (renderScale minTextThreshold : number) (s s1 : State)
  (textResult : string) (pageCount : number) :
  textLayer W buffer strategy s = (inr (textResult, pageCount), s1) ->
  shouldTryText strategy && js_ge (js_length textResult) minTextThreshold
    = false ->
  shouldTryOcr strategy = false \/ w = None ->
  extractFromPdf W buffer strategy w preprocess renderScale minTextThreshold s
  = (inr (PdfResult.mk textResult pageCount None "pdf-text"), s1).
Proof.
  intros Ht Hshort Hocr. unfold extractFromPdf.
  rewrite (bind_inr _ _ _ _ _ Ht). cbn beta iota. rewrite Hshort.
  destruct Hocr as [-> | ->]; [reflexivity|].
  now destruct (shouldTryOcr strategy).
Qed.

Lemma C9_text_layer_result_returned_witness :
  extractFromPdf Scenario.textOnly (Scenario.bytes "%PDF-scan") "text"
    (Some 7%nat) true (of_Z 2) (of_Z 50) Scenario.start
  = (inr (PdfResult.mk "abcde" (of_Z 2) None "pdf-text"),
     mkState None []
       [ EvExtractText (mkPdfDoc (of_Z 2)) (inr "abcde");
         EvGetDocumentProxy (Scenario.bytes "%PDF-scan")
           (inr (mkPdfDoc (of_Z 2))) ])
  /\ extractFromPdf Scenario.blank (Scenario.bytes "%PDF-blank") "ocr"
       None true (of_Z 2) (of_Z 50) Scenario.start
     = (inr (PdfResult.mk EmptyString (of_Z 0) None "pdf-text"),
        Scenario.start).
Proof.
  split.
  - apply (C9_text_layer_result_returned Scenario.textOnly);
      [reflexivity|reflexivity|now left].
  - apply (C9_text_layer_result_returned Scenario.blank);
      [reflexivity|reflexivity|now right].
Defined.

(** *** The OCR fallback *)

Lemma eachPage_length (W : World) (w : Worker) (preprocess : bool)
  (images : list Buffer) :
  forall (s s' : State) (pages : list ImageResult.t),
    eachPage W images w preprocess s = (inr pages, s') ->
    length pages = length images.
Proof.
  induction images as [|img rest IH]; intros s s' pages H; cbn [eachPage] in H.
  - now inversion H.
  - apply bind_cases in H as [(e & _ & H)|(r & s1 & _ & H)]; [discriminate|].
    apply bind_cases in H as [(e & _ & H)|(rs & s2 & Hrs & H)]; [discriminate|].
    inversion H; subst. cbn. now rewrite (IH _ _ _ Hrs).
Qed.

(** The loop of the fallback accumulates what the image strategy returns
    page after page. *)
Lemma ocrPages_eachPage (W : World) (w : Worker) (preprocess : bool)
  (images : list Buffer) :
  forall (texts : list string) (total : number) (s s' : State)
         (pages : list ImageResult.t),
    eachPage W images w preprocess s = (inr pages, s') ->
    ocrPages W images w preprocess texts total s
    = (inr ((texts ++ map ImageResult.text pages)%list,
            fold_left js_add
              (map (fun p => nullish (ImageResult.confidence p) (of_Z 0)) pages)
              total),
       s').
Proof.
  induction images as [|img rest IH]; intros texts total s s' pages H;
    cbn [eachPage ocrPages] in *.
  - inversion H; subst. cbn. now rewrite app_nil_r.
  - apply bind_cases in H as [(e & _ & H)|(r & s1 & Hr & H)]; [discriminate|].
    apply bind_cases in H as [(e & _ & H)|(rs & s2 & Hrs & H)]; [discriminate|].
    inversion H; subst. rewrite (bind_inr _ _ _ _ _ Hr).
    rewrite (IH _ _ _ _ _ Hrs). cbn [map fold_left].
    now rewrite <- app_assoc.
Qed.

(** *** Sums and means of page scores in double arithmetic *)

Lemma nearest_even_between (n d z : Z) :
  (0 < d)%Z ->
  ((z * d <= n -> z <= nearest_even n d) /\
   (n <= z * d -> nearest_even n d <= z))%Z.
Proof.
  intros Hd. unfold nearest_even.
  pose proof (Z.div_mod n d ltac:(lia)) as Hn.
  pose proof (Z.mod_pos_bound n d Hd) as Hr.
  assert (Hcmp := Z.compare_spec (2 * (n mod d)) d).
  split; intros H.
  - assert (z <= n / d)%Z by (apply Z.div_le_lower_bound; lia).
    destruct (2 * (n mod d) ?= d)%Z; [destruct (Z.even (n / d))| |]; lia.
  - assert (n mod d = 0 \/ n / d + 1 <= z)%Z as [H0|H1].
    { destruct (Z.eq_dec (n mod d) 0) as [|Hne]; [now left|right].
      destruct (Z_lt_le_dec (n / d) z) as [|Hge]; [lia|].
      assert (z * d <= d * (n / d))%Z by nia. lia. }
    + assert (n / d <= z)%Z by (apply Z.mul_le_mono_pos_l with (p := d); lia).
      destruct Hcmp; lia.
    + destruct (2 * (n mod d) ?= d)%Z; [destruct (Z.even (n / d))| |]; lia.
Qed.

Lemma ilog2_upper (q : Q) (j : Z) :
  (0 <= j)%Z ->
  (Z.abs (Qnum q) < 2 ^ (j + 1) * QDen q)%Z ->
  (ilog2 q <= j)%Z.
Proof.
  intros Hj H. unfold ilog2.
  set (a := Z.abs (Qnum q)) in *. set (b := QDen q) in *.
  assert (Hb : (0 < b)%Z) by (subst b; reflexivity).
  destruct (Z.eq_dec a 0) as [Ha|Ha].
  - rewrite Ha. cbn [Z.log2]. pose proof (Z.log2_nonneg b).
    destruct (_ <=? _)%Z; lia.
  - assert (Ha' : (0 < a)%Z) by (subst a; lia).
    pose proof (Z.log2_spec a Ha') as [_ Hau].
    pose proof (Z.log2_spec b Hb) as [_ Hbu].
    pose proof (Z.log2_nonneg a) as Hla. pose proof (Z.log2_nonneg b) as Hlb.
    assert (Hd : (Z.log2 a - Z.log2 b <= j + 1)%Z).
    { assert (Hlt : (a < 2 ^ (j + 1 + Z.succ (Z.log2 b)))%Z).
      { rewrite Z.pow_add_r by lia.
        assert (0 < 2 ^ (j + 1))%Z by (apply Z.pow_pos_nonneg; lia). nia. }
      apply Z.log2_lt_pow2 in Hlt; lia. }
    destruct (_ <=? _)%Z eqn:E; [|lia].
    apply Z.leb_le in E.
    destruct (Z.eq_dec (Z.log2 a - Z.log2 b) (j + 1)) as [Heq|]; [|lia].
    rewrite Heq in E. rewrite Z.max_r, Z.max_l in E by lia.
    rewrite Z.pow_0_r in E. lia.
Qed.

Lemma pow2_pos (k : Z) : (0 <= k)%Z -> (0 < 2 ^ k)%Z.
Proof. intros. apply Z.pow_pos_nonneg; lia. Qed.

(** A value whose last significand bit weighs [2 ^ - k], [0 <= k], is
    rounded to the nearest multiple of [2 ^ - k]. *)
Lemma round64_fine (q : Q) (k : Z) :
  ulp_exponent q = (- k)%Z -> (0 <= k)%Z ->
  (Z.abs (nearest_even (Qnum q * 2 ^ k) (QDen q)) < 2 ^ 1024 * 2 ^ k)%Z ->
  round64 q
  = Fin (Qred (nearest_even (Qnum q * 2 ^ k) (QDen q) # Z.to_pos (2 ^ k))).
Proof.
  intros He Hk Hm. unfold round64, round_at. rewrite He.
  rewrite Z.opp_involutive, (Z.max_r 0 k), (Z.max_l 0 (- k)) by lia.
  rewrite Z.pow_0_r, !Z.mul_1_r.
  set (m := nearest_even (Qnum q * 2 ^ k) (QDen q)) in *.
  destruct (Qle_bool _ _) eqn:E; [exfalso|reflexivity].
  apply Qle_bool_iff in E. rewrite Qred_correct in E.
  unfold Qle in E. cbn [Qabs Qnum Qden inject_Z] in E.
  rewrite Z2Pos.id in E by (apply pow2_pos; exact Hk). lia.
Qed.

Lemma Qfloor_half (m : Z) (k r : Z) :
  (1 <= k)%Z ->
  ((2 * r - 1) * 2 ^ (k - 1) <= m < (2 * r + 1) * 2 ^ (k - 1))%Z ->
  Qfloor (Qred (m # Z.to_pos (2 ^ k)) + (1 # 2)) = r.
Proof.
  intros Hk Hm. rewrite Qred_correct.
  unfold Qplus, Qfloor. cbn [Qnum Qden].
  rewrite Pos2Z.inj_mul, Z2Pos.id by (apply pow2_pos; lia).
  assert (Hp : (2 ^ k = 2 * 2 ^ (k - 1))%Z).
  { rewrite <- Z.pow_succ_r by lia. f_equal. lia. }
  pose proof (pow2_pos (k - 1) ltac:(lia)) as Hpos.
  rewrite Hp. symmetry.
  apply (Z.div_unique_pos _ _ r
           (m * 2 + 1 * (2 * 2 ^ (k - 1)) - r * (2 * 2 ^ (k - 1) * 2))); nia.
Qed.

(** [Math.round] of the exact quotient of two integers. *)
Lemma Math_round_quotient (t n : Z) :
  (0 < n)%Z ->
  Math_round (Fin (inject_Z t / inject_Z n)) = of_Z ((2 * t + n) / (2 * n)).
Proof.
  intros Hn. unfold Math_round, of_Z. do 2 f_equal.
  destruct n as [|p|p]; try lia.
  unfold Qfloor, Qplus, Qdiv, Qmult, Qinv, inject_Z. cbn [Qnum Qden].
  f_equal; lia.
Qed.

(** The mean of integer scores of magnitude at most [2 ^ 30], over fewer
    than [2 ^ 20] pages: the double quotient rounds to the same integer as
    the exact one. *)
Lemma mean_round (t n : Z) :
  (0 < n < 2 ^ 20)%Z -> (Z.abs t <= 2 ^ 30 * n)%Z ->
  Math_round (js_div (of_Z t) (of_Z n))
  = Math_round (Fin (inject_Z t / inject_Z n)).
Proof.
  intros Hn Ht. rewrite Math_round_quotient by lia. unfold js_div, of_Z.
  destruct (Qeq_bool (inject_Z n) 0) eqn:E.
  { apply Qeq_bool_iff in E. unfold Qeq in E. cbn in E. lia. }
  clear E.
  set (q := (inject_Z t / inject_Z n)%Q).
  assert (Hnum : Qnum q = (t * 1)%Z /\ QDen q = n).
  { subst q. unfold Qdiv, Qmult, Qinv, inject_Z. cbn [Qnum Qden].
    destruct n; try lia. cbn. split; reflexivity. }
  destruct Hnum as [Hnum Hden].
  set (r := ((2 * t + n) / (2 * n))%Z).
  assert (Hr : ((2 * r - 1) * n <= 2 * t /\ 2 * t + 1 <= (2 * r + 1) * n)%Z).
  { pose proof (Z.div_mod (2 * t + n) (2 * n) ltac:(lia)) as Hd.
    pose proof (Z.mod_pos_bound (2 * t + n) (2 * n) ltac:(lia)) as Hb.
    fold r in Hd. nia. }
  assert (Hrb : (Z.abs r <= 2 ^ 30 + 1)%Z).
  { assert (2 ^ 30 = 1073741824)%Z by reflexivity. nia. }
  assert (Hi : (ilog2 q <= 30)%Z).
  { apply ilog2_upper; [lia|]. rewrite Hnum, Hden.
    change (2 ^ (30 + 1))%Z with (2 * 2 ^ 30)%Z. lia. }
  set (k := (- ulp_exponent q)%Z).
  assert (Hk : (22 <= k)%Z) by (subst k; unfold ulp_exponent; lia).
  assert (He : ulp_exponent q = (- k)%Z) by (subst k; lia).
  pose proof (pow2_pos (k - 1) ltac:(lia)) as Hpos.
  assert (Hp : (2 ^ k = 2 * 2 ^ (k - 1))%Z).
  { rewrite <- Z.pow_succ_r by lia. f_equal. lia. }
  assert (Hbig : (2 ^ 20 <= 2 ^ (k - 1))%Z) by (apply Z.pow_le_mono_r; lia).
  pose proof (nearest_even_between (Qnum q * 2 ^ k) (QDen q)
                ((2 * r - 1) * 2 ^ (k - 1)) ltac:(lia)) as [Hlo _].
  pose proof (nearest_even_between (Qnum q * 2 ^ k) (QDen q)
                ((2 * r + 1) * 2 ^ (k - 1) - 1) ltac:(lia)) as [_ Hhi].
  rewrite Hnum, Hden, Hp in Hlo, Hhi.
  assert (Hlo' := Hlo ltac:(nia)). assert (Hhi' := Hhi ltac:(nia)).
  clear Hlo Hhi. rewrite <- Hp, <- Hnum, <- Hden in Hlo', Hhi'.
  rewrite (round64_fine q k He ltac:(lia)).
  - unfold Math_round, of_Z. do 2 f_equal.
    apply Qfloor_half; lia.
  - assert (2 ^ 31 < 2 ^ 1024)%Z by (apply Z.pow_lt_mono_r; lia).
    assert (2 ^ 30 = 1073741824)%Z by reflexivity.
    assert (2 ^ 31 = 2147483648)%Z by reflexivity.
    rewrite Hp in *. nia.
Qed.

Lemma Qred_integer (q : Q) (z : Z) :
  (q == inject_Z z)%Q -> Qred q = inject_Z z.
Proof.
  intros H. rewrite (Qred_complete _ _ H).
  unfold Qred, inject_Z.
  pose proof (Z.ggcd_gcd z 1) as Hg.
  pose proof (Z.ggcd_correct_divisors z 1) as Hd.
  destruct (Z.ggcd z 1) as (g & aa & bb). cbn [fst snd] in *.
  rewrite Z.gcd_1_r in Hg. subst g. destruct Hd as [Ha Hb].
  rewrite Z.mul_1_l in Ha, Hb. now subst aa bb.
Qed.

(** Integers add exactly below [2 ^ 53]. *)
Lemma js_add_exact (a b : Z) :
  (Z.abs (a + b) < 2 ^ 53)%Z ->
  js_add (of_Z a) (of_Z b) = of_Z (a + b).
Proof.
  intros H. unfold js_add, of_Z.
  set (q := (inject_Z a + inject_Z b)%Q).
  assert (Hnum : Qnum q = (a * 1 + b * 1)%Z /\ QDen q = 1%Z)
    by (split; reflexivity).
  destruct Hnum as [Hnum Hden].
  assert (Hi : (ilog2 q <= 52)%Z).
  { apply ilog2_upper; [lia|]. rewrite Hnum, Hden.
    change (52 + 1)%Z with 53%Z. lia. }
  set (k := (- ulp_exponent q)%Z).
  assert (Hk : (0 <= k)%Z) by (subst k; unfold ulp_exponent; lia).
  assert (He : ulp_exponent q = (- k)%Z) by (subst k; lia).
  pose proof (pow2_pos k Hk) as Hpos.
  assert (Hm : nearest_even (Qnum q * 2 ^ k) (QDen q) = ((a + b) * 2 ^ k)%Z).
  { rewrite Hnum, Hden.
    pose proof (nearest_even_between ((a * 1 + b * 1) * 2 ^ k) 1
                  ((a + b) * 2 ^ k) ltac:(lia)) as [H1 H2].
    specialize (H1 ltac:(lia)). specialize (H2 ltac:(lia)). lia. }
  rewrite (round64_fine q k He Hk).
  - rewrite Hm. f_equal. apply Qred_integer.
    unfold Qeq. cbn [Qnum Qden inject_Z].
    rewrite Z2Pos.id by exact Hpos. lia.
  - rewrite Hm. assert (2 ^ 53 < 2 ^ 1024)%Z by (apply Z.pow_lt_mono_r; lia).
    nia.
Qed.

(** Above [2 ^ 53] a sum is rounded: [2 ^ 53 + 1] is not a double. *)
Example js_add_rounds :
  js_add (of_Z (2 ^ 53)) (of_Z 1) = of_Z (2 ^ 53).
Proof. vm_compute. reflexivity. Qed.

(** The mean of the scores [2 ^ 53] and [1] is computed from that rounded
    sum. *)
Example js_div_of_a_rounded_sum :
  Math_round (js_div (js_add (of_Z (2 ^ 53)) (of_Z 1)) (of_Z 2))
  = of_Z 4503599627370496.
Proof. vm_compute. reflexivity. Qed.

Lemma integer_confidences (pages : list ImageResult.t) :
  forall cs : list Z,
    map ImageResult.confidence pages = map (fun c => Some (of_Z c)) cs ->
    map (fun p => nullish (ImageResult.confidence p) (of_Z 0)) pages
    = map of_Z cs.
Proof.
  induction pages as [|p pages IH]; intros [|c cs] H; try discriminate.
  - reflexivity.
  - cbn in H |- *. inversion H as [[Hp Hrest]].
    rewrite Hp. cbn [nullish]. now rewrite (IH _ Hrest).
Qed.

(** The running total of the loop is the exact sum, as long as the scores
    and the page count keep it below [2 ^ 53]. *)
Lemma js_add_scores (cs : list Z) :
  forall t : Z,
    Forall (fun c => (Z.abs c <= 2 ^ 30)%Z) cs ->
    (Z.abs t + 2 ^ 30 * Z.of_nat (length cs) < 2 ^ 53)%Z ->
    fold_left js_add (map of_Z cs) (of_Z t) = of_Z (fold_left Z.add cs t) /\
    (Z.abs (fold_left Z.add cs t)
     <= Z.abs t + 2 ^ 30 * Z.of_nat (length cs))%Z.
Proof.
  induction cs as [|c cs IH]; intros t Hall Hb.
  - cbn. split; [reflexivity|lia].
  - inversion Hall as [|? ? Hc Hcs]; subst.
    cbn [map fold_left]. cbn [length] in Hb |- *.
    rewrite js_add_exact by lia.
    destruct (IH (t + c)%Z Hcs ltac:(lia)) as [H1 H2].
    split; [exact H1|lia].
Qed.

(** [Math.round] of a finite number is the nearest integer. *)
Lemma Math_round_nearest (q : Q) :
  exists c : Z,
    Math_round (Fin q) = of_Z c /\
    (inject_Z c - (1 # 2) <= q /\ q < inject_Z c + (1 # 2))%Q.
Proof.
  exists (Qfloor (q + (1 # 2))). split; [reflexivity|].
  pose proof (Qfloor_le (q + (1 # 2))) as Hl.
  pose proof (Qlt_floor (q + (1 # 2))) as Hu.
  rewrite inject_Z_plus in Hu. change (inject_Z 1) with 1%Q in Hu.
  split; lra.
Qed.

(** C5: when the OCR fallback runs on a non-empty sequence of page images,
    the result has method [pdf-ocr]; its text is the texts of the pages, as
    the image strategy returns them, joined by two line feeds; its page
    count is the number of images; and its confidence is the integer
    nearest to the mean of the pages' scores, a half going up.  The mean is
    taken in double arithmetic: the statement covers integer page scores of
    magnitude at most [2 ^ 30] on fewer than [2 ^ 20] pages, where no
    rounding of the sum or of the quotient can move the result. *)
Theorem C5_ocr_fallback_aggregates (W : World) (buffer : Buffer)
  (strategy : string) (w : Worker) (preprocess : bool)
  (renderScale minTextThreshold : number) (s s1 s2 s3 : State)
  (textResult : string) (pageCount : number) (images : list Buffer)
  (pages : list ImageResult.t) (cs : list Z) :
  shouldTryOcr strategy = true ->
  textLayer W buffer strategy s = (inr (textResult, pageCount), s1) ->
  shouldTryText strategy && js_ge (js_length textResult) minTextThreshold
    = false ->
  pdfToImages W buffer renderScale s1 = (inr images, s2) ->
  images <> [] ->
  eachPage W images w preprocess s2 = (inr pages, s3) ->
  map ImageResult.confidence pages = map (fun c => Some (of_Z c)) cs ->
  Forall (fun c => (Z.abs c <= 2 ^ 30)%Z) cs ->
  (Z.of_nat (length images) < 2 ^ 20)%Z ->
  exists c : Z,
    extractFromPdf W buffer strategy (Some w) preprocess renderScale
      minTextThreshold s
    = (inr (PdfResult.mk
              (join (String "010"%char (String "010"%char EmptyString))
                 (map ImageResult.text pages))
              (of_nat (length images))
              (Some (of_Z c))
              "pdf-ocr"),
       s3) /\
    (inject_Z c - (1 # 2)
       <= inject_Z (Zsum cs) / inject_Z (Z.of_nat (length images))
     /\ inject_Z (Zsum cs) / inject_Z (Z.of_nat (length images))
        < inject_Z c + (1 # 2))%Q.
Proof.
  intros Hocr Ht Hshort Himg Hne Hpages Hint Hbound Hcount.
  destruct (Math_round_nearest
              (inject_Z (Zsum cs) / inject_Z (Z.of_nat (length images))))
    as (c & Hc & Hnear).
  exists c. split; [|exact Hnear].
  assert (Hlen : length cs = length images).
  { rewrite <- (eachPage_length _ _ _ _ _ _ _ Hpages).
    rewrite <- (length_map ImageResult.confidence pages), Hint.
    symmetry. apply length_map. }
  assert (Hpos : (0 < Z.of_nat (length images))%Z)
    by (destruct images; [now elim Hne|cbn; lia]).
  assert (H30 : (2 ^ 30 = 1073741824)%Z) by reflexivity.
  assert (H20 : (2 ^ 20 = 1048576)%Z) by reflexivity.
  assert (H53 : (2 ^ 53 = 9007199254740992)%Z) by reflexivity.
  destruct (js_add_scores cs 0 Hbound) as [Hsum Hmag].
  { rewrite Hlen. lia. }
  unfold extractFromPdf.
  rewrite (bind_inr _ _ _ _ _ Ht). cbn beta iota. rewrite Hshort, Hocr.
  rewrite (bind_inr _ _ _ _ _ Himg).
  rewrite (bind_inr _ _ _ _ _
             (ocrPages_eachPage W w preprocess images [] (of_Z 0) _ _ _ Hpages)).
  cbn beta iota. rewrite (integer_confidences _ _ Hint), Hsum.
  fold (Zsum cs). unfold of_nat at 2.
  rewrite mean_round, Hc; [reflexivity|lia|].
  unfold Zsum. rewrite Hlen in Hmag. lia.
Qed.

Lemma C5_ocr_fallback_aggregates_witness :
  exists s3,
    extractFromPdf Scenario.batch (Scenario.bytes "%PDF-scan") "auto"
      (Some 7%nat) true (of_Z 2) (of_Z 50) Scenario.start
    = (inr (PdfResult.mk
              ("PAGE1"
               ++ String "010"%char (String "010"%char EmptyString)
               ++ "PAGE2")
              (of_Z 2) (Some (of_Z 85)) "pdf-ocr"),
       s3).
Proof.
  pose (p1 := ImageResult.mk "PAGE1" (Some (of_Z 90))).
  pose (p2 := ImageResult.mk "PAGE2" (Some (of_Z 80))).
  destruct (C5_ocr_fallback_aggregates Scenario.batch
              (Scenario.bytes "%PDF-scan") "auto" 7%nat true
              (of_Z 2) (of_Z 50) Scenario.start
              _ _ _ "abcde" (of_Z 2)
              [Scenario.bytes "page-1"; Scenario.bytes "page-2"]
              [p1; p2] [90%Z; 80%Z]
              eq_refl eq_refl eq_refl eq_refl
              ltac:(discriminate) eq_refl eq_refl
              ltac:(repeat constructor; discriminate) eq_refl)
    as (c & Hrun & Hlo & Hhi).
  assert (Hc : c = 85%Z).
  { cbn in Hlo, Hhi. unfold Qle, Qlt in *. cbn in Hlo, Hhi. lia. }
  subst c. eexists. exact Hrun.
Defined.

(** When the rasterizer yields no image, the loop does not run and the
    mean is [0 / 0]. *)
Lemma extractFromPdf_no_page (W : World) (buffer : Buffer) (strategy : string)
  (w : Worker) (preprocess : bool) (renderScale minTextThreshold : number)
  (s s1 s2 : State) (textResult : string) (pageCount : number) :
  shouldTryOcr strategy = true ->
  textLayer W buffer strategy s = (inr (textResult, pageCount), s1) ->
  shouldTryText strategy && js_ge (js_length textResult) minTextThreshold
    = false ->
  pdfToImages W buffer renderScale s1 = (inr [], s2) ->
  extractFromPdf W buffer strategy (Some w) preprocess renderScale
    minTextThreshold s
  = (inr (PdfResult.mk EmptyString (of_nat 0) (Some NaN) "pdf-ocr"), s2).
Proof.
  intros Hocr Ht Hshort Himg. unfold extractFromPdf.
  rewrite (bind_inr _ _ _ _ _ Ht). cbn beta iota. rewrite Hshort, Hocr.
  rewrite (bind_inr _ _ _ _ _ Himg). reflexivity.
Qed.

(** C2: on a PDF that renders to no page image, the OCR path divides zero
    by zero: the result has zero pages and an empty text, but its
    confidence is [NaN], not null, and [execute] puts that [NaN] in the
    output record. *)
Theorem C2_zero_pages_confidence_is_NaN :
  extractFromPdf Scenario.blank (Scenario.bytes "%PDF-blank") "ocr"
    (Some 7%nat) true (of_Z 2) (of_Z 50) Scenario.start
  = (inr (PdfResult.mk EmptyString (of_Z 0) (Some NaN) "pdf-ocr"),
     mkState None []
       [EvPdfToPng (Scenario.bytes "%PDF-blank") (of_Z 2) (inr [])])
  /\ map Json.confidence
       (returnData (snd (execute Scenario.blank Scenario.start)))
     = [Some NaN]
  /\ map Json.error
       (returnData (snd (execute Scenario.blank Scenario.start)))
     = [None].
Proof.
  split; [|split].
  - apply (extractFromPdf_no_page Scenario.blank) with (s1 := Scenario.start)
      (textResult := EmptyString) (pageCount := of_Z 0); reflexivity.
  - vm_compute. reflexivity.
  - vm_compute. reflexivity.
Qed.

(* ================================================================== *)
(** * Further properties *)

(** ** File type detection *)

Lemma lower_unit_idempotent (c : ascii) :
  lower_unit (lower_unit c) = lower_unit c.
Proof.
  destruct c as [[] [] [] [] [] [] [] []]; vm_compute; reflexivity.
Qed.

Lemma lower_unit_dot (c : ascii) :
  Ascii.eqb (lower_unit c) "." = Ascii.eqb c ".".
Proof.
  destruct c as [[] [] [] [] [] [] [] []]; vm_compute; reflexivity.
Qed.

Lemma toLowerCase_idempotent (s : string) :
  toLowerCase (toLowerCase s) = toLowerCase s.
Proof.
  induction s as [|c r IH]; [reflexivity|].
  cbn [toLowerCase]. now rewrite lower_unit_idempotent, IH.
Qed.

Lemma contains_dot_lower (s : string) :
  contains "." (toLowerCase s) = contains "." s.
Proof.
  induction s as [|c r IH]; [reflexivity|].
  cbn [toLowerCase contains]. now rewrite lower_unit_dot, IH.
Qed.

Lemma afterLast_dot_lower (s : string) :
  afterLast "." (toLowerCase s) = toLowerCase (afterLast "." s).
Proof.
  induction s as [|c r IH]; [reflexivity|].
  cbn [toLowerCase afterLast].
  rewrite contains_dot_lower, lower_unit_dot, IH.
  destruct (contains "." r); [reflexivity|].
  now destruct (Ascii.eqb c ".").
Qed.

Lemma afterLast_clean (c : ascii) (s : string) :
  contains c (afterLast c s) = false.
Proof.
  induction s as [|d r IH]; [reflexivity|].
  cbn [afterLast]. destruct (contains c r) eqn:Hr; [exact IH|].
  destruct (Ascii.eqb d c) eqn:Hd; [exact Hr|].
  cbn [contains]. now rewrite Hd, Hr.
Qed.

Lemma own_In {A : Type} (o : list (string * A)) (k : string) (a : A) :
  own o k = Some a -> In (k, a) o.
Proof.
  induction o as [|[k' a'] o IH]; cbn [own]; [discriminate|].
  destruct (String.eqb k' k) eqn:E.
  - apply String.eqb_eq in E. intros H. inversion H; subst. now left.
  - intros H. right. now apply IH.
Qed.

Lemma lookup_truthy_None (T : list (string * FileType)) (k : string) :
  truthy k = false -> lookup_truthy T (Some k) = None.
Proof. unfold lookup_truthy. now intros ->. Qed.

(** X1: on a MIME type and a file name whose extension are not names of
    members every object inherits, [detectFileType] is the detector of the
    two tables: the kind of the MIME type if the MIME table has it, else
    the kind of the lowercased part of the file name after its last dot if
    the extension table has it, else null. *)
Theorem X1_detectFileType_follows_tables (mimeType fileName : string) :
  inherited mimeType = false ->
  inherited (toLowerCase (afterLast "." fileName)) = false ->
  detectFileType (Some mimeType) (Some fileName)
  = option_map Own (detectByTables (Some mimeType) (Some fileName)).
Proof.
  intros Hm Hf. apply detectFileType_tables.
  - unfold hitsPrototype, lookup_truthy, get.
    destruct (truthy mimeType); [|reflexivity].
    destruct (own MIME_MAP mimeType); [reflexivity|]. now rewrite Hm.
  - cbn [option_map]. unfold hitsPrototype, lookup_truthy, get.
    destruct (truthy _); [|reflexivity].
    destruct (own EXT_MAP _); [reflexivity|]. now rewrite Hf.
Qed.

Lemma X1_detectFileType_follows_tables_witness :
  inherited "application/x-unknown" = false /\
  inherited (toLowerCase (afterLast "." "Scan.final.PDF")) = false /\
  detectFileType (Some "application/x-unknown") (Some "Scan.final.PDF")
  = Some (Own pdf).
Proof.
  split; [reflexivity|]. split; [reflexivity|].
  exact (X1_detectFileType_follows_tables "application/x-unknown"
           "Scan.final.PDF" eq_refl eq_refl).
Defined.

(** X2: a MIME type that is an entry of the MIME table decides the kind
    whatever the file name is: absent, of another kind, or the name of an
    inherited member. *)
Theorem X2_mime_entry_decides (m : string) (k : FileType)
  (fileName : option string) :
  In (m, k) MIME_MAP ->
  detectFileType (Some m) fileName = Some (Own k).
Proof.
  intros H. repeat (destruct H as [H|H]; [now inversion H|]). now elim H.
Qed.

Lemma X2_mime_entry_decides_witness :
  In ("image/png", image) MIME_MAP /\
  detectFileType (Some "image/png") (Some "report.pdf") = Some (Own image).
Proof.
  assert (H : In ("image/png", image) MIME_MAP) by (left; reflexivity).
  split; [exact H|].
  exact (X2_mime_entry_decides "image/png" image (Some "report.pdf") H).
Defined.

(** X3: [detectFileType] reads a file name only through the lowercased
    part after its last dot: the case of the extension and everything
    before the last dot are irrelevant, and a name with nothing after its
    last dot (empty, or ending in a dot) counts as no name. *)
Theorem X3_only_the_lowercased_extension_counts
  (mimeType : option string) (fileName : string) :
  detectFileType mimeType (Some fileName)
  = detectFileType mimeType (Some (toLowerCase (afterLast "." fileName)))
  /\ (afterLast "." fileName = EmptyString ->
      detectFileType mimeType (Some fileName) = detectFileType mimeType None).
Proof.
  assert (E : forall f,
             detectFileType mimeType (Some f)
             = match lookup_truthy MIME_MAP mimeType with
               | Some v => Some v
               | None => lookup_truthy EXT_MAP
                           (Some (toLowerCase (afterLast "." f)))
               end).
  { intros f. unfold detectFileType.
    destruct (lookup_truthy MIME_MAP mimeType); [reflexivity|].
    rewrite pop_split. cbn [option_map].
    destruct f as [|c r].
    - reflexivity.
    - cbn [truthy]. now destruct (lookup_truthy EXT_MAP _). }
  split.
  - rewrite (E fileName), (E (toLowerCase (afterLast "." fileName))).
    rewrite afterLast_dot_lower, toLowerCase_idempotent.
    rewrite (afterLast_without "." (afterLast "." fileName))
      by apply afterLast_clean.
    reflexivity.
  - intros H. rewrite (E fileName), H. cbn [toLowerCase].
    rewrite lookup_truthy_None by reflexivity.
    unfold detectFileType. now destruct (lookup_truthy MIME_MAP mimeType).
Qed.

(** X4: a kind returned by [detectFileType] always comes from an entry of
    one of the two tables: the MIME type's entry of the MIME table, or the
    entry of the extension table for the lowercased part of the file name
    after its last dot. *)
Theorem X4_detected_kind_is_a_table_entry
  (mimeType fileName : option string) (k : FileType) :
  detectFileType mimeType fileName = Some (Own k) ->
  (exists m, mimeType = Some m /\ In (m, k) MIME_MAP) \/
  (exists f, fileName = Some f
             /\ In (toLowerCase (afterLast "." f), k) EXT_MAP).
Proof.
  assert (L : forall T key, lookup_truthy T key = Some (Own k) ->
                exists x, key = Some x /\ In (x, k) T).
  { intros T [x|]; cbn [lookup_truthy]; [|discriminate].
    destruct (truthy x); [|discriminate]. unfold get.
    destruct (own T x) as [a|] eqn:Ho.
    - intros H. inversion H; subst. exists x. split; [reflexivity|].
      now apply own_In.
    - destruct (inherited x); discriminate. }
  unfold detectFileType.
  destruct (lookup_truthy MIME_MAP mimeType) as [v|] eqn:Hm.
  - intros H. inversion H; subst. left. now apply L.
  - destruct fileName as [f|]; [|discriminate].
    destruct (truthy f); [|discriminate].
    rewrite pop_split. cbn [option_map].
    destruct (lookup_truthy EXT_MAP _) as [v|] eqn:He; [|discriminate].
    intros H. inversion H; subst. right. exists f. split; [reflexivity|].
    apply L in He as (x & Hx & Hin). now inversion Hx; subst.
Qed.

Lemma X4_detected_kind_is_a_table_entry_witness :
  detectFileType None (Some "notes.TXT") = Some (Own txt) /\
  In (toLowerCase (afterLast "." "notes.TXT"), txt) EXT_MAP.
Proof.
  split; [reflexivity|].
  destruct (X4_detected_kind_is_a_table_entry None (Some "notes.TXT") txt
              eq_refl) as [(m & Hm & _)|(f & Hf & Hin)].
  - discriminate.
  - inversion Hf; subst f. exact Hin.
Defined.

(** ** Trimming *)

Lemma trimStart_split (s : string) :
  exists a, s = a ++ trimStart s /\ allSpaces a = true.
Proof.
  induction s as [|c r (a & Ha & Hs)].
  - now exists EmptyString.
  - cbn [trimStart]. destruct (is_space c) eqn:Hc.
    + exists (String c a). cbn. rewrite Hc, Hs. now rewrite <- Ha.
    + now exists EmptyString.
Qed.

Lemma trimEnd_split (s : string) :
  exists b, s = trimEnd s ++ b /\ allSpaces b = true.
Proof.
  induction s as [|c r (b & Hb & Hs)].
  - now exists EmptyString.
  - cbn [trimEnd]. destruct (trimEnd r) as [|d r'] eqn:Hr.
    + cbn in Hb. subst r. destruct (is_space c) eqn:Hc.
      * exists (String c b). cbn. now rewrite Hc, Hs.
      * now exists b.
    + exists b. split; [|exact Hs]. cbn [append] in Hb |- *.
      now rewrite Hb at 1.
Qed.

Lemma trimStart_solid (s : string) : solid (firstUnit (trimStart s)).
Proof.
  induction s as [|c r IH]; [exact I|].
  cbn [trimStart]. now destruct (is_space c) eqn:Hc.
Qed.

Lemma trimEnd_solid (s : string) : solid (lastUnit (trimEnd s)).
Proof.
  induction s as [|c r IH]; [exact I|].
  cbn [trimEnd]. destruct (trimEnd r) as [|d r'] eqn:Hr.
  - now destruct (is_space c) eqn:Hc.
  - exact IH.
Qed.

Lemma trimEnd_keeps_first (s : string) :
  solid (firstUnit s) -> firstUnit (trimEnd s) = firstUnit s.
Proof.
  destruct s as [|c r]; [reflexivity|].
  cbn [firstUnit solid trimEnd]. intros Hc.
  destruct (trimEnd r); [now rewrite Hc|reflexivity].
Qed.

Lemma trimStart_fixed (s : string) :
  solid (firstUnit s) -> trimStart s = s.
Proof.
  destruct s as [|c r]; [reflexivity|].
  cbn [firstUnit solid trimStart]. now intros ->.
Qed.

Lemma trimEnd_idempotent (s : string) : trimEnd (trimEnd s) = trimEnd s.
Proof.
  induction s as [|c r IH]; [reflexivity|].
  cbn [trimEnd]. destruct (trimEnd r) as [|d r'] eqn:Hr.
  - destruct (is_space c) eqn:Hc; [reflexivity|]. cbn. now rewrite Hc.
  - cbn [trimEnd] in IH |- *. rewrite IH. reflexivity.
Qed.

(** Trimming what is trimmed changes nothing. *)
Lemma trim_idempotent (s : string) : trim (trim s) = trim s.
Proof.
  unfold trim.
  rewrite (trimStart_fixed (trimEnd (trimStart s))).
  - apply trimEnd_idempotent.
  - rewrite trimEnd_keeps_first; apply trimStart_solid.
Qed.

(** X5: [extractFromTxt] returns the decoded text without its leading and
    trailing white space and nothing else changed: the decoded text is the
    result between two runs of white space, and the result neither starts
    nor ends with a white space. *)
Theorem X5_extractFromTxt_strips_only_surrounding_space (W : World)
  (buffer : Buffer) :
  exists a b,
    toStringUtf8 W buffer = a ++ extractFromTxt W buffer ++ b /\
    allSpaces a = true /\ allSpaces b = true /\
    solid (firstUnit (extractFromTxt W buffer)) /\
    solid (lastUnit (extractFromTxt W buffer)).
Proof.
  unfold extractFromTxt, trim.
  destruct (trimStart_split (toStringUtf8 W buffer)) as (a & Ha & Hsa).
  destruct (trimEnd_split (trimStart (toStringUtf8 W buffer)))
    as (b & Hb & Hsb).
  exists a, b. repeat split; auto.
  - now rewrite <- Hb.
  - rewrite trimEnd_keeps_first; apply trimStart_solid.
  - apply trimEnd_solid.
Qed.

(** ** [pdfToImages] and the image strategy *)

Lemma definedContents_length (pages : list Page) :
  (length (definedContents pages) <= length pages)%nat.
Proof.
  unfold definedContents.
  induction pages as [|[[c|]] pages IH]; cbn in *; lia.
Qed.

Lemma definedContents_all (pages : list Page) :
  Forall (fun p => content p <> None) pages ->
  map Some (definedContents pages) = map content pages.
Proof.
  unfold definedContents.
  induction 1 as [|[[c|]] pages Hp _ IH]; cbn in *.
  - reflexivity.
  - now rewrite <- IH.
  - now elim Hp.
Qed.

Lemma definedContents_In (pages : list Page) (b : Buffer) :
  In b (definedContents pages) <-> In (mkPage (Some b)) pages.
Proof.
  unfold definedContents.
  induction pages as [|[[c|]] pages IH]; cbn.
  - tauto.
  - rewrite IH. split; intros [H|H]; auto; left; congruence.
  - rewrite IH. split; [auto|]. intros [H|H]; [discriminate|exact H].
Qed.

(** The images are the defined contents, one for each page that has one,
    in the order of the pages. *)
Lemma definedContents_filter (pages : list Page) :
  map Some (definedContents pages)
  = filter (fun c => match c with Some _ => true | None => false end)
      (map content pages).
Proof.
  unfold definedContents.
  induction pages as [|[[c|]] pages IH]; cbn in *.
  - reflexivity.
  - now rewrite IH.
  - exact IH.
Qed.

(** X6: [pdfToImages] makes one call, to the rasterizer, on the
    [ArrayBuffer] under the PDF's [Buffer] and at the given scale.  When
    the rasterizer answers, the images returned are exactly the defined
    contents of the pages, one for each page that has one, in page order:
    the list of the pages' contents with the undefined ones filtered out.
    Hence there are never more images than pages, every image is the
    content of a page, and the images are the pages' contents when no page
    lacks one.  When the rasterizer throws, [pdfToImages] throws the same
    error. *)
Theorem X6_pdfToImages_keeps_defined_pages (W : World) (pdfBuffer : Buffer)
  (scale : number) (s : State) :
  match pdfToPng W (log s) (arrayBuffer W pdfBuffer) scale with
  | inr pages =>
      exists images,
        pdfToImages W pdfBuffer scale s
        = (inr images,
           mkState (worker s) (returnData s)
             (EvPdfToPng (arrayBuffer W pdfBuffer) scale (inr pages)
              :: log s)) /\
        map Some images
        = filter (fun c => match c with Some _ => true | None => false end)
            (map content pages) /\
        (length images <= length pages)%nat /\
        (forall b, In b images <-> In (mkPage (Some b)) pages) /\
        (Forall (fun p => content p <> None) pages ->
         map Some images = map content pages)
  | inl e =>
      pdfToImages W pdfBuffer scale s
      = (inl e,
         mkState (worker s) (returnData s)
           (EvPdfToPng (arrayBuffer W pdfBuffer) scale (inl e) :: log s))
  end.
Proof.
  unfold pdfToImages, bind, call, ret.
  destruct (pdfToPng W (log s) (arrayBuffer W pdfBuffer) scale)
    as [e|pages]; [reflexivity|].
  exists (definedContents pages). split; [reflexivity|].
  split; [apply definedContents_filter|].
  split; [apply definedContents_length|].
  split; [apply definedContents_In|apply definedContents_all].
Qed.

Lemma Math_round_within (q : Q) (lo hi : Z) :
  (inject_Z lo <= q)%Q -> (q <= inject_Z hi)%Q ->
  (lo <= Qfloor (q + (1 # 2)) <= hi)%Z.
Proof.
  intros Hlo Hhi. split.
  - rewrite <- (Qfloor_Z lo). apply Qfloor_resp_le. lra.
  - pose proof (Qfloor_le (q + (1 # 2))) as Hf.
    assert (H : (inject_Z (Qfloor (q + (1 # 2))) < inject_Z (hi + 1))%Q).
    { rewrite inject_Z_plus. change (inject_Z 1) with 1%Q. lra. }
    rewrite <- Zlt_Qlt in H. lia.
Qed.

Lemma extractFromImage_calls (W : World) (buffer : Buffer)
  (w : option Worker) (preprocess : bool) :
  runs (extractFromImage W buffer w preprocess) (imageCalls w preprocess)
       (fun r => trim (ImageResult.text r) = ImageResult.text r).
Proof.
  unfold extractFromImage.
  eapply runs_bind with (R1 := fun _ => True).
  - destruct preprocess.
    + apply runs_call; [intros r; reflexivity|auto].
    + now apply runs_ret.
  - intros input _. destruct w as [w|].
    + eapply runs_bind with (R1 := fun _ => True).
      * apply runs_call; [intros r; reflexivity|auto].
      * intros data _. apply runs_ret. apply trim_idempotent.
    + apply runs_throw.
Qed.

(** X7: a successful [extractFromImage] made one recognition, on the
    buffer itself without preprocessing and on what sharp returned with
    it; its text is the recognized text, trimmed; and when the engine's
    score is finite and lies between two integers, the confidence
    returned is an integer between the same two, at most one half away
    from the score. *)
Theorem X7_extractFromImage_result (W : World) (buffer : Buffer) (w : Worker)
  (preprocess : bool) (s s' : State) (res : ImageResult.t) :
  extractFromImage W buffer (Some w) preprocess s = (inr res, s') ->
  exists input data,
    log s' = (EvRecognize w input (inr data)
              :: (if preprocess then [EvSharp buffer (inr input)] else [])
              ++ log s)%list /\
    (preprocess = false -> input = buffer) /\
    ImageResult.text res = trim (Recognized.text data) /\
    trim (ImageResult.text res) = ImageResult.text res /\
    ImageResult.confidence res
    = Some (Math_round (Recognized.confidence data)) /\
    (forall (q : Q) (lo hi : Z),
       Recognized.confidence data = Fin q ->
       (inject_Z lo <= q)%Q -> (q <= inject_Z hi)%Q ->
       exists c : Z,
         ImageResult.confidence res = Some (of_Z c) /\
         (lo <= c <= hi)%Z /\
         (inject_Z c - (1 # 2) <= q /\ q < inject_Z c + (1 # 2))%Q).
Proof.
  unfold extractFromImage. intros H.
  apply bind_cases in H as [(e & _ & H)|(input & s1 & Hin & H)];
    [discriminate|].
  apply bind_cases in H as [(e & _ & H)|(data & s2 & Hrec & H)];
    [discriminate|].
  inversion H; subst res s'; clear H.
  unfold call in Hrec. inversion Hrec as [[Hdata Hs2]]; clear Hrec.
  exists input, data. cbn [ImageResult.text ImageResult.confidence log].
  assert (Hs1 : log s1
                = ((if preprocess then [EvSharp buffer (inr input)] else [])
                   ++ log s)%list
                /\ (preprocess = false -> input = buffer)).
  { destruct preprocess.
    - unfold call in Hin. inversion Hin as [[Hi Hs]]. cbn. rewrite Hi.
      split; [reflexivity|discriminate].
    - inversion Hin; subst. now split. }
  destruct Hs1 as [Hs1 Hbuf].
  split; [now rewrite Hdata, Hs1|].
  split; [exact Hbuf|]. split; [reflexivity|].
  split; [apply trim_idempotent|]. split; [reflexivity|].
  intros q lo hi Hq Hlo Hhi. rewrite Hq.
  destruct (Math_round_nearest q) as (c & Hc & Hnear).
  exists c. split; [now rewrite Hc|]. split; [|exact Hnear].
  cbn [Math_round] in Hc. unfold of_Z in Hc.
  assert (c = Qfloor (q + (1 # 2))) by (inversion Hc; reflexivity).
  subst c. now apply Math_round_within.
Qed.

Lemma X7_extractFromImage_result_witness :
  exists s',
    extractFromImage Scenario.batch (Scenario.bytes "page-1") (Some 7%nat)
      false Scenario.start
    = (inr (ImageResult.mk "PAGE1" (Some (of_Z 90))), s') /\
    log s' = [EvRecognize 7%nat (Scenario.bytes "page-1")
                (inr (Recognized.mk " PAGE1 " (Fin (899 # 10))))].
Proof.
  eexists. split; [reflexivity|].
  destruct (X7_extractFromImage_result Scenario.batch
              (Scenario.bytes "page-1") 7%nat false Scenario.start _ _
              eq_refl)
    as (input & data & Hlog & _).
  cbn in Hlog |- *. reflexivity.
Defined.

(** ** The PDF strategy, further *)

Lemma ocrPages_calls (W : World) (images : list Buffer) (w : Worker)
  (preprocess : bool) (texts : list string) (total : number) :
  runs (ocrPages W images w preprocess texts total)
       (imageCalls (Some w) preprocess) (fun _ => True).
Proof.
  revert texts total.
  induction images as [|img rest IH]; intros texts total; cbn [ocrPages].
  - now apply runs_ret.
  - eapply runs_bind; [apply extractFromImage_calls|].
    intros r _. apply IH.
Qed.

Lemma textLayer_calls (W : World) (buffer : Buffer) (strategy : string)
  (w : option Worker) (preprocess : bool) :
  runs (textLayer W buffer strategy) (pdfCalls strategy w preprocess)
       (fun p => trim (fst p) = fst p).
Proof.
  unfold textLayer. destruct (shouldTryText strategy) eqn:Ht.
  - eapply runs_bind with (R1 := fun _ => True).
    + apply runs_call; [intros r; exact Ht|auto].
    + intros d _. eapply runs_bind with (R1 := fun _ => True).
      * apply runs_call; [intros r; exact Ht|auto].
      * intros t _. apply runs_ret. apply trim_idempotent.
  - now apply runs_ret.
Qed.

Lemma extractFromPdf_calls (W : World) (buffer : Buffer) (strategy : string)
  (w : option Worker) (preprocess : bool) (scale threshold : number) :
  runs (extractFromPdf W buffer strategy w preprocess scale threshold)
       (pdfCalls strategy w preprocess)
       (fun r => PdfResult.method r <> "pdf-ocr" ->
                 trim (PdfResult.text r) = PdfResult.text r).
Proof.
  unfold extractFromPdf.
  eapply runs_bind; [apply textLayer_calls|].
  intros [textResult pageCount] Htrim. cbn [fst] in Htrim.
  destruct (shouldTryText strategy && js_ge _ _).
  - apply runs_ret. now intros _.
  - destruct (shouldTryOcr strategy) eqn:Ho; [destruct w as [w|]|].
    + eapply runs_bind with (R1 := fun _ => True).
      * unfold pdfToImages.
        eapply runs_bind with (R1 := fun _ => True).
        -- apply runs_call; [intros r; split; [exact Ho|discriminate]|auto].
        -- intros pages _. now apply runs_ret.
      * intros images _.
        eapply runs_bind with (R1 := fun _ => True).
        -- eapply runs_weaken; [apply ocrPages_calls| |auto].
           intros [] He; cbn in He |- *;
             first [now elim He | repeat split; auto; discriminate].
        -- intros [texts total] _. apply runs_ret.
           intros H. now elim H.
    + apply runs_ret. now intros _.
    + apply runs_ret. now intros _.
Qed.

(** The loop of the fallback appends the trimmed text of each page. *)
Lemma ocrPages_texts (W : World) (images : list Buffer) (w : Worker)
  (preprocess : bool) :
  forall (texts : list string) (total : number),
    Forall (fun x => trim x = x) texts ->
    runs (ocrPages W images w preprocess texts total)
         (imageCalls (Some w) preprocess)
         (fun out => Forall (fun x => trim x = x) (fst out)).
Proof.
  induction images as [|img rest IH]; intros texts total Ht; cbn [ocrPages].
  - now apply runs_ret.
  - eapply runs_bind; [apply extractFromImage_calls|].
    intros r Hr. apply IH. apply Forall_app. split; [exact Ht|].
    constructor; [exact Hr|constructor].
Qed.

(** A [pdf-ocr] result carries the joined texts of its pages. *)
Lemma extractFromPdf_joined (W : World) (buffer : Buffer) (strategy : string)
  (w : option Worker) (preprocess : bool) (scale threshold : number) :
  runs (extractFromPdf W buffer strategy w preprocess scale threshold)
       (fun _ => True)
       (fun r => PdfResult.method r = "pdf-ocr" ->
                 joinedPages (PdfResult.text r)).
Proof.
  unfold extractFromPdf.
  eapply runs_bind with (R1 := fun _ => True).
  { eapply runs_weaken;
      [apply (textLayer_calls W buffer strategy w preprocess)|auto|auto]. }
  intros [textResult pageCount] _.
  destruct (shouldTryText strategy && js_ge _ _).
  - apply runs_ret. discriminate.
  - destruct (if shouldTryOcr strategy then w else None) as [w0|].
    + eapply runs_bind with (R1 := fun _ => True).
      * eapply runs_weaken;
          [apply (pdfToImages_runs W buffer scale w)|auto|auto].
      * intros images _.
        eapply runs_bind.
        -- eapply runs_weaken;
             [apply (ocrPages_texts W images w0 preprocess [] (of_Z 0));
              constructor
             |auto|intros a Ha; exact Ha].
        -- intros [texts total] Htexts. apply runs_ret.
           intros _. now exists texts.
    + apply runs_ret. discriminate.
Qed.

(** X8: whatever the collaborators answer, [extractFromPdf] leaves the
    worker and the output records as they are and makes only the calls
    its decision table allows: the text layer is read only under [auto]
    and [text]; pages are rasterized and recognized only under [auto] and
    [ocr] and only with a worker, on that worker; sharp runs only in that
    case and with preprocessing on. *)
Theorem X8_extractFromPdf_calls_follow_strategy (W : World) (buffer : Buffer)
  (strategy : string) (w : option Worker) (preprocess : bool)
  (renderScale minTextThreshold : number) (s : State) :
  let s' := snd (extractFromPdf W buffer strategy w preprocess renderScale
                   minTextThreshold s) in
  worker s' = worker s /\
  returnData s' = returnData s /\
  exists new,
    log s' = (new ++ log s)%list /\
    Forall (pdfCalls strategy w preprocess) new.
Proof.
  cbv zeta.
  destruct (extractFromPdf W buffer strategy w preprocess renderScale
              minTextThreshold s) as [r s'] eqn:H.
  destruct (extractFromPdf_calls W buffer strategy w preprocess renderScale
              minTextThreshold s r s' H) as (Hw & Hd & Hn & _).
  cbn [snd]. auto.
Qed.

Lemma js_ge_nonpositive (n : nat) (q : Q) :
  (q <= 0)%Q -> js_ge (of_nat n) (Fin q) = true.
Proof.
  intros Hq. unfold js_ge, of_nat, of_Z. apply Qle_bool_iff.
  assert (0 <= inject_Z (Z.of_nat n))%Q.
  { change 0%Q with (inject_Z 0). rewrite <- Zle_Qle. lia. }
  lra.
Qed.

(** X9: with a minimum text threshold of zero or less, a strategy that
    reads the text layer always accepts it: whenever the text layer is
    read, [extractFromPdf] returns it with method [pdf-text], however
    short (even empty), and goes no further; under [auto] the OCR
    fallback is never reached. *)
Theorem X9_threshold_at_most_zero_accepts_any_text (W : World)
  (buffer : Buffer) (strategy : string) (w : option Worker)
  (preprocess : bool) (renderScale : number) (q : Q) (s s1 : State)
  (textResult : string) (pageCount : number) :
  shouldTryText strategy = true ->
  (q <= 0)%Q ->
  textLayer W buffer strategy s = (inr (textResult, pageCount), s1) ->
  extractFromPdf W buffer strategy w preprocess renderScale (Fin q) s
  = (inr (PdfResult.mk textResult pageCount None "pdf-text"), s1).
Proof.
  intros Ht Hq Hl. unfold extractFromPdf.
  rewrite (bind_inr _ _ _ _ _ Hl). cbn beta iota.
  unfold js_length. now rewrite Ht, (js_ge_nonpositive _ _ Hq).
Qed.

Lemma X9_threshold_at_most_zero_accepts_any_text_witness :
  extractFromPdf Scenario.blank (Scenario.bytes "%PDF-blank") "auto"
    (Some 7%nat) true (of_Z 2) (Fin 0) Scenario.start
  = (inr (PdfResult.mk EmptyString (of_Z 2) None "pdf-text"),
     mkState None []
       [ EvExtractText (mkPdfDoc (of_Z 2)) (inr EmptyString);
         EvGetDocumentProxy (Scenario.bytes "%PDF-blank")
           (inr (mkPdfDoc (of_Z 2))) ]).
Proof.
  apply (X9_threshold_at_most_zero_accepts_any_text Scenario.blank);
    [reflexivity|discriminate|reflexivity].
Defined.

(** X10: a threshold that is not a number (or is infinite) is never
    reached: under [auto] with a worker, [extractFromPdf] goes to the OCR
    path however long the text layer is: a result, if any, has method
    [pdf-ocr] and the rasterizer was called, on the [ArrayBuffer] under the
    PDF's [Buffer]. *)
Theorem X10_threshold_NaN_never_met (W : World) (buffer : Buffer)
  (w : Worker) (preprocess : bool) (renderScale threshold : number)
  (s s' : State) (res : PdfResult.t) :
  threshold = NaN \/ threshold = PosInf ->
  extractFromPdf W buffer "auto" (Some w) preprocess renderScale threshold s
  = (inr res, s') ->
  PdfResult.method res = "pdf-ocr" /\
  exists pages,
    In (EvPdfToPng (arrayBuffer W buffer) renderScale (inr pages)) (log s').
Proof.
  intros Hthr H. unfold extractFromPdf in H.
  apply bind_cases in H as [(e & _ & H)|([t pc] & s1 & Ht & H)];
    [discriminate|].
  assert (Hge : js_ge (js_length t) threshold = false).
  { unfold js_length, of_nat, of_Z. now destruct Hthr as [-> | ->]. }
  cbn beta iota in H. rewrite Hge in H. cbn in H.
  apply bind_cases in H as [(e & _ & H)|(images & s2 & Hi & H)];
    [discriminate|].
  apply bind_cases in H as [(e & _ & H)|([texts total] & s3 & Ho & H)];
    [discriminate|].
  inversion H; subst res s'; clear H. split; [reflexivity|].
  unfold pdfToImages in Hi.
  apply bind_cases in Hi as [(e & _ & Hi)|(pages & s2' & Hc & Hi)];
    [discriminate|].
  inversion Hi; subst; clear Hi.
  unfold call in Hc. inversion Hc as [[Hp Hs2]]; clear Hc.
  exists pages.
  destruct (ocrPages_calls W _ _ _ _ _ _ _ _ Ho) as (_ & _ & (new & Hl & _) & _).
  rewrite Hl. apply in_or_app. right. rewrite <- Hs2. cbn. left.
  now rewrite Hp.
Qed.

Lemma X10_threshold_NaN_never_met_witness :
  exists res s',
    extractFromPdf Scenario.born (Scenario.bytes "%PDF-born") "auto"
      (Some 7%nat) true (of_Z 2) NaN Scenario.start = (inr res, s') /\
    PdfResult.method res = "pdf-ocr".
Proof.
  eexists. eexists. split; [vm_compute; reflexivity|].
  refine (proj1 (X10_threshold_NaN_never_met Scenario.born
                   (Scenario.bytes "%PDF-born") 7%nat true (of_Z 2) NaN
                   Scenario.start _ _ (or_introl eq_refl) _)).
  vm_compute. reflexivity.
Defined.

(** X11: without a worker the [auto] strategy is the [text] strategy:
    [extractFromPdf] under [auto] with a null worker does exactly what it
    does under [text], where the worker, the preprocess flag and the
    render scale play no part. *)
Theorem X11_auto_without_worker_is_text (W : World) (buffer : Buffer)
  (w : option Worker) (preprocess preprocess' : bool)
  (renderScale renderScale' minTextThreshold : number) (s : State) :
  extractFromPdf W buffer "auto" None preprocess renderScale
    minTextThreshold s
  = extractFromPdf W buffer "text" w preprocess' renderScale'
      minTextThreshold s.
Proof.
  unfold extractFromPdf, textLayer. cbn [shouldTryText shouldTryOcr].
  cbn. unfold bind.
  destruct (call _ _ s) as [[e|d] s1]; [reflexivity|].
  destruct (call _ _ s1) as [[e|t] s2]; [reflexivity|].
  cbn. now destruct minTextThreshold as [y| | |]; [destruct (Qle_bool _ _)|..].
Qed.





(** ** The batch loop, further *)

Lemma callsOnly_refl (E : Event -> Prop) (s : State) : callsOnly E s s.
Proof. now exists []. Qed.

Lemma callsOnly_trans (E : Event -> Prop) (s s1 s2 : State) :
  callsOnly E s s1 -> callsOnly E s1 s2 -> callsOnly E s s2.
Proof.
  intros (n1 & H1 & F1) (n2 & H2 & F2). exists (n2 ++ n1)%list. split.
  - now rewrite H2, H1, app_assoc.
  - apply Forall_app. now split.
Qed.

Lemma callsOnly_weaken (E E' : Event -> Prop) (s s' : State) :
  (forall e, E e -> E' e) -> callsOnly E s s' -> callsOnly E' s s'.
Proof.
  intros HE (n & H & F). exists n. split; [exact H|].
  eapply Forall_impl; [exact HE|exact F].
Qed.

Lemma runs_callsOnly {A : Type} (m : M A) (E : Event -> Prop) (R : A -> Prop)
  (s s' : State) (r : Error + A) :
  runs m E R -> m s = (r, s') ->
  callsOnly E s s' /\ returnData s' = returnData s /\
  worker s' = worker s /\ (forall a, r = inr a -> R a).
Proof.
  intros Hm H. destruct (Hm _ _ _ H) as (Hw & Hd & Hn & Hr). now repeat split.
Qed.

Lemma runs_both {A : Type} (m : M A) (E E' : Event -> Prop)
  (R R' : A -> Prop) :
  runs m E R -> runs m E' R' -> runs m E (fun a => R a /\ R' a).
Proof.
  intros H1 H2 s r s' H.
  destruct (H1 _ _ _ H) as (Hw & Hd & Hn & Hr).
  destruct (H2 _ _ _ H) as (_ & _ & _ & Hr').
  repeat split; auto.
Qed.

Section Items.

Variable W : World.

Lemma needsOcrOf_reason (fileType : member FileType) (i : nat) :
  runs (needsOcrOf W fileType i) (fun _ => False)
       (fun b => b = true -> needsReason W i fileType).
Proof.
  unfold needsOcrOf, needsReason. destruct fileType as [[| | | |]|k];
    try (apply runs_ret; intros; auto; discriminate).
  destruct (getNodeParameterString W "pdfStrategy" i (Some "auto"))
    as [e|st] eqn:Hst.
  - eapply runs_bind with (R1 := fun _ => False); [apply (runs_throw e)|].
    intros a [].
  - eapply runs_bind with (R1 := fun x => x = st).
    + apply (runs_ret st). reflexivity.
    + intros a ->. apply runs_ret. intros Hn. right. split; [reflexivity|].
      exists st. split; [reflexivity|]. now destruct (String.eqb st "text").
Qed.

Lemma ensureWorker_calls (needsOcr : bool) (ocrLanguage : string)
  (s s' : State) (r : Error + unit) :
  ensureWorker W needsOcr ocrLanguage s = (r, s') ->
  returnData s' = returnData s /\
  callsOnly (fun e => needsOcr = true
                      /\ exists x, e = EvCreateWorker ocrLanguage x) s s'.
Proof.
  unfold ensureWorker, bind, getWorker.
  destruct (worker s) as [w|].
  - intros H. inversion H; subst. split; [reflexivity|apply callsOnly_refl].
  - destruct needsOcr.
    + unfold call, setWorker.
      destruct (createWorker W (log s) ocrLanguage) as [e|w] eqn:Hc;
        intros H; inversion H; subst; clear H; (split; [reflexivity|]).
      * exists [EvCreateWorker ocrLanguage (inl e)]. split; [reflexivity|].
        constructor; [|constructor]. split; [reflexivity|]. now eexists.
      * exists [EvCreateWorker ocrLanguage (inr w)]. split; [reflexivity|].
        constructor; [|constructor]. split; [reflexivity|]. now eexists.
    + intros H. inversion H; subst. split; [reflexivity|apply callsOnly_refl].
Qed.

Lemma pdfCalls_item (strategy ocrLanguage : string) (w : option Worker)
  (preprocess : bool) (e : Event) :
  pdfCalls strategy w preprocess e ->
  pdfItemCalls strategy ocrLanguage preprocess e.
Proof. destruct e; cbn; tauto. Qed.

Lemma dispatch_calls (fileType : member FileType) (buffer : Buffer)
  (w : option Worker) (preprocess : bool) (i : nat) (ocrLanguage : string) :
  runs (dispatch W fileType buffer w preprocess i)
       (kindCalls W ocrLanguage preprocess i fileType)
       (fun x => methodOf fileType (Extracted.method x) /\
                 (Extracted.method x <> "pdf-ocr" ->
                  trim (Extracted.text x) = Extracted.text x) /\
                 (Extracted.method x = "pdf-ocr" ->
                  joinedPages (Extracted.text x))).
Proof.
  unfold dispatch. destruct fileType as [[| | | |]|k].
  - eapply runs_bind.
    + eapply runs_weaken; [apply extractFromImage_calls| |intros a Ha; exact Ha].
      intros e He. destruct e; cbn in He |- *; tauto.
    + intros r Hr. apply runs_ret. cbn. now split.
  - destruct (getNodeParameterString W "pdfStrategy" i (Some "auto"))
      as [e|st] eqn:Hst.
    { eapply runs_bind with (R1 := fun _ => False); [apply (runs_throw e)|].
      intros a []. }
    eapply runs_bind with (R1 := fun x => x = st);
      [apply (runs_ret st); reflexivity|].
    intros a ->.
    eapply runs_bind with (R1 := fun _ => True); [now apply runs_lift|].
    intros sc _.
    eapply runs_bind with (R1 := fun _ => True); [now apply runs_lift|].
    intros th _.
    eapply runs_bind.
    + eapply runs_weaken;
        [apply (runs_both _ _ _ _ _
                  (runs_both _ _ _ _ _
                     (extractFromPdf_calls W buffer st w preprocess sc th)
                     (extractFromPdf_runs W buffer st w preprocess sc th))
                  (extractFromPdf_joined W buffer st w preprocess sc th))
        | |intros a Ha; exact Ha].
      intros e He. cbn. exists st. split; [exact Hst|].
      now apply pdfCalls_item with (w := w).
    + intros r [[Htrim Hshape] Hjoin]. apply runs_ret. cbn.
      split; [|split; [exact Htrim|exact Hjoin]].
      destruct Hshape as [[Hm _]|[Hm _]]; rewrite Hm; auto.
  - unfold extractFromDocx.
    eapply runs_bind with (R1 := fun t => trim t = t).
    + eapply runs_bind with (R1 := fun _ => True).
      * apply runs_call; [intros r; exact I|auto].
      * intros v _. apply runs_ret. apply trim_idempotent.
    + intros t Ht. apply runs_ret. cbn. now split.
  - unfold extractFromDoc.
    eapply runs_bind with (R1 := fun t => trim t = t).
    + eapply runs_bind with (R1 := fun _ => True).
      * apply runs_call; [intros r; exact I|auto].
      * intros v _. apply runs_ret. apply trim_idempotent.
    + intros t Ht. apply runs_ret. cbn. now split.
  - apply runs_ret. cbn. split; [reflexivity|].
    split; [intros _; apply trim_idempotent|discriminate].
  - apply runs_ret. cbn. now split.
Qed.

Lemma kindCalls_item (operation ocrLanguage : string) (preprocess : bool)
  (i : nat) (mimeType fileName : string) (fileType : member FileType)
  (e : Event) :
  resolveFileType operation mimeType fileName = Some fileType ->
  kindCalls W ocrLanguage preprocess i fileType e ->
  itemCalls W operation ocrLanguage preprocess i e.
Proof.
  intros Hft Hk.
  assert (Hex : exists m n f,
             resolveFileType operation m n = Some f /\
             kindCalls W ocrLanguage preprocess i f e)
    by (now exists mimeType, fileName, fileType).
  destruct e; cbn [itemCalls]; try exact Hex;
    destruct fileType as [[| | | |]|k]; cbn in Hk; try now elim Hk.
  all: destruct Hk as (st & _ & Hk); now elim Hk.
Qed.

Lemma needsReason_item (operation ocrLanguage : string) (preprocess : bool)
  (i : nat) (mimeType fileName : string) (fileType : member FileType)
  (x : Error + Worker) :
  resolveFileType operation mimeType fileName = Some fileType ->
  needsReason W i fileType ->
  itemCalls W operation ocrLanguage preprocess i
    (EvCreateWorker ocrLanguage x).
Proof.
  intros Hft Hn. cbn [itemCalls].
  exists mimeType, fileName, fileType. split; [exact Hft|].
  destruct Hn as [-> | (-> & st & Hst & Ht)]; cbn; [reflexivity|].
  exists st. now repeat split.
Qed.

(** One run of the body of the inner [try]: its calls and its record. *)
Lemma processItem_run (binaryProperty operation ocrLanguage : string)
  (preprocess : bool) (i : nat) (item : Item) (s s' : State)
  (r : Error + unit) :
  processItem W binaryProperty operation ocrLanguage preprocess i item s
    = (r, s') ->
  callsOnly (itemCalls W operation ocrLanguage preprocess i) s s' /\
  match r with
  | inl _ => returnData s' = returnData s
  | inr _ =>
      exists j, returnData s' = (returnData s ++ [j])%list
                /\ shaped operation j
  end.
Proof.
  set (E := itemCalls W operation ocrLanguage preprocess i).
  unfold processItem. intros H.
  assert (Hhost : forall A (o : History -> Error + A) ev (x : State)
                         (y : State) (z : Error + A),
             (forall a, E (ev a)) -> call o ev x = (z, y) ->
             callsOnly E x y /\ returnData y = returnData x).
  { intros A o ev x y z He Hc.
    destruct (runs_callsOnly _ E (fun _ => True) _ _ _
                (runs_call o ev E _ He (fun _ => I)) Hc) as (Hc1 & Hd & _).
    now split. }
  apply bind_cases in H as [(e & H & ->)|(binaryData & s1 & H1 & H)].
  { apply Hhost in H; [exact H|]. intros a. reflexivity. }
  apply Hhost in H1 as [C1 D1]; [|intros a; reflexivity].
  apply bind_cases in H as [(e & H & ->)|(buffer & s2 & H2 & H)].
  { apply Hhost in H as [C2 D2]; [|intros a; reflexivity].
    split; [eapply callsOnly_trans; eassumption|congruence]. }
  apply Hhost in H2 as [C2 D2]; [|intros a; reflexivity].
  pose proof (callsOnly_trans _ _ _ _ C1 C2) as C.
  assert (D : returnData s2 = returnData s) by congruence.
  clear C1 C2 D1 D2.
  destruct (resolveFileType _ _ _) as [fileType|] eqn:Hft.
  2:{ inversion H; subst. now split. }
  apply bind_cases in H as [(e & H & ->)|(needsOcr & s3 & H3 & H)].
  { destruct (runs_callsOnly _ _ _ _ _ _ (needsOcrOf_reason fileType i) H)
      as (C3 & D3 & _).
    split; [|congruence].
    eapply callsOnly_trans; [exact C|].
    eapply callsOnly_weaken; [|exact C3]. intros ? []. }
  destruct (runs_callsOnly _ _ _ _ _ _ (needsOcrOf_reason fileType i) H3)
    as (C3 & D3 & _ & Hn).
  specialize (Hn _ eq_refl). cbn beta in Hn.
  assert (C' : callsOnly E s s3).
  { eapply callsOnly_trans; [exact C|].
    eapply callsOnly_weaken; [|exact C3]. intros ? []. }
  assert (D' : returnData s3 = returnData s) by congruence.
  clear C C3 D D3 H3.
  apply bind_cases in H as [(e & H & ->)|([] & s4 & H4 & H)].
  { apply ensureWorker_calls in H as [D4 C4].
    split; [|congruence].
    eapply callsOnly_trans; [exact C'|].
    eapply callsOnly_weaken; [|exact C4].
    intros e' [Hneed [x ->]]. eapply needsReason_item; eauto. }
  apply ensureWorker_calls in H4 as [D4 C4].
  assert (C'' : callsOnly E s s4).
  { eapply callsOnly_trans; [exact C'|].
    eapply callsOnly_weaken; [|exact C4].
    intros e' [Hneed [x ->]]. eapply needsReason_item; eauto. }
  assert (D'' : returnData s4 = returnData s) by congruence.
  clear C' C4 D' D4.
  unfold getWorker at 1 in H. cbn [bind] in H.
  apply bind_cases in H as [(e & H & ->)|(x & s5 & H5 & H)].
  { destruct (runs_callsOnly _ _ _ _ _ _
                (dispatch_calls fileType buffer (worker s4) preprocess i
                   ocrLanguage) H) as (C5 & D5 & _).
    split; [|congruence].
    eapply callsOnly_trans; [exact C''|].
    eapply callsOnly_weaken; [|exact C5].
    intros e' He'. eapply kindCalls_item; eauto. }
  destruct (runs_callsOnly _ _ _ _ _ _
              (dispatch_calls fileType buffer (worker s4) preprocess i
                 ocrLanguage) H5) as (C5 & D5 & _ & Hx).
  destruct (Hx _ eq_refl) as (Hm & Htrim & Hjoin).
  unfold push in H. inversion H; subst; clear H. split.
  - destruct C'' as (n1 & L1 & F1). destruct C5 as (n2 & L2 & F2).
    exists (n2 ++ n1)%list. cbn [log]. split.
    + now rewrite L2, L1, app_assoc.
    + apply Forall_app. split; [|exact F1].
      eapply Forall_impl; [|exact F2].
      intros e' He'. eapply kindCalls_item; eauto.
  - eexists. cbn [returnData]. split; [now rewrite D5, D''|].
    unfold shaped, successRecord; cbn. split; [reflexivity|].
    exists fileType, (Extracted.method x), (Extracted.text x).
    repeat split; auto.
Qed.

End Items.

Section Loop.

Variable W : World.

Lemma iteration_run (binaryProperty operation ocrLanguage : string)
  (preprocess : bool) (i : nat) (item : Item) (s s' : State)
  (r : Error + unit) :
  iteration W binaryProperty operation ocrLanguage preprocess i item s
    = (r, s') ->
  callsOnly (itemCalls W operation ocrLanguage preprocess i) s s' /\
  match r with
  | inr _ =>
      exists j,
        returnData s' = (returnData s ++ [j])%list /\
        (shaped operation j \/
         (continueOnFail W = true /\
          exists e, j = errorRecord e binaryProperty item))
  | inl _ => returnData s' = returnData s /\ continueOnFail W = false
  end.
Proof.
  unfold iteration, try_catch.
  destruct (processItem W _ _ _ _ _ _ s) as [[e|[]] s1] eqn:Hp;
    apply processItem_run in Hp as [C Hd].
  - unfold onError, push, throw.
    destruct (continueOnFail W) eqn:Hc; intros H; inversion H; subst; clear H.
    + split; [exact C|]. eexists. cbn [returnData]. rewrite Hd.
      split; [reflexivity|]. right. split; [reflexivity|]. now exists e.
    + now repeat split.
  - intros H. inversion H; subst; clear H. split; [exact C|].
    destruct Hd as (j & Hd & Hj). exists j. auto.
Qed.

Lemma loop_run (binaryProperty operation ocrLanguage : string)
  (preprocess : bool) (items : list Item) :
  forall (i : nat) (s s' : State) (r : Error + unit),
    loop W binaryProperty operation ocrLanguage preprocess i items s
      = (r, s') ->
    callsOnly (fun e => exists k,
                 (i <= k < i + length items)%nat /\
                 itemCalls W operation ocrLanguage preprocess k e) s s' /\
    exists outs,
      returnData s' = (returnData s ++ outs)%list /\
      batchOutcome W binaryProperty operation items r outs.
Proof.
  induction items as [|item rest IH]; intros i s s' r H; cbn [loop] in H.
  - inversion H; subst. split; [apply callsOnly_refl|].
    exists []. rewrite app_nil_r. split; [reflexivity|].
    unfold batchOutcome. repeat split; auto; try discriminate.
    intros k j Hk. now destruct k.
  - assert (Hrange : forall k e,
               (S i <= k < S i + length rest)%nat /\
               itemCalls W operation ocrLanguage preprocess k e ->
               exists k', (i <= k' < i + length (item :: rest))%nat /\
                          itemCalls W operation ocrLanguage preprocess k' e).
    { intros k e [Hk He]. exists k. split; [cbn [length]; lia|exact He]. }
    assert (Hfirst : forall e,
               itemCalls W operation ocrLanguage preprocess i e ->
               exists k', (i <= k' < i + length (item :: rest))%nat /\
                          itemCalls W operation ocrLanguage preprocess k' e).
    { intros e He. exists i. split; [cbn [length]; lia|exact He]. }
    apply bind_cases in H as [(e & H & ->)|([] & s1 & H1 & H)].
    + apply iteration_run in H as [C [D Hc]]. split.
      * eapply callsOnly_weaken; [exact Hfirst|exact C].
      * exists []. rewrite app_nil_r. split; [exact D|].
        unfold batchOutcome. repeat split; auto; try congruence.
        -- cbn [length]. lia.
        -- intros k j Hk. now destruct k.
    + apply iteration_run in H1 as [C1 (j & D1 & Hj)].
      apply IH in H as [C2 (outs & D2 & Hc & Hlen & Herr & Hout)]. split.
      * eapply callsOnly_trans.
        -- eapply callsOnly_weaken; [exact Hfirst|exact C1].
        -- eapply callsOnly_weaken; [|exact C2].
           intros e' (k & Hk & He'). now apply (Hrange k).
      * exists (j :: outs). split; [now rewrite D2, D1, <- app_assoc|].
        unfold batchOutcome. split; [exact Hc|]. split; [|split].
        -- intros u Hu. cbn [length]. now rewrite (Hlen u Hu).
        -- intros e He. destruct (Herr e He) as [Hf Hl].
           split; [exact Hf|]. cbn [length]. lia.
        -- intros [|k] x Hx; cbn [nth_error] in Hx |- *.
           ++ inversion Hx; subst x.
              destruct Hj as [Hj|[Hf (e & ->)]]; [now left|].
              right. split; [exact Hf|]. now exists e, item.
           ++ now apply Hout.
Qed.

(** The loop inside its [try]/[finally], from the state in which
    [execute] enters it: the calls of the loop, then at most one call of
    [terminate], made exactly when the loop created a worker, whose error
    replaces the outcome of the loop. *)
Lemma guarded_run (binaryProperty operation ocrLanguage : string)
  (preprocess : bool) (h : History) (s' : State) (r : Error + unit) :
  try_finally
    (loop W binaryProperty operation ocrLanguage preprocess 0
       (getInputData W))
    (release W) (mkState None [] h) = (r, s') ->
  exists calls rl,
    batchOutcome W binaryProperty operation (getInputData W) rl
      (returnData s') /\
    Forall (fun e => exists k,
              (k < length (getInputData W))%nat /\
              itemCalls W operation ocrLanguage preprocess k e) calls /\
    ((created calls = [] /\ log s' = (calls ++ h)%list /\ r = rl) \/
     (exists w x,
        created calls = [w] /\
        log s' = (EvTerminate w x :: calls ++ h)%list /\
        r = match x with inl e => inl e | inr _ => rl end)).
Proof.
  unfold try_finally.
  destruct (loop W _ _ _ _ _ _ _) as [rl sl] eqn:Hl.
  pose proof (loop_effect W _ _ _ _ _ _ _ _ _ Hl)
    as [(new & Hlog & _ & Hc & _) _].
  apply loop_run in Hl as [(calls & Hlog' & Hcalls) (outs & Hd & Hout)].
  cbn [log returnData worker held app] in *. rewrite app_nil_r in Hc.
  assert (new = calls) by (apply (app_inv_tail h); congruence). subst new.
  unfold release, bind, getWorker, call, ret.
  destruct (worker sl) as [w|] eqn:Hw; cbn [held] in Hc.
  - destruct (terminate W (log sl) w) as [e|[]] eqn:Ht;
      intros H; injection H as Hr Hs; subst s'; cbn [returnData log];
      exists calls, rl; rewrite Hd; (split; [exact Hout|]);
      (split; [eapply Forall_impl; [|exact Hcalls];
               intros e' (k & Hk & He'); exists k; split; [lia|exact He']|]);
      right; [exists w, (inl e)|exists w, (inr tt)];
      rewrite Hlog'; repeat split; auto.
  - intros H. injection H as Hr Hs. subst s'.
    exists calls, rl. rewrite Hd. split; [exact Hout|].
    split; [eapply Forall_impl; [|exact Hcalls];
            intros e' (k & Hk & He'); exists k; split; [lia|exact He']|].
    left. repeat split; auto.
Qed.

(** [execute] once its four parameters are read. *)
Lemma execute_configured (binaryProperty operation ocrLanguage : string)
  (preprocess : bool) (s s' : State) (r : Error + list (list Json.t)) :
  configured W binaryProperty operation ocrLanguage preprocess ->
  execute W s = (r, s') ->
  exists rg,
    try_finally
      (loop W binaryProperty operation ocrLanguage preprocess 0
         (getInputData W))
      (release W) (mkState None [] (log s)) = (rg, s') /\
    r = match rg with
        | inr _ => inr [returnData s']
        | inl e => inl e
        end.
Proof.
  intros (Hb & Ho & Hl & Hp). unfold execute, bind at 1, enter.
  unfold bind at 1. rewrite Hb. cbn [lift ret].
  unfold bind at 1. rewrite Ho. cbn [lift ret].
  unfold bind at 1. rewrite Hl. cbn [lift ret].
  unfold bind at 1. rewrite Hp. cbn [lift ret].
  unfold bind at 1.
  destruct (try_finally _ _ _) as [rg sg] eqn:Hg.
  destruct rg as [e|[]]; unfold bind, getReturnData, ret;
    intros H; inversion H; subst; clear H.
  - now exists (inl e).
  - now exists (inr tt).
Qed.

End Loop.

Section Runs_of_execute.

Variable W : World.

Lemma execute_cases (s s' : State) (r : Error + list (list Json.t)) :
  execute W s = (r, s') ->
  (exists binaryProperty operation ocrLanguage preprocess,
     configured W binaryProperty operation ocrLanguage preprocess) \/
  (returnData s' = [] /\ log s' = log s /\ exists e, r = inl e).
Proof.
  unfold execute, configured, bind at 1, enter.
  unfold bind at 1.
  destruct (getNodeParameterString W "binaryProperty" 0 None) as [e|bp];
    cbn [lift throw ret];
    [intros H; inversion H; subst; right; cbn; eauto|].
  unfold bind at 1.
  destruct (getNodeParameterString W "operation" 0 None) as [e|op];
    cbn [lift throw ret];
    [intros H; inversion H; subst; right; cbn; eauto|].
  unfold bind at 1.
  destruct (getNodeParameterString W "ocrLanguage" 0 None) as [e|lang];
    cbn [lift throw ret];
    [intros H; inversion H; subst; right; cbn; eauto|].
  unfold bind at 1.
  destruct (getNodeParameterBoolean W "preprocess" 0) as [e|pre];
    cbn [lift throw ret];
    [intros H; inversion H; subst; right; cbn; eauto|].
  intros _. left. now exists bp, op, lang, pre.
Qed.

(** One run of [execute] under known parameters: the outcome of the loop
    and its records, the calls of the loop, and the call of [terminate]
    that follows them exactly when the loop created a worker. *)
Lemma execute_batch (binaryProperty operation ocrLanguage : string)
  (preprocess : bool) (s s' : State) (r : Error + list (list Json.t)) :
  configured W binaryProperty operation ocrLanguage preprocess ->
  execute W s = (r, s') ->
  exists calls rl,
    batchOutcome W binaryProperty operation (getInputData W) rl
      (returnData s') /\
    Forall (fun e => exists k,
              (k < length (getInputData W))%nat /\
              itemCalls W operation ocrLanguage preprocess k e) calls /\
    ((created calls = [] /\ log s' = (calls ++ log s)%list /\
      r = match rl with
          | inr _ => inr [returnData s']
          | inl e => inl e
          end) \/
     (exists w x,
        created calls = [w] /\
        log s' = (EvTerminate w x :: calls ++ log s)%list /\
        r = match x, rl with
            | inl e, _ => inl e
            | inr _, inl e => inl e
            | inr _, inr _ => inr [returnData s']
            end)).
Proof.
  intros Hc Hrun.
  destruct (execute_configured W _ _ _ _ _ _ _ Hc Hrun) as (rg & Hg & Hr).
  apply guarded_run in Hg as (calls & rl & Hout & Hcalls & Hlog).
  exists calls, rl. split; [exact Hout|]. split; [exact Hcalls|].
  destruct Hlog as [(Hn & Hl & ->)|(w & x & Hn & Hl & ->)].
  - left. now repeat split.
  - right. exists w, x. repeat split; auto.
    now destruct x as [e|[]]; [|destruct rl].
Qed.

End Runs_of_execute.

Lemma created_without_factory (calls : History) :
  Forall (fun e => forall l x, e <> EvCreateWorker l x) calls ->
  created calls = [].
Proof.
  induction 1 as [|e calls He _ IH]; [reflexivity|].
  destruct e; cbn [created]; try exact IH.
  now elim (He lang r).
Qed.

Lemma resolveFileType_explicit (operation mimeType fileName : string) :
  String.eqb operation "auto" = false ->
  exists k, resolveFileType operation mimeType fileName = Some (Own k) /\
            (String.eqb operation "ocr" = true -> k = image) /\
            (String.eqb operation "ocr" = false ->
             String.eqb operation "pdf" = true -> k = pdf) /\
            (String.eqb operation "ocr" = false ->
             String.eqb operation "pdf" = false -> k = doc \/ k = docx).
Proof.
  intros Ha. unfold resolveFileType. rewrite Ha.
  destruct (String.eqb operation "ocr").
  - exists image. repeat split; intros; auto; discriminate.
  - destruct (String.eqb operation "pdf").
    + exists pdf. repeat split; intros; auto; discriminate.
    + destruct (detectFileType (Some mimeType) (Some fileName))
        as [[[| | | |]|k]|];
        first [exists doc; repeat split; intros; auto; discriminate
              |exists docx; repeat split; intros; auto; discriminate].
Qed.

(** X13: in every record of a processed item, the [fileType] is the kind
    the operation resolves from the record's own [mimeType] and
    [fileName], and the [method] is one of that kind: [ocr] for an image,
    [pdf-text] or [pdf-ocr] for a PDF, [docx], [doc], [txt] for
    themselves, and the empty tag for a member inherited from
    [Object.prototype]. *)
Theorem X13_record_kind_and_method_agree (W : World) (operation : string)
  (s s' : State) (r : Error + list (list Json.t)) (j : Json.t) :
  getNodeParameterString W "operation" 0 None = inr operation ->
  execute W s = (r, s') ->
  In j (returnData s') ->
  Json.error j = None ->
  exists fileType m,
    Json.fileType j = Some fileType /\
    resolveFileType operation (Json.mimeType j) (Json.fileName j)
    = Some fileType /\
    Json.method j = Some m /\
    methodOf fileType m.
Proof.
  intros Hop Hrun Hin Herr.
  destruct (execute_cases W _ _ _ Hrun)
    as [(bp & op & lang & pre & Hc)|(Hd & _)];
    [|rewrite Hd in Hin; now elim Hin].
  assert (op = operation) by (destruct Hc as (_ & Ho & _); congruence).
  subst op.
  destruct (execute_batch W _ _ _ _ _ _ _ Hc Hrun)
    as (calls & rl & (_ & _ & _ & Hout) & _).
  apply In_nth_error in Hin as [k Hk].
  destruct (Hout k j Hk) as [(_ & ft & m & t & H1 & H2 & H3 & H4 & _)
                            |(_ & e & item & _ & ->)].
  - now exists ft, m.
  - discriminate.
Qed.

Lemma X13_record_kind_and_method_agree_witness :
  exists j,
    In j (returnData
            (snd (execute
                    (Scenario.reconfigure Scenario.office "document" true true)
                    Scenario.start))) /\
    Json.fileName j = "notes.txt" /\
    exists fileType m,
      Json.fileType j = Some fileType /\
      resolveFileType "document" "text/plain" "notes.txt" = Some fileType /\
      Json.method j = Some m /\
      methodOf fileType m.
Proof.
  pose (j := Json.mk None (Some "notes") "notes.txt" "text/plain"
               (Some (Own docx)) None None None (Some "docx")).
  assert (Hin : In j (returnData
                        (snd (execute
                                (Scenario.reconfigure Scenario.office
                                   "document" true true)
                                Scenario.start)))).
  { vm_compute. right. right. left. reflexivity. }
  exists j. split; [exact Hin|]. split; [reflexivity|].
  exact (X13_record_kind_and_method_agree
           (Scenario.reconfigure Scenario.office "document" true true)
           "document" Scenario.start _ _ j eq_refl
           (surjective_pairing _) Hin eq_refl).
Defined.



(** The calls of a run all satisfy [P] when the calls an item may make do
    and [P] either admits the call of [terminate] or excludes every call
    of the factory. *)
Lemma execute_calls_within (W : World) (P : Event -> Prop)
  (s s' : State) (r : Error + list (list Json.t)) :
  (forall binaryProperty operation ocrLanguage preprocess k e,
     configured W binaryProperty operation ocrLanguage preprocess ->
     itemCalls W operation ocrLanguage preprocess k e -> P e) ->
  (forall w x, P (EvTerminate w x)) \/ (forall l x, ~ P (EvCreateWorker l x)) ->
  execute W s = (r, s') ->
  exists new, log s' = (new ++ log s)%list /\ Forall P new.
Proof.
  intros Hitem Hend Hrun.
  destruct (execute_cases W _ _ _ Hrun)
    as [(bp & op & lang & pre & Hc)|(_ & Hl & _)];
    [|now exists []].
  destruct (execute_batch W _ _ _ _ _ _ _ Hc Hrun)
    as (calls & rl & _ & Hcalls & Hlog).
  assert (HP : Forall P calls).
  { eapply Forall_impl; [|exact Hcalls].
    intros e (k & _ & He). now apply (Hitem bp op lang pre k). }
  destruct Hlog as [(_ & Hl & _)|(w & x & Hn & Hl & _)].
  - now exists calls.
  - destruct Hend as [Ht|Hf].
    + exists (EvTerminate w x :: calls). split; [exact Hl|].
      constructor; [apply Ht|exact HP].
    + rewrite created_without_factory in Hn; [discriminate|].
      eapply Forall_impl; [|exact HP].
      intros e He l y ->. now apply (Hf l y).
Qed.

(** X15: with continuation enabled and the four parameters resolved, a
    run leaves exactly one record per input item, in input order; a
    record with an error is the degraded record of the item at the same
    position; and the run returns those records unless the final call of
    [terminate] throws, whose error is then the one thrown. *)
Theorem X15_continuation_keeps_one_record_per_item (W : World)
  (binaryProperty operation ocrLanguage : string) (preprocess : bool)
  (s s' : State) (r : Error + list (list Json.t)) :
  continueOnFail W = true ->
  configured W binaryProperty operation ocrLanguage preprocess ->
  execute W s = (r, s') ->
  length (returnData s') = length (getInputData W) /\
  (forall k j,
     nth_error (returnData s') k = Some j ->
     Json.error j <> None ->
     exists e item,
       nth_error (getInputData W) k = Some item /\
       j = errorRecord e binaryProperty item) /\
  (r = inr [returnData s'] \/
   exists e w calls,
     r = inl e /\ log s' = EvTerminate w (inl e) :: calls).
Proof.
  intros Hcont Hc Hrun.
  destruct (execute_batch W _ _ _ _ _ _ _ Hc Hrun)
    as (calls & rl & (Hok & Hlen & _ & Hout) & _ & Hlog).
  specialize (Hok Hcont). subst rl.
  split; [now apply (Hlen tt)|]. split.
  - intros k j Hk Herr.
    destruct (Hout k j Hk) as [(Hnone & _)|(_ & e & item & Hi & ->)].
    + now elim Herr.
    + now exists e, item.
  - destruct Hlog as [(_ & _ & ->)|(w & x & _ & Hl & ->)]; [now left|].
    destruct x as [e|[]]; [right|now left].
    now exists e, w, (calls ++ log s)%list.
Qed.

Lemma X15_continuation_keeps_one_record_per_item_witness :
  length (returnData (snd (execute Scenario.batch Scenario.start))) = 3%nat /\
  fst (execute Scenario.batch Scenario.start)
  = inr [returnData (snd (execute Scenario.batch Scenario.start))].
Proof.
  destruct (X15_continuation_keeps_one_record_per_item Scenario.batch
              "data" "auto" "fra" true Scenario.start _ _ eq_refl
              (conj eq_refl (conj eq_refl (conj eq_refl eq_refl)))
              (surjective_pairing _))
    as (Hlen & _ & Hr).
  split; [exact Hlen|].
  destruct Hr as [Hr|(e & w & calls & Hr & _)]; [exact Hr|].
  vm_compute in Hr. discriminate.
Defined.

(** X16: with continuation disabled no record carries an error; and,
    once the four parameters are resolved, a run that throws either
    stopped at an item, leaving fewer records than items, or threw from
    the final call of [terminate]. *)
Theorem X16_without_continuation_first_error_aborts (W : World)
  (binaryProperty operation ocrLanguage : string) (preprocess : bool)
  (s s' : State) (r : Error + list (list Json.t)) :
  continueOnFail W = false ->
  configured W binaryProperty operation ocrLanguage preprocess ->
  execute W s = (r, s') ->
  Forall (fun j => Json.error j = None) (returnData s') /\
  (forall e,
     r = inl e ->
     (length (returnData s') < length (getInputData W))%nat \/
     exists w calls, log s' = EvTerminate w (inl e) :: calls).
Proof.
  intros Hcont Hc Hrun.
  destruct (execute_batch W _ _ _ _ _ _ _ Hc Hrun)
    as (calls & rl & (_ & _ & Herr & Hout) & _ & Hlog).
  split.
  - apply Forall_forall. intros j Hin.
    apply In_nth_error in Hin as [k Hk].
    destruct (Hout k j Hk) as [(Hnone & _)|(Hf & _)]; [exact Hnone|].
    congruence.
  - intros e He.
    destruct Hlog as [(_ & _ & Hr)|(w & x & _ & Hl & Hr)].
    + left. destruct rl as [e'|[]]; [|congruence].
      now apply (Herr e').
    + destruct x as [e'|[]].
      * right. exists w, (calls ++ log s)%list.
        assert (e' = e) by congruence. now subst.
      * left. destruct rl as [e'|[]]; [|congruence].
        now apply (Herr e').
Qed.

Lemma X16_without_continuation_first_error_aborts_witness :
  fst (execute (Scenario.reconfigure Scenario.batch "auto" true false)
         Scenario.start)
  = inl (mkError "Unsupported file type: application/x-unknown") /\
  (length (returnData
             (snd (execute
                     (Scenario.reconfigure Scenario.batch "auto" true false)
                     Scenario.start))) < 3)%nat.
Proof.
  split; [vm_compute; reflexivity|].
  destruct (X16_without_continuation_first_error_aborts
              (Scenario.reconfigure Scenario.batch "auto" true false)
              "data" "auto" "fra" true Scenario.start _ _ eq_refl
              (conj eq_refl (conj eq_refl (conj eq_refl eq_refl)))
              (surjective_pairing _))
    as (_ & Hthrow).
  destruct (Hthrow (mkError "Unsupported file type: application/x-unknown"))
    as [Hlt|(w & calls & Hl)].
  - vm_compute. reflexivity.
  - exact Hlt.
  - vm_compute in Hl. inversion Hl.
Defined.

Lemma itemCalls_host (W : World) (operation ocrLanguage : string)
  (preprocess : bool) (k : nat) (e : Event) :
  itemCalls W operation ocrLanguage preprocess k e ->
  engineOf e = Host \/
  exists mimeType fileName fileType,
    resolveFileType operation mimeType fileName = Some fileType /\
    kindCalls W ocrLanguage preprocess k fileType e.
Proof. destruct e; cbn; auto. Qed.

(** X17: under an operation other than [auto], [ocr] and [pdf] (the
    document operation) a run calls nothing but the host, mammoth and
    word-extractor, whatever the files are: no worker is created and no
    PDF or image engine is touched. *)
Theorem X17_document_operation_calls_only_parsers (W : World)
  (operation : string) (s s' : State) (r : Error + list (list Json.t)) :
  getNodeParameterString W "operation" 0 None = inr operation ->
  String.eqb operation "auto" = false ->
  String.eqb operation "ocr" = false ->
  String.eqb operation "pdf" = false ->
  execute W s = (r, s') ->
  exists new,
    log s' = (new ++ log s)%list /\
    Forall (fun e => In (engineOf e) [Host; Mammoth; WordExtractor]) new.
Proof.
  intros Hop Ha Ho Hp Hrun.
  refine (execute_calls_within W _ s s' r _ _ Hrun).
  - intros bp op lang pre k e Hc He.
    assert (op = operation) by (destruct Hc as (_ & Hc & _); congruence).
    subst op.
    apply itemCalls_host in He as [He|(m & n & ft & Hft & Hk)];
      [rewrite He; now left|].
    destruct (resolveFileType_explicit operation m n Ha)
      as (kind & Hres & _ & _ & Hdoc).
    rewrite Hres in Hft. inversion Hft; subst ft.
    destruct (Hdoc Ho Hp) as [-> | ->]; destruct e; cbn in Hk;
      try now elim Hk.
    + cbn. auto.
    + cbn. auto.
  - right. intros l x. cbn. intros [H|[H|[H|[]]]]; discriminate.
Qed.

Lemma X17_document_operation_calls_only_parsers_witness :
  map engineOf
    (log (snd (execute
                 (Scenario.reconfigure Scenario.office "document" true true)
                 Scenario.start)))
  = [Mammoth; Host; Host; WordExtractor; Host; Host; Mammoth; Host; Host].
Proof.
  destruct (X17_document_operation_calls_only_parsers
              (Scenario.reconfigure Scenario.office "document" true true)
              "document" Scenario.start _ _ eq_refl eq_refl eq_refl eq_refl
              (surjective_pairing _))
    as (new & Hlog & _).
  vm_compute. reflexivity.
Defined.

(** X18: under the [ocr] operation a run calls nothing but the host,
    tesseract.js and sharp, whatever the files are: every file is taken
    for an image. *)
Theorem X18_ocr_operation_calls_only_the_ocr_engine (W : World)
  (s s' : State) (r : Error + list (list Json.t)) :
  getNodeParameterString W "operation" 0 None = inr "ocr" ->
  execute W s = (r, s') ->
  exists new,
    log s' = (new ++ log s)%list /\
    Forall (fun e => In (engineOf e) [Host; Tesseract; Sharp]) new.
Proof.
  intros Hop Hrun.
  refine (execute_calls_within W _ s s' r _ _ Hrun).
  - intros bp op lang pre k e Hc He.
    assert (op = "ocr") by (destruct Hc as (_ & Hc & _); congruence).
    subst op.
    apply itemCalls_host in He as [He|(m & n & ft & Hft & Hk)];
      [rewrite He; now left|].
    cbn in Hft. inversion Hft; subst ft.
    destruct e; cbn in Hk; try now elim Hk.
    all: cbn; auto.
  - left. intros w x. cbn. auto.
Qed.

Lemma X18_ocr_operation_calls_only_the_ocr_engine_witness :
  exists new,
    log (snd (execute (Scenario.reconfigure Scenario.batch "ocr" false true)
                Scenario.start)) = new /\
    Forall (fun e => In (engineOf e) [Host; Tesseract; Sharp]) new.
Proof.
  destruct (X18_ocr_operation_calls_only_the_ocr_engine
              (Scenario.reconfigure Scenario.batch "ocr" false true)
              Scenario.start _ _ eq_refl (surjective_pairing _))
    as (new & Hlog & Hall).
  exists new. split; [|exact Hall].
  rewrite Hlog. cbn [Scenario.start log]. apply app_nil_r.
Defined.

(** X19: with the preprocess flag off, sharp is never called. *)
Theorem X19_no_preprocess_never_calls_sharp (W : World)
  (s s' : State) (r : Error + list (list Json.t)) :
  getNodeParameterBoolean W "preprocess" 0 = inr false ->
  execute W s = (r, s') ->
  exists new,
    log s' = (new ++ log s)%list /\
    Forall (fun e => engineOf e <> Sharp) new.
Proof.
  intros Hpre Hrun.
  refine (execute_calls_within W _ s s' r _ _ Hrun).
  - intros bp op lang pre k e Hc He.
    assert (pre = false) by (destruct Hc as (_ & _ & _ & Hc); congruence).
    subst pre.
    apply itemCalls_host in He as [He|(m & n & ft & _ & Hk)];
      [rewrite He; discriminate|].
    destruct e; cbn; try discriminate.
    destruct ft as [[| | | |]|x]; cbn in Hk;
      first [now elim Hk | discriminate
            | destruct Hk as (st & _ & _ & Hk); discriminate].
  - left. intros w x. cbn. discriminate.
Qed.

Lemma X19_no_preprocess_never_calls_sharp_witness :
  exists new,
    log (snd (execute (Scenario.reconfigure Scenario.batch "auto" false true)
                Scenario.start)) = new /\
    recognizers new = [7%nat; 7%nat] /\
    Forall (fun e => engineOf e <> Sharp) new.
Proof.
  destruct (X19_no_preprocess_never_calls_sharp
              (Scenario.reconfigure Scenario.batch "auto" false true)
              Scenario.start _ _ eq_refl (surjective_pairing _))
    as (new & Hlog & Hall).
  exists new. cbn [Scenario.start log] in Hlog. rewrite app_nil_r in Hlog.
  split; [exact Hlog|]. split; [|exact Hall].
  rewrite <- Hlog. vm_compute. reflexivity.
Defined.

(** X20: under the [pdf] operation with the [text] strategy on every
    item, a run calls nothing but the host and unpdf: no worker is
    created, nothing is rasterized, preprocessed or recognized. *)
Theorem X20_text_only_pdfs_never_reach_ocr (W : World)
  (s s' : State) (r : Error + list (list Json.t)) :
  getNodeParameterString W "operation" 0 None = inr "pdf" ->
  (forall i strategy,
     getNodeParameterString W "pdfStrategy" i (Some "auto") = inr strategy ->
     strategy = "text") ->
  execute W s = (r, s') ->
  exists new,
    log s' = (new ++ log s)%list /\
    Forall (fun e => In (engineOf e) [Host; Unpdf]) new.
Proof.
  intros Hop Htext Hrun.
  refine (execute_calls_within W _ s s' r _ _ Hrun).
  - intros bp op lang pre k e Hc He.
    assert (op = "pdf") by (destruct Hc as (_ & Hc & _); congruence).
    subst op.
    apply itemCalls_host in He as [He|(m & n & ft & Hft & Hk)];
      [rewrite He; now left|].
    cbn in Hft. inversion Hft; subst ft.
    destruct Hk as (st & Hst & Hk). apply Htext in Hst. subst st.
    destruct e; cbn in Hk; try now elim Hk.
    all: try (cbn; now auto).
    all: try (destruct Hk; discriminate).
    all: discriminate.
  - right. intros l x. cbn. intros [H|[H|[]]]; discriminate.
Qed.

Lemma X20_text_only_pdfs_never_reach_ocr_witness :
  map engineOf
    (log (snd (execute (Scenario.reconfigure Scenario.textOnly "pdf" true true)
                 Scenario.start)))
  = [Unpdf; Unpdf; Host; Host].
Proof.
  assert (Htext : forall i strategy,
             getNodeParameterString
               (Scenario.reconfigure Scenario.textOnly "pdf" true true)
               "pdfStrategy" i (Some "auto") = inr strategy ->
             strategy = "text").
  { intros i strategy H. vm_compute in H. now inversion H. }
  destruct (X20_text_only_pdfs_never_reach_ocr
              (Scenario.reconfigure Scenario.textOnly "pdf" true true)
              Scenario.start _ _ eq_refl Htext (surjective_pairing _))
    as (new & Hlog & _).
  vm_compute. reflexivity.
Defined.
(** ** The binary field and the two failures before extraction *)

Lemma own_key {A : Type} (o : list (string * A)) (k : string) (a : A) :
  own o k = Some a -> In k (keys o).
Proof.
  intros H. apply own_In in H. unfold keys.
  change k with (fst (k, a)). now apply in_map.
Qed.

(** X21: when the item has binary fields and the configured property is
    not the name of an inherited member, the field [execute] asks the
    host for is a field of the item: the configured one if the item has
    it, else the item's first field; and the [catch] block reads the file
    name and the MIME type of its record from that same field. *)
Theorem X21_resolved_property_is_a_field_of_the_item
  (binaryProperty : string) (item : Item)
  (o : list (string * BinaryData.t)) :
  inherited binaryProperty = false ->
  binary item = Some o ->
  o <> [] ->
  exists d,
    own o (resolveProperty binaryProperty item) = Some d /\
    In (resolveProperty binaryProperty item) (keys o) /\
    (own o binaryProperty <> None ->
     resolveProperty binaryProperty item = binaryProperty) /\
    (own o binaryProperty = None ->
     exists rest, o = (resolveProperty binaryProperty item, d) :: rest) /\
    recoveredBinaryData binaryProperty item = Some (Own d) /\
    forall e,
      Json.fileName (errorRecord e binaryProperty item)
      = nullish (BinaryData.fileName d) "unknown" /\
      Json.mimeType (errorRecord e binaryProperty item)
      = nullish (BinaryData.mimeType d) EmptyString.
Proof.
  intros Hinh Hbin Hne.
  unfold errorRecord, resolveProperty, recoveredBinaryData, binaryField.
  rewrite Hbin. unfold get. rewrite Hinh.
  destruct (own o binaryProperty) as [d|] eqn:Hown.
  - exists d. repeat split; auto.
    + now apply own_key with (a := d).
    + discriminate.
  - destruct o as [|[k d] rest]; [now elim Hne|].
    cbn [keys values nullish map fst snd].
    assert (Hk : own ((k, d) :: rest) k = Some d)
      by (cbn [own]; now rewrite String.eqb_refl).
    exists d. repeat split; auto.
    + now left.
    + intros H. now elim H.
    + now exists rest.
Qed.

Lemma X21_resolved_property_is_a_field_of_the_item_witness :
  resolveProperty "attachment"
    (Scenario.item (Scenario.mkFile "scan.pdf" "application/pdf" "%PDF"))
  = "data" /\
  Json.fileName
    (errorRecord (mkError "boom") "attachment"
       (Scenario.item (Scenario.mkFile "scan.pdf" "application/pdf" "%PDF")))
  = "scan.pdf".
Proof.
  destruct (X21_resolved_property_is_a_field_of_the_item "attachment"
              (Scenario.item
                 (Scenario.mkFile "scan.pdf" "application/pdf" "%PDF"))
              _ eq_refl eq_refl ltac:(discriminate))
    as (d & Hown & _ & _ & Hfirst & _ & Hnames).
  split; [reflexivity|].
  vm_compute in Hown. inversion Hown; subst d.
  exact (proj1 (Hnames (mkError "boom"))).
Defined.

(** X22: an item whose kind cannot be resolved, once the host has handed
    over its binary data and its buffer, makes [processItem] throw
    [Unsupported file type: ] followed by the MIME type, or by the file
    name when the MIME type is empty, after those two calls and nothing
    else; this only happens under the [auto] operation. *)
Theorem X22_unresolved_kind_is_an_unsupported_type_error (W : World)
  (binaryProperty operation ocrLanguage : string) (preprocess : bool)
  (i : nat) (item : Item) (s : State) (d : BinaryData.t) (buffer : Buffer) :
  assertBinaryData W (log s) i (resolveProperty binaryProperty item)
  = inr d ->
  getBinaryDataBuffer W
    (EvAssertBinaryData i (resolveProperty binaryProperty item) (inr d)
     :: log s) i (resolveProperty binaryProperty item)
  = inr buffer ->
  resolveFileType operation
    (nullish (BinaryData.mimeType d) EmptyString)
    (nullish (BinaryData.fileName d) "unknown") = None ->
  operation = "auto" /\
  processItem W binaryProperty operation ocrLanguage preprocess i item s
  = (inl (mkError
            ("Unsupported file type: "
             ++ (if truthy (nullish (BinaryData.mimeType d) EmptyString)
                 then nullish (BinaryData.mimeType d) EmptyString
                 else nullish (BinaryData.fileName d) "unknown"))),
     mkState (worker s) (returnData s)
       (EvGetBinaryDataBuffer i (resolveProperty binaryProperty item)
          (inr buffer)
        :: EvAssertBinaryData i (resolveProperty binaryProperty item) (inr d)
        :: log s)).
Proof.
  intros Ha Hb Hres. split.
  - destruct (String.eqb operation "auto") eqn:Hop;
      [now apply String.eqb_eq|].
    destruct (resolveFileType_explicit operation
                (nullish (BinaryData.mimeType d) EmptyString)
                (nullish (BinaryData.fileName d) "unknown") Hop)
      as (k & Hk & _).
    congruence.
  - unfold processItem, bind, call. cbn [log]. rewrite Ha. cbn [log].
    rewrite Hb, Hres. reflexivity.
Qed.

Lemma X22_unresolved_kind_is_an_unsupported_type_error_witness :
  processItem Scenario.batch "data" "auto" "fra" true 2
    (Scenario.item (Scenario.mkFile "blob.bin" "application/x-unknown" "????"))
    Scenario.start
  = (inl (mkError "Unsupported file type: application/x-unknown"),
     mkState None []
       [ EvGetBinaryDataBuffer 2 "data" (inr (Scenario.bytes "????"));
         EvAssertBinaryData 2 "data"
           (inr (BinaryData.mk (Some "blob.bin")
                   (Some "application/x-unknown"))) ]).
Proof.
  exact (proj2 (X22_unresolved_kind_is_an_unsupported_type_error
                  Scenario.batch "data" "auto" "fra" true 2
                  (Scenario.item
                     (Scenario.mkFile "blob.bin" "application/x-unknown"
                        "????"))
                  Scenario.start
                  (BinaryData.mk (Some "blob.bin")
                     (Some "application/x-unknown"))
                  (Scenario.bytes "????") eq_refl eq_refl eq_refl)).
Defined.

(** X23: a run of [execute] that returns hands back a single output
    branch holding exactly one record per input item. *)
Theorem X23_a_returning_run_has_one_record_per_item (W : World)
  (s s' : State) (out : list (list Json.t)) :
  execute W s = (inr out, s') ->
  exists records,
    out = [records] /\ length records = length (getInputData W).
Proof.
  intros Hrun. exists (returnData s').
  exact (execute_returns W s s' out Hrun).
Qed.

Lemma X23_a_returning_run_has_one_record_per_item_witness :
  exists records,
    [returnData (snd (execute Scenario.office Scenario.start))] = [records] /\
    length records = length (getInputData Scenario.office).
Proof.
  assert (Hrun : execute Scenario.office Scenario.start
                 = (inr [returnData
                           (snd (execute Scenario.office Scenario.start))],
                    snd (execute Scenario.office Scenario.start)))
    by (vm_compute; reflexivity).
  exact (X23_a_returning_run_has_one_record_per_item Scenario.office
           Scenario.start _ _ Hrun).
Defined.

(** X24: every call a run makes to the host is about an item of the
    batch: the index it passes is below the number of input items. *)
Theorem X24_host_calls_stay_within_the_batch (W : World) (s s' : State)
  (r : Error + list (list Json.t)) :
  execute W s = (r, s') ->
  exists new,
    log s' = (new ++ log s)%list /\
    forall e i, In e new -> itemIndex e = Some i ->
                (i < length (getInputData W))%nat.
Proof.
  intros Hrun.
  destruct (execute_cases W _ _ _ Hrun)
    as [(bp & op & lang & pre & Hc)|(_ & Hl & _)].
  2:{ exists []. split; [exact Hl|]. intros e i []. }
  destruct (execute_batch W _ _ _ _ _ _ _ Hc Hrun)
    as (calls & rl & _ & Hcalls & Hlog).
  assert (Hin : forall e i, In e calls -> itemIndex e = Some i ->
                            (i < length (getInputData W))%nat).
  { intros e i He Hi. rewrite Forall_forall in Hcalls.
    destruct (Hcalls e He) as (k & Hk & Hitem).
    destruct e; cbn in Hi; try discriminate; cbn in Hitem;
      inversion Hi; subst; exact Hk. }
  destruct Hlog as [(_ & Hl & _)|(w & x & _ & Hl & _)].
  - now exists calls.
  - exists (EvTerminate w x :: calls). split; [exact Hl|].
    intros e i [<-|He] Hi; [discriminate|]. now apply (Hin e).
Qed.

Lemma X24_host_calls_stay_within_the_batch_witness :
  exists new,
    log (snd (execute Scenario.office Scenario.start)) = new /\
    forall e i, In e new -> itemIndex e = Some i -> (i < 3)%nat.
Proof.
  destruct (X24_host_calls_stay_within_the_batch Scenario.office
              Scenario.start _ _ (surjective_pairing _))
    as (new & Hlog & Hall).
  exists new. split; [|exact Hall].
  rewrite Hlog. cbn [Scenario.start log]. apply app_nil_r.
Defined.

(** X25: on an empty batch, once its four parameters are read, [execute]
    calls nothing, creates no worker and returns one empty output
    branch. *)
Theorem X25_empty_batch_returns_an_empty_branch (W : World)
  (binaryProperty operation ocrLanguage : string) (preprocess : bool)
  (s : State) :
  configured W binaryProperty operation ocrLanguage preprocess ->
  getInputData W = [] ->
  execute W s = (inr [[]], mkState None [] (log s)).
Proof.
  intros (Hb & Ho & Hl & Hp) Hitems.
  unfold execute, bind, enter. rewrite Hb, Ho, Hl, Hp, Hitems. reflexivity.
Qed.

Lemma X25_empty_batch_returns_an_empty_branch_witness :
  execute (Scenario.world [] EmptyString [] "auto" false) Scenario.start
  = (inr [[]], Scenario.start).
Proof.
  exact (X25_empty_batch_returns_an_empty_branch
           (Scenario.world [] EmptyString [] "auto" false)
           "data" "auto" "fra" true Scenario.start
           (conj eq_refl (conj eq_refl (conj eq_refl eq_refl))) eq_refl).
Defined.

(** X26: whenever a run calls the worker factory, it asks for the
    configured OCR language. *)
Theorem X26_factory_is_asked_for_the_configured_language (W : World)
  (ocrLanguage : string) (s s' : State) (r : Error + list (list Json.t)) :
  getNodeParameterString W "ocrLanguage" 0 None = inr ocrLanguage ->
  execute W s = (r, s') ->
  exists new,
    log s' = (new ++ log s)%list /\
    Forall (fun e => forall l, languageAsked e = Some l -> l = ocrLanguage)
      new.
Proof.
  intros Hlang Hrun.
  refine (execute_calls_within W _ s s' r _ _ Hrun).
  - intros bp op lang pre k e Hc He l Hl.
    assert (lang = ocrLanguage)
      by (destruct Hc as (_ & _ & Hc & _); congruence).
    subst lang.
    destruct e; cbn in Hl; try discriminate. inversion Hl; subst l.
    cbn in He. destruct He as (m & n & ft & _ & Hk).
    destruct ft as [[| | | |]|x]; cbn in Hk;
      first [exact Hk | now elim Hk
            | destruct Hk as (st & _ & Hk & _); exact Hk].
  - left. intros w x l Hl. discriminate.
Qed.

Lemma X26_factory_is_asked_for_the_configured_language_witness :
  exists new,
    log (snd (execute Scenario.batch Scenario.start)) = new /\
    asked new = 1%nat /\
    Forall (fun e => forall l, languageAsked e = Some l -> l = "fra") new.
Proof.
  destruct (X26_factory_is_asked_for_the_configured_language Scenario.batch
              "fra" Scenario.start _ _ eq_refl (surjective_pairing _))
    as (new & Hlog & Hall).
  exists new. cbn [Scenario.start log] in Hlog. rewrite app_nil_r in Hlog.
  split; [exact Hlog|]. split; [|exact Hall].
  rewrite <- Hlog. vm_compute. reflexivity.
Defined.
